(** * Kien Quoc game session engine: a shallow embedding and its properties

    The development follows the backend of the repository:
    - [backend/config/*.py]          -> modules [scoring_config], [game_config],
                                        [events_config], [board_config]
    - [backend/room/schemas.py]      -> records [Placement], [Team], [Room]
    - [backend/game/schemas.py]      -> [NationalIndices], [BoardCell], [GameState] ...
    - [backend/game/scoring.py]      -> module [ScoringService]
    - [backend/game/service.py]      -> module [GameService]
    - [backend/websocket/manager.py] -> module [ConnectionManager]
    - [backend/websocket/state_filter.py] -> [filter_game_state]
    - [backend/store/room_store.py]  -> module [RoomStore]
    - [backend/room/service.py]      -> module [RoomService]
    - [backend/room/router.py]       -> module [room_router]
    - [backend/config/regions_config.py], [backend/utils/room_code.py]
                                     -> modules [regions_config], [room_code]

    Python values are modelled as the interpreter has them: [int] is [Z],
    [float] is the kernel's binary64 float, [str] is [string], a [dict] is an
    insertion-ordered association list with unique keys, exceptions are an
    explicit outcome, and in-place mutation is explicit state passing.  What
    a client sends is JSON, and the handlers hand it to the engine as it
    comes: the engine's arguments that come from a message are JSON values,
    and a field the engine assigns without validation holds whatever number
    the assignment left there. *)

From Stdlib Require Import ZArith Floats Lia Sorted.
From stdpp Require Import base option list strings gmap.

Open Scope string_scope.
Open Scope list_scope.
Open Scope Z_scope.

(* ===================================================================== *)
(** * Part I. The Python run time the code relies on                     *)
(* ===================================================================== *)

(** ** Exceptions and fallible computations *)

Inductive exn : Type :=
| ValueError (msg : string)
| ValidationError            (* pydantic's; a [ValueError] *)
| KeyError (key : string)
| TypeError
| AttributeError
| OverflowError
| ZeroDivisionError.

Inductive result (A : Type) : Type :=
| Ok (a : A)
| Raise (e : exn).
Arguments Ok {A} a.
Arguments Raise {A} e.

Definition rbind {A B} (c : result A) (k : A -> result B) : result B :=
  match c with
  | Ok a => k a
  | Raise e => Raise e
  end.

Notation "'do' x <~ c ; k" := (rbind c (fun x => k))
  (at level 10, x name, c at level 100, k at level 200).

Definition is_Ok {A} (c : result A) : Prop := exists a, c = Ok a.

(** A [for] loop whose body may raise: the first exception ends the loop. *)
Fixpoint rfold {A S} (body : S -> A -> result S) (s : S) (l : list A) : result S :=
  match l with
  | [] => Ok s
  | x :: l' => do s' <~ body s x ; rfold body s' l'
  end.

(** ** Dictionaries: insertion-ordered, one entry per key *)

Module dict.

Definition t (V : Type) : Type := list (string * V).

Definition empty {V} : t V := [].

(** [d.get(k)] *)
Fixpoint get {V} (k : string) (d : t V) : option V :=
  match d with
  | [] => None
  | (k', v) :: d' => if decide (k = k') then Some v else get k d'
  end.

(** [d[k] = v]: an existing key keeps its position, a new key goes last. *)
Fixpoint set {V} (k : string) (v : V) (d : t V) : t V :=
  match d with
  | [] => [(k, v)]
  | (k', v') :: d' =>
      if decide (k = k') then (k, v) :: d' else (k', v') :: set k v d'
  end.

(** [d.pop(k, None)], the dictionary that is left. *)
Fixpoint pop {V} (k : string) (d : t V) : t V :=
  match d with
  | [] => []
  | (k', v') :: d' => if decide (k = k') then d' else (k', v') :: pop k d'
  end.

(** [k in d] *)
Definition mem {V} (k : string) (d : t V) : bool :=
  match get k d with Some _ => true | None => false end.

(** [d[k]], a [KeyError] when the key is absent. *)
Definition item {V} (k : string) (d : t V) : result V :=
  match get k d with
  | Some v => Ok v
  | None => Raise (KeyError k)
  end.

Definition keys {V} (d : t V) : list string := map fst d.

(** A dict display or comprehension: later entries overwrite earlier ones. *)
Definition of_list {V} (l : list (string * V)) : t V :=
  fold_left (fun d kv => set (fst kv) (snd kv) d) l empty.

End dict.

(** ** JSON

    [json.loads] reads a number without fraction or exponent as an [int] of
    any size, any other number as a [float], and accepts [NaN], [Infinity]
    and [-Infinity]. *)

(** JSON-like message values: what a client sends, what
    [model_dump(mode='json')] produces and [send_json] accepts. *)
#[warnings="-register-all"]
Inductive json : Type :=
| JNull
| JBool (b : bool)
| JInt (z : Z)
| JFloat (x : float)
| JStr (s : string)
| JList (l : list json)
| JDict (d : list (string * json)).

(** ** Numbers

    [int] is unbounded ([Z]); [float] is IEEE 754 binary64 with
    round-to-nearest-even, which is what the kernel's [float] computes. *)

(** [float(z)] as CPython converts an [int] operand of a float operation:
    correctly rounded, [OverflowError] when the rounded value would not be
    finite, that is from [2^1024 - 2^970] on. *)
Definition round_int (z : Z) : float :=
  SF2Prim (binary_normalize prec emax z 0 false).

Definition float_max_int : Z := 2 ^ 1024 - 2 ^ 970.

Definition float_of_int (z : Z) : result float :=
  if Z.abs z <? float_max_int
  then Ok (round_int z)
  else Raise OverflowError.

(** [float(len(l))]: a length always fits (it is below [2^63]). *)
Definition float_of_len (n : nat) : float := round_int (Z.of_nat n).

(** [z * x] for an [int] z and a [float] x. *)
Definition int_mul_float (z : Z) (x : float) : result float :=
  do f <~ float_of_int z ; Ok (PrimFloat.mul f x).

(** [x / len(l)] for a [float] x. *)
Definition float_div_len (x : float) (n : nat) : result float :=
  match n with
  | O => Raise ZeroDivisionError
  | S _ => Ok (PrimFloat.div x (float_of_len n))
  end.

(** [a / b] for two [int]s: the correctly rounded quotient.  The quotient is
    computed with at least 55 significant bits and a sticky bit, so rounding
    it rounds the exact quotient. *)
Definition int_truediv (a b : Z) : result float :=
  if b =? 0 then Raise ZeroDivisionError
  else if a =? 0 then Ok (if b <? 0 then (-0)%float else 0%float)
  else
    let na := Z.abs a in
    let nb := Z.abs b in
    let s := Z.max 0 (56 + Z.log2 nb - Z.log2 na) in
    let q := Z.shiftl na s / nb in
    let sticky := if Z.shiftl na s mod nb =? 0 then 0 else 1 in
    let m := 2 * q + sticky in
    let sm := if Z.eqb (Z.sgn a) (Z.sgn b) then m else - m in
    let r := SF2Prim (binary_normalize prec emax sm (- s - 1) false) in
    if PrimFloat.is_infinity r then Raise OverflowError else Ok r.

(** [int(x)] for a [float] x: truncation toward zero. *)
Definition int_of_float (x : float) : result Z :=
  match Prim2SF x with
  | S754_zero _ => Ok 0
  | S754_finite s m e =>
      let mag := if 0 <=? e then Z.pos m * 2 ^ e else Z.pos m / 2 ^ (- e) in
      Ok (if s then - mag else mag)
  | S754_infinity _ => Raise OverflowError
  | S754_nan => Raise (ValueError "cannot convert float NaN to integer")
  end.

(** A score is an [int] or a [float]: the code stores the literal [0] next to
    float products in the same dictionaries. *)
Inductive num : Type :=
| PInt (z : Z)
| PFloat (x : float).

(** [a + b] with Python's coercion of an [int] operand to [float]. *)
Definition num_add (a b : num) : result num :=
  match a, b with
  | PInt x, PInt y => Ok (PInt (x + y))
  | PInt x, PFloat y => do f <~ float_of_int x ; Ok (PFloat (PrimFloat.add f y))
  | PFloat x, PInt y => do f <~ float_of_int y ; Ok (PFloat (PrimFloat.add x f))
  | PFloat x, PFloat y => Ok (PFloat (PrimFloat.add x y))
  end.

(** [int(a)] *)
Definition num_int (a : num) : result Z :=
  match a with
  | PInt z => Ok z
  | PFloat x => int_of_float x
  end.

(** [a == b] on numbers. *)
Definition num_eqb (a b : num) : bool :=
  match a, b with
  | PInt x, PInt y => x =? y
  | PFloat x, PFloat y => PrimFloat.eqb x y
  | PInt x, PFloat y | PFloat y, PInt x =>
      match Prim2SF y with
      | S754_zero _ => x =? 0
      | S754_finite s m e =>
          let v := if s then - Z.pos m else Z.pos m in
          if 0 <=? e then x =? v * 2 ^ e else v =? x * 2 ^ (- e)
      | _ => false
      end
  end.

(** [a - b] with the same coercion. *)
Definition num_sub (a b : num) : result num :=
  match a, b with
  | PInt x, PInt y => Ok (PInt (x - y))
  | PInt x, PFloat y => do f <~ float_of_int x ; Ok (PFloat (PrimFloat.sub f y))
  | PFloat x, PInt y => do f <~ float_of_int y ; Ok (PFloat (PrimFloat.sub x f))
  | PFloat x, PFloat y => Ok (PFloat (PrimFloat.sub x y))
  end.

(** [a * x] for a number [a] and a [float] [x]. *)
Definition num_mul_float (a : num) (x : float) : result float :=
  match a with
  | PInt z => int_mul_float z x
  | PFloat y => Ok (PrimFloat.mul y x)
  end.

(** [z > x] and [x > z] for an [int] z and a [float] x: Python compares the
    two values exactly, without converting the [int]. *)
Definition int_gt_float (z : Z) (x : float) : bool :=
  match Prim2SF x with
  | S754_zero _ => 0 <? z
  | S754_finite s m e =>
      let v := if s then - Z.pos m else Z.pos m in
      if 0 <=? e then v * 2 ^ e <? z else v <? z * 2 ^ (- e)
  | S754_infinity s => s
  | S754_nan => false
  end.

Definition float_gt_int (x : float) (z : Z) : bool :=
  match Prim2SF x with
  | S754_zero _ => z <? 0
  | S754_finite s m e =>
      let v := if s then - Z.pos m else Z.pos m in
      if 0 <=? e then z <? v * 2 ^ e else z * 2 ^ (- e) <? v
  | S754_infinity s => negb s
  | S754_nan => false
  end.

(** [a > b] and [a >= b] on numbers; a comparison with NaN is false. *)
Definition num_gt (a b : num) : bool :=
  match a, b with
  | PInt x, PInt y => y <? x
  | PInt x, PFloat y => int_gt_float x y
  | PFloat x, PInt y => float_gt_int x y
  | PFloat x, PFloat y => PrimFloat.ltb y x
  end.

Definition num_ge (a b : num) : bool := num_gt a b || num_eqb a b.

(** A number as a client can leave it where the model declares an [int]: an
    [int], a [float] or a [bool].  A [bool] counts as the [int] 0 or 1 in
    arithmetic and comparisons. *)
Inductive number : Type :=
| NInt (z : Z)
| NFloat (x : float)
| NBool (b : bool).

Definition to_num (a : number) : num :=
  match a with
  | NInt z => PInt z
  | NFloat x => PFloat x
  | NBool b => PInt (if b then 1 else 0)
  end.

Definition of_num (a : num) : number :=
  match a with
  | PInt z => NInt z
  | PFloat x => NFloat x
  end.

(** The JSON values that are numbers to Python's arithmetic; with any other
    operand [-] raises a [TypeError]. *)
Definition as_number (v : json) : option number :=
  match v with
  | JInt z => Some (NInt z)
  | JFloat x => Some (NFloat x)
  | JBool b => Some (NBool b)
  | _ => None
  end.

(** [a > 0], [a < 0] and [a == 0] *)
Definition is_positive (a : number) : bool := num_gt (to_num a) (PInt 0).
Definition is_negative (a : number) : bool := num_gt (PInt 0) (to_num a).
Definition is_zero (a : number) : bool := num_eqb (to_num a) (PInt 0).

(** [x is y or x == y] on numbers, as a comparison of containers has it;
    the same value stands for the same object. *)
Definition number_is_or_eq (a b : number) : bool :=
  match a, b with
  | NInt x, NInt y => x =? y
  | NBool x, NBool y => bool_decide (x = y)
  | NFloat x, NFloat y =>
      PrimFloat.eqb x y || (PrimFloat.is_nan x && PrimFloat.is_nan y)
  | _, _ => num_eqb (to_num a) (to_num b)
  end.

(** ** Validation by pydantic

    A model validates the arguments of its constructor, in pydantic 2's
    default (lax) mode, and raises a [ValidationError] when one does not
    pass.  An [int] field takes an [int] as it is, a [bool] as 0 or 1, and a
    [float] that is finite, has no fractional part and lies strictly between
    [-2^63] and [2^63]; a [str] field takes a [str] only.  Assignments to the
    fields of a model are not validated (no model of the repository sets
    [validate_assignment]). *)
Definition validate_int (a : number) : option Z :=
  match a with
  | NInt z => Some z
  | NBool b => Some (if b then 1 else 0)
  | NFloat x =>
      match Prim2SF x with
      | S754_zero _ => Some 0
      | S754_finite s m e =>
          let sign (v : Z) := if s then - v else v in
          if 0 <=? e
          then if Z.pos m * 2 ^ e <? 2 ^ 63 then Some (sign (Z.pos m * 2 ^ e)) else None
          else if Z.pos m mod 2 ^ (- e) =? 0 then Some (sign (Z.pos m / 2 ^ (- e)))
               else None
      | _ => None
      end
  end.

Definition validate_str (v : json) : option string :=
  match v with
  | JStr s => Some s
  | _ => None
  end.

(** The loop [scores = {}; for x in l: scores[key(x)] = value(x)]. *)
Definition fill_scores {A} (key : A -> string) (value : A -> result num)
    (l : list A) : result (dict.t num) :=
  rfold (fun scores x => do v <~ value x ; Ok (dict.set (key x) v scores))
        dict.empty l.

(** [sum(l)] and [max(l)] over [int]s. *)
Definition sum_int (l : list Z) : Z := fold_left Z.add l 0.

Definition max_int (l : list Z) : result Z :=
  match l with
  | [] => Raise (ValueError "max() arg is an empty sequence")
  | x :: l' => Ok (fold_left Z.max l' x)
  end.

(** [next((x for x in l if p(x)), None)] *)
Fixpoint find_first {A} (p : A -> bool) (l : list A) : option A :=
  match l with
  | [] => None
  | x :: l' => if p x then Some x else find_first p l'
  end.

(** The object found by [find_first] is mutated in place: the list keeps its
    order and every other element. *)
Fixpoint update_first {A} (p : A -> bool) (f : A -> A) (l : list A) : list A :=
  match l with
  | [] => []
  | x :: l' => if p x then f x :: l' else x :: update_first p f l'
  end.

(** [l.remove(x)] with [==] given by [eqb]: the first equal element goes,
    [ValueError] when there is none. *)
Fixpoint list_remove {A} (eqb : A -> A -> bool) (x : A) (l : list A) : result (list A) :=
  match l with
  | [] => Raise (ValueError "list.remove(x): x not in list")
  | y :: l' =>
      if eqb y x then Ok l'
      else do r <~ list_remove eqb x l' ; Ok (y :: r)
  end.

(* ===================================================================== *)
(** * Part II. Configuration (backend/config)                            *)
(* ===================================================================== *)

Inductive CellType : Type :=
| COMPETITIVE | SYNERGY | SHARED | COOPERATION | PROJECT.

#[global] Instance CellType_eq_dec : EqDecision CellType.
Proof. solve_decision. Defined.

Module scoring_config.

#[warnings="-inexact-float"]
Definition CELL_MULTIPLIERS : list (CellType * float) :=
  [ (COMPETITIVE, 1.5%float);
    (SYNERGY, 1.8%float);
    (SHARED, 1.5%float);
    (COOPERATION, 2.5%float);
    (PROJECT, 1.0%float) ].

Definition COOPERATION_MIN_TEAMS : Z := 2.
Definition PROJECT_SUCCESS_BONUS_PER_RP : float := 1.0%float.

(** [CELL_MULTIPLIERS.get(ty, default)] *)
Definition get_multiplier (ty : CellType) (default : float) : float :=
  match find_first (fun kv => bool_decide (fst kv = ty)) CELL_MULTIPLIERS with
  | Some kv => snd kv
  | None => default
  end.

End scoring_config.

Module game_config.

Definition MAX_TURNS : Z := 8.
Definition RESOURCES_PER_TURN : Z := 14.
Definition NUM_TEAMS : Z := 5.
Definition PHASE_EVENT_DURATION : Z := 15.
Definition PHASE_ACTION_DURATION : Z := 60.
Definition PHASE_RESOLUTION_DURATION : Z := 3.
Definition PHASE_RESULT_DURATION : Z := 15.
Definition INDEX_MINIMUM : Z := 0.
Definition SURVIVAL_WARNING_THRESHOLD : Z := 6.
Definition INDEX_MAXIMUM : Z := 30.

Definition STARTING_INDICES : dict.t Z :=
  [ ("economy", 10); ("society", 10); ("culture", 10);
    ("integration", 10); ("environment", 10); ("science", 10) ].

Definition MAINTENANCE_COST : dict.t Z :=
  [ ("economy", 1); ("society", 1); ("culture", 1);
    ("integration", 1); ("environment", 1); ("science", 1) ].

End game_config.

(* ===================================================================== *)
(** * Part III. Scoring (backend/game/scoring.py)                        *)
(* ===================================================================== *)

Module CellPlacement.
Record t : Type := mk { team_id : string; amount : Z }.
(** [CellPlacement(team_id=team_id, amount=amount)] for a team's id. *)
Definition new (team_id : string) (amount : number) : result t :=
  match validate_int amount with
  | Some z => Ok (mk team_id z)
  | None => Raise ValidationError
  end.
End CellPlacement.

(** An entry [{team_id, amount}] of [ProjectStatus.contributing_teams]: a
    dictionary, whose amount is the one of the team's placement, as it is. *)
Module Contribution.
Record t : Type := mk { team_id : string; amount : number }.
End Contribution.

(** [[c for c in contributions if c['amount'] > 0]] *)
Definition positive_entries (cs : list Contribution.t) : list Contribution.t :=
  filter (fun c => is_positive (Contribution.amount c) = true) cs.

(** [sum(l)]: the numbers are added to 0 from left to right.  This is exact
    on [int]s, the amounts the data model declares; on a run of [float]s
    CPython from 3.12 on adds a compensation term at the end, which can
    change the last bit of the sum and is not modelled. *)
Definition sum_numbers (l : list number) : result num :=
  rfold (fun acc a => num_add acc (to_num a)) (PInt 0) l.

Module BoardCell.
Record t : Type := mk {
  id : string;
  position : Z * Z;
  type : CellType;
  name : string;
  indices : list string;
  placements : list CellPlacement.t }.
Definition with_placements (ps : list CellPlacement.t) (c : t) : t :=
  mk (id c) (position c) (type c) (name c) (indices c) ps.
End BoardCell.

Module ScoringService.

(** The loop [for p in placements: scores[p.team_id] = value(p)]. *)
Definition score_each (value : CellPlacement.t -> result num)
    (placements : list CellPlacement.t) : result (dict.t num) :=
  fill_scores CellPlacement.team_id value placements.

Definition _score_competitive (placements : list CellPlacement.t)
    (multiplier : float) : result (dict.t num) :=
  do max_amount <~ max_int (map CellPlacement.amount placements) ;
  let winners := filter (fun p => CellPlacement.amount p = max_amount) placements in
  do total_pool <~ int_mul_float max_amount multiplier ;
  do prize_per_winner <~ float_div_len total_pool (length winners) ;
  score_each (fun p => Ok (if CellPlacement.amount p =? max_amount
                           then PFloat prize_per_winner else PInt 0))
             placements.

Definition _score_synergy (placements : list CellPlacement.t)
    (multiplier : float) : result (dict.t num) :=
  score_each (fun p => do v <~ int_mul_float (CellPlacement.amount p) multiplier ;
                       Ok (PFloat v))
             placements.

Definition _score_shared (placements : list CellPlacement.t)
    (multiplier : float) : result (dict.t num) :=
  let total := sum_int (map CellPlacement.amount placements) in
  do total_pool <~ int_mul_float total multiplier ;
  score_each (fun p => if 0 <? total
                       then do share <~ int_truediv (CellPlacement.amount p) total ;
                            Ok (PFloat (PrimFloat.mul share total_pool))
                       else Ok (PInt 0))
             placements.

Definition _score_cooperation (placements : list CellPlacement.t)
    (multiplier : float) : result (dict.t num) :=
  let min_teams := scoring_config.COOPERATION_MIN_TEAMS in
  if Z.of_nat (length placements) <? min_teams
  then score_each (fun p => Ok (PInt 0)) placements
  else score_each (fun p => do v <~ int_mul_float (CellPlacement.amount p) multiplier ;
                            Ok (PFloat v))
                  placements.

Definition calculate_cell_scores (cell : BoardCell.t) : result (dict.t num) :=
  let placements :=
    filter (fun p => 0 < CellPlacement.amount p) (BoardCell.placements cell) in
  match placements with
  | [] => Ok dict.empty
  | _ =>
      let multiplier := scoring_config.get_multiplier (BoardCell.type cell) 1.0%float in
      match BoardCell.type cell with
      | COMPETITIVE => _score_competitive placements multiplier
      | SYNERGY => _score_synergy placements multiplier
      | SHARED => _score_shared placements multiplier
      | COOPERATION => _score_cooperation placements multiplier
      | PROJECT => Ok dict.empty
      end
  end.

(** The dictionary [calculate_project_result] returns. *)
Record ProjectResult : Type := mkProjectResult {
  success : bool;
  total_contributed : num;
  teams_contributed : Z;
  team_scores : dict.t num }.

Definition calculate_project_result (contributions : list Contribution.t)
    (min_total min_teams : Z) : result ProjectResult :=
  do total <~ sum_numbers (map Contribution.amount contributions) ;
  let num_teams := Z.of_nat (length (positive_entries contributions)) in
  let success := num_ge total (PInt min_total) && (min_teams <=? num_teams) in
  let bonus_per_rp := scoring_config.PROJECT_SUCCESS_BONUS_PER_RP in
  do team_scores <~
    (if success
     then fill_scores Contribution.team_id
            (fun c => do v <~ num_mul_float (to_num (Contribution.amount c)) bonus_per_rp ;
                      Ok (PFloat v))
            contributions
     else fill_scores Contribution.team_id (fun c => Ok (PInt 0)) contributions) ;
  Ok (mkProjectResult success total num_teams team_scores).

End ScoringService.

(* ===================================================================== *)
(** * Part IV. Data model (backend/room/schemas.py, backend/game/schemas.py) *)
(* ===================================================================== *)

Inductive RoomStatus : Type := WAITING | PLAYING | PAUSED | FINISHED.
Inductive GamePhase : Type := EVENT | ACTION | RESOLUTION | RESULT.
Inductive ClientRole : Type := HOST | PLAYER | SPECTATOR.

#[global] Instance RoomStatus_eq_dec : EqDecision RoomStatus.
Proof. solve_decision. Defined.
#[global] Instance GamePhase_eq_dec : EqDecision GamePhase.
Proof. solve_decision. Defined.
#[global] Instance ClientRole_eq_dec : EqDecision ClientRole.
Proof. solve_decision. Defined.

(** A [datetime] is kept as its ISO 8601 text: the engine stores and sends
    instants and never computes with them. *)
Definition datetime : Type := string.

Module Region.
Record t : Type := mk { id : string; name : string; description : string }.
End Region.

(** [amount] is declared an [int]; the constructor validates it, an
    assignment does not. *)
Module Placement.
Record t : Type := mk { cell_id : string; amount : number }.
Definition with_amount (a : number) (p : t) : t := mk (cell_id p) a.
(** [p is q or p == q], as [list.remove] compares: two models are equal
    when their fields are, field by field. *)
Definition eqb (p q : t) : bool :=
  bool_decide (cell_id p = cell_id q) && number_is_or_eq (amount p) (amount q).
(** [Placement(cell_id=cell_id, amount=amount)] *)
Definition new (cell_id : json) (amount : number) : result t :=
  match validate_str cell_id, validate_int amount with
  | Some c, Some z => Ok (mk c (NInt z))
  | _, _ => Raise ValidationError
  end.
End Placement.

Module Team.
Record t : Type := mk {
  id : string;
  index : Z;
  name : string;
  region : Region.t;
  session_token : string;
  score : Z;
  resources : num;
  placements : list Placement.t;
  has_submitted : bool;
  is_connected : bool }.
Definition with_score (s : Z) (x : t) : t :=
  mk (id x) (index x) (name x) (region x) (session_token x) s
     (resources x) (placements x) (has_submitted x) (is_connected x).
Definition with_resources (r : num) (x : t) : t :=
  mk (id x) (index x) (name x) (region x) (session_token x) (score x)
     r (placements x) (has_submitted x) (is_connected x).
Definition with_placements (ps : list Placement.t) (x : t) : t :=
  mk (id x) (index x) (name x) (region x) (session_token x) (score x)
     (resources x) ps (has_submitted x) (is_connected x).
Definition with_has_submitted (b : bool) (x : t) : t :=
  mk (id x) (index x) (name x) (region x) (session_token x) (score x)
     (resources x) (placements x) b (is_connected x).
Definition with_is_connected (b : bool) (x : t) : t :=
  mk (id x) (index x) (name x) (region x) (session_token x) (score x)
     (resources x) (placements x) (has_submitted x) b.
Definition with_session_token (tok : string) (x : t) : t :=
  mk (id x) (index x) (name x) (region x) tok (score x)
     (resources x) (placements x) (has_submitted x) (is_connected x).
End Team.

Module NationalIndices.
Record t : Type := mk {
  economy : Z;
  society : Z;
  culture : Z;
  integration : Z;
  environment : Z;
  science : Z }.

(** [NationalIndices()]: the declared defaults. *)
Definition default : t := mk 10 10 10 10 10 10.

Inductive field : Type :=
| Economy | Society | Culture | Integration | Environment | Science.

Definition fields : list field :=
  [Economy; Society; Culture; Integration; Environment; Science].

(** The declared field a key names.  [hasattr(self, key)] holds for these
    six keys; a key that names nothing on the object is skipped.  Keys that
    name a method or another attribute of the model object are no index
    names and stay outside the model. *)
Definition field_of (key : string) : option field :=
  if decide (key = "economy") then Some Economy
  else if decide (key = "society") then Some Society
  else if decide (key = "culture") then Some Culture
  else if decide (key = "integration") then Some Integration
  else if decide (key = "environment") then Some Environment
  else if decide (key = "science") then Some Science
  else None.

(** [getattr(self, key)] *)
Definition getattr (x : t) (f : field) : Z :=
  match f with
  | Economy => economy x
  | Society => society x
  | Culture => culture x
  | Integration => integration x
  | Environment => environment x
  | Science => science x
  end.

(** [setattr(self, key, v)] *)
Definition setattr (x : t) (f : field) (v : Z) : t :=
  match f with
  | Economy => mk v (society x) (culture x) (integration x) (environment x) (science x)
  | Society => mk (economy x) v (culture x) (integration x) (environment x) (science x)
  | Culture => mk (economy x) (society x) v (integration x) (environment x) (science x)
  | Integration => mk (economy x) (society x) (culture x) v (environment x) (science x)
  | Environment => mk (economy x) (society x) (culture x) (integration x) v (science x)
  | Science => mk (economy x) (society x) (culture x) (integration x) (environment x) v
  end.

(** [NationalIndices] built from the keyword arguments [d]: a field the
    dictionary names takes its value, the others their default. *)
Definition of_dict (d : dict.t Z) : t :=
  fold_left (fun x kv => match field_of (fst kv) with
                         | Some f => setattr x f (snd kv)
                         | None => x
                         end) d default.

(** One round of the loop of [apply_changes]. *)
Definition apply_change (max_val : Z) (x : t) (kd : string * Z) : t :=
  match field_of (fst kd) with
  | Some f =>
      let current := getattr x f in
      let new_val := Z.max 0 (Z.min max_val (current + snd kd)) in
      setattr x f new_val
  | None => x
  end.

Definition apply_changes (x : t) (changes : dict.t Z) (max_val : Z) : t :=
  fold_left (apply_change max_val) changes x.

(** The default of the parameter [max_val]. *)
Definition max_val_default : Z := 30.

Definition is_any_zero (x : t) : bool :=
  (economy x <=? 0) || (society x <=? 0) || (culture x <=? 0)
  || (integration x <=? 0) || (environment x <=? 0) || (science x <=? 0).

Definition get_zero_index (x : t) : option string :=
  if economy x <=? 0 then Some "economy"
  else if society x <=? 0 then Some "society"
  else if culture x <=? 0 then Some "culture"
  else if integration x <=? 0 then Some "integration"
  else if environment x <=? 0 then Some "environment"
  else if science x <=? 0 then Some "science"
  else None.

End NationalIndices.

Module TurnEvent.
Record t : Type := mk {
  turn : Z;
  year : Z;
  name : string;
  project : string;
  min_total : Z;
  min_teams : Z;
  success_reward : dict.t Z;
  failure_penalty : dict.t Z }.
End TurnEvent.

Module ProjectStatus.
Record t : Type := mk {
  total_contributed : num;
  contributing_teams : list Contribution.t;
  min_total : Z;
  min_teams : Z;
  status : string }.
(** [ProjectStatus(min_total=a, min_teams=b)] *)
Definition new (min_total min_teams : Z) : t :=
  mk (PInt 0) [] min_total min_teams "pending".
Definition with_status (s : string) (x : t) : t :=
  mk (total_contributed x) (contributing_teams x) (min_total x) (min_teams x) s.
Definition with_contributions (total : num) (cs : list Contribution.t) (x : t) : t :=
  mk total cs (min_total x) (min_teams x) (status x).
End ProjectStatus.

Module GameState.
Record t : Type := mk {
  current_turn : Z;
  current_phase : GamePhase;
  phase_start_time : option datetime;
  phase_time_limit : Z;
  is_paused : bool;
  paused_time_remaining : option Z;
  national_indices : NationalIndices.t;
  current_event : option TurnEvent.t;
  project_status : option ProjectStatus.t;
  board : list BoardCell.t }.
Definition with_current_turn (n : Z) (g : t) : t :=
  mk n (current_phase g) (phase_start_time g) (phase_time_limit g) (is_paused g)
     (paused_time_remaining g) (national_indices g) (current_event g)
     (project_status g) (board g).
Definition with_current_phase (p : GamePhase) (g : t) : t :=
  mk (current_turn g) p (phase_start_time g) (phase_time_limit g) (is_paused g)
     (paused_time_remaining g) (national_indices g) (current_event g)
     (project_status g) (board g).
Definition with_phase_start_time (s : option datetime) (g : t) : t :=
  mk (current_turn g) (current_phase g) s (phase_time_limit g) (is_paused g)
     (paused_time_remaining g) (national_indices g) (current_event g)
     (project_status g) (board g).
Definition with_phase_time_limit (l : Z) (g : t) : t :=
  mk (current_turn g) (current_phase g) (phase_start_time g) l (is_paused g)
     (paused_time_remaining g) (national_indices g) (current_event g)
     (project_status g) (board g).
Definition with_is_paused (b : bool) (g : t) : t :=
  mk (current_turn g) (current_phase g) (phase_start_time g) (phase_time_limit g) b
     (paused_time_remaining g) (national_indices g) (current_event g)
     (project_status g) (board g).
Definition with_national_indices (n : NationalIndices.t) (g : t) : t :=
  mk (current_turn g) (current_phase g) (phase_start_time g) (phase_time_limit g)
     (is_paused g) (paused_time_remaining g) n (current_event g)
     (project_status g) (board g).
Definition with_current_event (e : option TurnEvent.t) (g : t) : t :=
  mk (current_turn g) (current_phase g) (phase_start_time g) (phase_time_limit g)
     (is_paused g) (paused_time_remaining g) (national_indices g) e
     (project_status g) (board g).
Definition with_project_status (p : option ProjectStatus.t) (g : t) : t :=
  mk (current_turn g) (current_phase g) (phase_start_time g) (phase_time_limit g)
     (is_paused g) (paused_time_remaining g) (national_indices g) (current_event g)
     p (board g).
Definition with_board (b : list BoardCell.t) (g : t) : t :=
  mk (current_turn g) (current_phase g) (phase_start_time g) (phase_time_limit g)
     (is_paused g) (paused_time_remaining g) (national_indices g) (current_event g)
     (project_status g) b.
End GameState.

Module Room.
Record t : Type := mk {
  code : string;
  host_name : string;
  host_token : string;
  status : RoomStatus;
  teams : list Team.t;
  game_state : option GameState.t;
  created_at : datetime }.
Definition with_status (s : RoomStatus) (r : t) : t :=
  mk (code r) (host_name r) (host_token r) s (teams r) (game_state r) (created_at r).
Definition with_teams (ts : list Team.t) (r : t) : t :=
  mk (code r) (host_name r) (host_token r) (status r) ts (game_state r) (created_at r).
Definition with_game_state (g : option GameState.t) (r : t) : t :=
  mk (code r) (host_name r) (host_token r) (status r) (teams r) g (created_at r).
Definition with_host_token (tok : string) (r : t) : t :=
  mk (code r) (host_name r) tok (status r) (teams r) (game_state r) (created_at r).
End Room.

(** Entries of the lists a [TurnResult] carries. *)
Module ProjectContribution.
Record t : Type := mk { team_id : string; amount : number; points : num }.
End ProjectContribution.

Module CellResult.
Record t : Type := mk { cell_id : string; team_scores : list (string * num) }.
End CellResult.

Module TeamScore.
Record t : Type := mk { team_id : string; turn_score : Z; total_score : Z }.
End TeamScore.

Module TurnResult.
Record t : Type := mk {
  turn : Z;
  project_success : bool;
  project_contributions : list ProjectContribution.t;
  cell_results : list CellResult.t;
  index_changes : dict.t Z;
  new_indices : NationalIndices.t;
  team_scores : list TeamScore.t }.
End TurnResult.

(** ** Turn events (backend/config/events_config.py) *)

Module events_config.

Definition TURN_EVENTS : list (Z * TurnEvent.t) :=
  [ (1, TurnEvent.mk 1 1986 "Khủng hoảng lạm phát 774%" "Nghị quyết Khoán 10" 20 3
          [("points", 8); ("economy", 4); ("society", 3)]
          [("economy", -4); ("society", -3)]);
    (2, TurnEvent.mk 2 1987 "Cấm vận quốc tế bóp nghẹt" "Luật Đầu tư Nước ngoài" 21 3
          [("points", 10); ("integration", 5); ("economy", 3)]
          [("integration", -4); ("economy", -3)]);
    (3, TurnEvent.mk 3 1991 "Liên Xô sụp đổ, viện trợ chấm dứt" "Tự lực cánh sinh" 22 3
          [("points", 12); ("science", 4); ("economy", 4)]
          [("economy", -4); ("science", -3)]);
    (4, TurnEvent.mk 4 1993 "Thiên tai lũ lụt miền Trung" "Cứu trợ quốc gia" 23 3
          [("points", 12); ("environment", 5); ("society", 3)]
          [("environment", -4); ("society", -3)]);
    (5, TurnEvent.mk 5 1994 "Áp lực mở cửa kinh tế" "Mỹ dỡ bỏ cấm vận" 24 3
          [("points", 14); ("integration", 4); ("economy", 4)]
          [("integration", -4); ("economy", -3)]);
    (6, TurnEvent.mk 6 1995 "Hội nhập khu vực" "Gia nhập ASEAN" 25 3
          [("points", 14); ("integration", 5); ("culture", 3)]
          [("integration", -5); ("culture", -4)]);
    (7, TurnEvent.mk 7 2000 "Cạnh tranh toàn cầu hóa" "Hiệp định Thương mại Việt-Mỹ" 26 3
          [("points", 16); ("economy", 5); ("science", 3)]
          [("economy", -5); ("science", -4)]);
    (8, TurnEvent.mk 8 2007 "Hội nhập sâu rộng" "Gia nhập WTO" 28 4
          [("points", 20); ("economy", 3); ("society", 3); ("culture", 3);
           ("integration", 3); ("environment", 3); ("science", 3)]
          [("economy", -5); ("society", -5); ("culture", -5);
           ("integration", -5); ("environment", -5); ("science", -5)]) ].

Definition get_event_by_turn (turn : Z) : option TurnEvent.t :=
  match find_first (fun kv => fst kv =? turn) TURN_EVENTS with
  | Some kv => Some (snd kv)
  | None => None
  end.

End events_config.

(** ** Board layout (backend/config/board_config.py) *)

Module board_config.

Record CellConfig : Type := mkCellConfig {
  name : string;
  type : CellType;
  indices : list string }.

Definition BOARD_CELLS : list ((Z * Z) * CellConfig) :=
  [ ((0, 0), mkCellConfig "Cửa khẩu Lạng Sơn" COOPERATION ["integration"; "economy"]);
    ((0, 1), mkCellConfig "Đại học Bách khoa" SYNERGY ["science"; "society"]);
    ((0, 2), mkCellConfig "Viện Hàn lâm" SYNERGY ["science"; "culture"]);
    ((0, 3), mkCellConfig "Khu CN Việt Trì" COMPETITIVE ["economy"; "environment"]);
    ((1, 0), mkCellConfig "Đồng bằng sông Hồng" SHARED ["society"; "environment"]);
    ((1, 1), mkCellConfig "Dự án Quốc gia" PROJECT []);
    ((1, 2), mkCellConfig "Dự án Quốc gia" PROJECT []);
    ((1, 3), mkCellConfig "Cảng Đà Nẵng" COMPETITIVE ["economy"; "integration"]);
    ((2, 0), mkCellConfig "Tây Nguyên" SYNERGY ["environment"; "economy"]);
    ((2, 1), mkCellConfig "Dự án Quốc gia" PROJECT []);
    ((2, 2), mkCellConfig "Dự án Quốc gia" PROJECT []);
    ((2, 3), mkCellConfig "KCX Tân Thuận" COMPETITIVE ["economy"; "science"]);
    ((3, 0), mkCellConfig "Đồng bằng Cửu Long" SHARED ["society"; "economy"]);
    ((3, 1), mkCellConfig "Khu đô thị Thủ Đức" SYNERGY ["society"; "science"]);
    ((3, 2), mkCellConfig "Trung tâm Tài chính" COOPERATION ["economy"; "integration"]);
    ((3, 3), mkCellConfig "Cảng Sài Gòn" COMPETITIVE ["economy"; "integration"]) ].

Definition PROJECT_CELLS : list (Z * Z) := [(1, 1); (1, 2); (2, 1); (2, 2)].
Definition PROJECT_CELL_ID : string := "project-center".

Definition pos_eqb (p q : Z * Z) : bool := (fst p =? fst q) && (snd p =? snd q).

(** [pos in PROJECT_CELLS] *)
Definition is_project_cell (pos : Z * Z) : bool := existsb (pos_eqb pos) PROJECT_CELLS.

(** The decimal text of an [int], as an f-string prints it. *)
Definition str_of_int (z : Z) : string := pretty.pretty z.

Definition create_cell_id (pos : Z * Z) : string :=
  "cell-" +:+ str_of_int (fst pos) +:+ "-" +:+ str_of_int (snd pos).

End board_config.

(* ===================================================================== *)
(** * Part V. The game engine (backend/game/service.py)                  *)
(* ===================================================================== *)

(** [a // b] on [int]s: floor division. *)
Definition int_floordiv (a b : Z) : result Z :=
  if b =? 0 then Raise ZeroDivisionError else Ok (a / b).

Module GameService.

(** A method of the engine mutates the room it is given and returns or
    raises: the room it leaves behind, and the outcome. *)
Definition outcome (A : Type) : Type := (Room.t * result A)%type.

Definition is_team (team_id : string) (t : Team.t) : bool :=
  bool_decide (Team.id t = team_id).

Definition is_cell (cell_id : string) (c : BoardCell.t) : bool :=
  bool_decide (BoardCell.id c = cell_id).

(** [p.cell_id == cell_id] for a cell id as a message has it: a string
    equals a string only. *)
Definition on_cell (cell_id : json) (p : Placement.t) : bool :=
  match cell_id with
  | JStr s => bool_decide (Placement.cell_id p = s)
  | _ => false
  end.

(** The reset of every team at the start of a turn. *)
Definition reset_team (t : Team.t) : Team.t :=
  Team.with_has_submitted false
    (Team.with_placements []
      (Team.with_resources (PInt game_config.RESOURCES_PER_TURN) t)).

Definition new_project_status (ev : option TurnEvent.t) : option ProjectStatus.t :=
  match ev with
  | Some e => Some (ProjectStatus.new (TurnEvent.min_total e) (TurnEvent.min_teams e))
  | None => None
  end.

Definition start_game (now : datetime) (room : Room.t) : outcome unit :=
  let connected_count :=
    Z.of_nat (length (filter (fun t => Team.is_connected t = true) (Room.teams room))) in
  if connected_count <? 3
  then (room, Raise (ValueError "Need at least 3 connected teams to start"))
  else if negb (bool_decide (Room.status room = WAITING))
  then (room, Raise (ValueError "Game already started"))
  else
    let board :=
      map (fun kv =>
             BoardCell.mk (board_config.create_cell_id (fst kv)) (fst kv)
               (board_config.type (snd kv)) (board_config.name (snd kv))
               (board_config.indices (snd kv)) [])
          (filter (fun kv => board_config.is_project_cell (fst kv) = false)
                  board_config.BOARD_CELLS) in
    let first_event := events_config.get_event_by_turn 1 in
    let gs :=
      GameState.mk 1 EVENT (Some now) game_config.PHASE_EVENT_DURATION false None
        (NationalIndices.of_dict game_config.STARTING_INDICES)
        first_event (new_project_status first_event) board in
    (Room.with_teams (map reset_team (Room.teams room))
       (Room.with_status PLAYING (Room.with_game_state (Some gs) room)),
     Ok tt).

(** One placement of one team, in the double loop of
    [_sync_placements_to_board]: the sum of the project may overflow, and
    the constructor of a cell's placement may refuse the amount. *)
Definition sync_placement (team_id : string)
    (st : list BoardCell.t * option ProjectStatus.t) (p : Placement.t)
    : result (list BoardCell.t * option ProjectStatus.t) :=
  if decide (Placement.cell_id p = board_config.PROJECT_CELL_ID)
  then
    match snd st with
    | Some ps =>
        do total <~ num_add (ProjectStatus.total_contributed ps)
                      (to_num (Placement.amount p)) ;
        Ok (fst st,
            Some (ProjectStatus.with_contributions total
                    (ProjectStatus.contributing_teams ps
                       ++ [Contribution.mk team_id (Placement.amount p)])
                    ps))
    | None => Ok st
    end
  else
    match find_first (is_cell (Placement.cell_id p)) (fst st) with
    | Some _ =>
        do cp <~ CellPlacement.new team_id (Placement.amount p) ;
        Ok (update_first (is_cell (Placement.cell_id p))
              (fun c => BoardCell.with_placements (BoardCell.placements c ++ [cp]) c)
              (fst st),
            snd st)
    | None => Ok st
    end.

(** A loop over a state: an exception ends it and leaves the state as the
    rounds before had it. *)
Fixpoint sfold {A S} (body : S -> A -> result S) (s : S) (l : list A) : S * result unit :=
  match l with
  | [] => (s, Ok tt)
  | x :: l' =>
      match body s x with
      | Ok s' => sfold body s' l'
      | Raise e => (s, Raise e)
      end
  end.

(** The loops [for team in room.teams: for placement in team.placements]. *)
Definition sync_teams (teams : list Team.t)
    (st : list BoardCell.t * option ProjectStatus.t)
    : (list BoardCell.t * option ProjectStatus.t) * result unit :=
  sfold (fun st tp => sync_placement (fst tp) st (snd tp)) st
    (teams ≫= (fun team => (fun p => (Team.id team, p)) <$> Team.placements team)).

Definition _sync_placements_to_board (room : Room.t) : outcome unit :=
  match Room.game_state room with
  | None => (room, Ok tt)
  | Some gs =>
      let board0 := map (BoardCell.with_placements []) (GameState.board gs) in
      let ps0 :=
        match GameState.project_status gs with
        | Some ps => Some (ProjectStatus.with_contributions (PInt 0) [] ps)
        | None => None
        end in
      let '(st, r) := sync_teams (Room.teams room) (board0, ps0) in
      (Room.with_game_state
         (Some (GameState.with_project_status (snd st)
                  (GameState.with_board (fst st) gs)))
         room,
       r)
  end.

(** [cell_id] and [amount] are what the message of the client holds under
    these keys: any JSON values. *)
Definition place_resource (room : Room.t) (team_id : string) (cell_id amount : json)
    : outcome unit :=
  match Room.game_state room with
  | None => (room, Raise (ValueError "Game not started"))
  | Some gs =>
  if negb (bool_decide (GameState.current_phase gs = ACTION))
  then (room, Raise (ValueError "Can only place during action phase"))
  else
  match find_first (is_team team_id) (Room.teams room) with
  | None => (room, Raise (ValueError "Team not found"))
  | Some team =>
  if Team.has_submitted team
  then (room, Raise (ValueError "Already submitted"))
  else
    let current_placement := find_first (on_cell cell_id) (Team.placements team) in
    let current_amount :=
      match current_placement with
      | Some p => Placement.amount p
      | None => NInt 0
      end in
    (* change = amount - current_amount *)
    match as_number amount with
    | None => (room, Raise TypeError)
    | Some amount =>
    match num_sub (to_num amount) (to_num current_amount) with
    | Raise e => (room, Raise e)
    | Ok change =>
    if num_gt change (Team.resources team)
    then (room, Raise (ValueError "Not enough resources"))
    else if is_negative amount
    then (room, Raise (ValueError "Amount cannot be negative"))
    else
      (* team.resources -= change *)
      match num_sub (Team.resources team) change with
      | Raise e => (room, Raise e)
      | Ok remaining =>
      let team1 := Team.with_resources remaining team in
      let set_team (t : Team.t) : Room.t :=
        Room.with_teams (update_first (is_team team_id) (fun _ => t) (Room.teams room)) room in
      let placed : result (list Placement.t) :=
        match current_placement with
        | Some cp =>
            if is_zero amount
            then list_remove Placement.eqb cp (Team.placements team1)
            else Ok (update_first (on_cell cell_id) (Placement.with_amount amount)
                       (Team.placements team1))
        | None =>
            if is_positive amount
            then do p <~ Placement.new cell_id amount ;
                 Ok (Team.placements team1 ++ [p])
            else Ok (Team.placements team1)
        end in
      match placed with
      | Raise e => (set_team team1, Raise e)
      | Ok ps => _sync_placements_to_board (set_team (Team.with_placements ps team1))
      end
      end
    end
    end
  end
  end.

Definition submit_turn (room : Room.t) (team_id : string) : outcome unit :=
  match find_first (is_team team_id) (Room.teams room) with
  | None => (room, Raise (ValueError "Team not found"))
  | Some _ =>
      (Room.with_teams
         (update_first (is_team team_id) (Team.with_has_submitted true) (Room.teams room))
         room,
       Ok tt)
  end.

Definition all_teams_submitted (room : Room.t) : bool :=
  forallb Team.has_submitted
    (filter (fun t => Team.is_connected t = true) (Room.teams room)).

(** [for team_id, points in scores.items(): team_turn_scores[team_id] += points] *)
Definition add_scores (scores : dict.t num) (team_turn_scores : dict.t num)
    : result (dict.t num) :=
  rfold (fun tts kv =>
           do current <~ dict.item (fst kv) tts ;
           do total <~ num_add current (snd kv) ;
           Ok (dict.set (fst kv) total tts))
        team_turn_scores scores.

(** The loop of [_process_turn] over the board. *)
Definition score_cells (board : list BoardCell.t) (team_turn_scores : dict.t num)
    : result (list CellResult.t * dict.t num) :=
  rfold (fun acc cell =>
           do scores <~ ScoringService.calculate_cell_scores cell ;
           do tts <~ add_scores scores (snd acc) ;
           Ok (fst acc ++ [CellResult.mk (BoardCell.id cell) scores], tts))
        ([], team_turn_scores) board.

(** What the project block of [_process_turn] hands to the rest of it. *)
Record ProjectOutcome : Type := mkProjectOutcome {
  po_team_turn_scores : dict.t num;
  po_project_contributions : list ProjectContribution.t;
  po_project_success : bool;
  po_index_changes : dict.t Z }.

(** The block [if gs.project_status and gs.current_event: ...]: it mutates
    the game state (project status, national indices). *)
Definition process_project (gs : GameState.t) (team_turn_scores : dict.t num)
    : GameState.t * result ProjectOutcome :=
  match GameState.project_status gs, GameState.current_event gs with
  | Some ps, Some ev =>
      match ScoringService.calculate_project_result
              (ProjectStatus.contributing_teams ps)
              (ProjectStatus.min_total ps) (ProjectStatus.min_teams ps) with
      | Raise e => (gs, Raise e)
      | Ok project_result =>
          let project_success := ScoringService.success project_result in
          let ps1 :=
            ProjectStatus.with_status
              (if project_success then "success" else "failure") ps in
          let gs1 := GameState.with_project_status (Some ps1) gs in
          match add_scores (ScoringService.team_scores project_result)
                  team_turn_scores with
          | Raise e => (gs1, Raise e)
          | Ok tts =>
              let project_contributions :=
                map (fun c =>
                       ProjectContribution.mk (Contribution.team_id c)
                         (Contribution.amount c)
                         (default (PInt 0)
                            (dict.get (Contribution.team_id c)
                               (ScoringService.team_scores project_result))))
                    (ProjectStatus.contributing_teams ps1) in
              let index_changes :=
                if project_success
                then dict.pop "points" (TurnEvent.success_reward ev)
                else TurnEvent.failure_penalty ev in
              let gs2 :=
                GameState.with_national_indices
                  (NationalIndices.apply_changes (GameState.national_indices gs1)
                     index_changes game_config.INDEX_MAXIMUM)
                  gs1 in
              (gs2, Ok (mkProjectOutcome tts project_contributions
                          project_success index_changes))
          end
      end
  | _, _ => (gs, Ok (mkProjectOutcome team_turn_scores [] false []))
  end.

(** The flat bonus a team receives: the body of
    [if project_success and gs.current_event: ...]. *)
Definition bonus_share (gs : GameState.t) (project_success : bool) (team : Team.t)
    : result Z :=
  match project_success, GameState.current_event gs with
  | true, Some ev =>
      let bonus_points := default 0 (dict.get "points" (TurnEvent.success_reward ev)) in
      match GameState.project_status gs with
      | Some ps =>
          match ProjectStatus.contributing_teams ps with
          | [] => Ok 0
          | _ =>
              let contributed :=
                existsb (fun c => bool_decide (Contribution.team_id c = Team.id team)
                                  && is_positive (Contribution.amount c))
                        (ProjectStatus.contributing_teams ps) in
              if contributed
              then int_floordiv bonus_points
                     (Z.of_nat (length (positive_entries
                                          (ProjectStatus.contributing_teams ps))))
              else Ok 0
          end
      | None => Ok 0
      end
  | _, _ => Ok 0
  end.

Definition turn_score_of (gs : GameState.t) (team_turn_scores : dict.t num)
    (project_success : bool) (team : Team.t) : result Z :=
  do base <~ num_int (default (PInt 0) (dict.get (Team.id team) team_turn_scores)) ;
  do bonus <~ bonus_share gs project_success team ;
  Ok (base + bonus).

(** The loop [for team in room.teams] of [_process_turn]: each team's score
    is updated in turn; an exception leaves the later teams as they were. *)
Fixpoint score_teams (gs : GameState.t) (team_turn_scores : dict.t num)
    (project_success : bool) (teams : list Team.t)
    : list Team.t * result (list TeamScore.t) :=
  match teams with
  | [] => ([], Ok [])
  | team :: rest =>
      match turn_score_of gs team_turn_scores project_success team with
      | Raise e => (team :: rest, Raise e)
      | Ok turn_score =>
          let team' := Team.with_score (Team.score team + turn_score) team in
          let r := score_teams gs team_turn_scores project_success rest in
          (team' :: fst r,
           do l <~ snd r ;
           Ok (TeamScore.mk (Team.id team) turn_score (Team.score team') :: l))
      end
  end.

Definition _process_turn (room : Room.t) : outcome TurnResult.t :=
  match Room.game_state room with
  | None => (room, Raise (ValueError "Game not started"))
  | Some gs =>
      let team_turn_scores :=
        dict.of_list (map (fun t => (Team.id t, PInt 0)) (Room.teams room)) in
      match score_cells (GameState.board gs) team_turn_scores with
      | Raise e => (room, Raise e)
      | Ok (cell_results, tts1) =>
          match process_project gs tts1 with
          | (gs1, Raise e) => (Room.with_game_state (Some gs1) room, Raise e)
          | (gs1, Ok po) =>
              let r := score_teams gs1 (po_team_turn_scores po)
                         (po_project_success po) (Room.teams room) in
              let room1 :=
                Room.with_teams (fst r) (Room.with_game_state (Some gs1) room) in
              match snd r with
              | Raise e => (room1, Raise e)
              | Ok team_scores =>
                  (room1,
                   Ok (TurnResult.mk (GameState.current_turn gs1)
                         (po_project_success po) (po_project_contributions po)
                         cell_results (po_index_changes po)
                         (GameState.national_indices gs1) team_scores))
              end
          end
      end
  end.

(** The two statements every transition ends with:
    [gs.phase_start_time = datetime.now(); gs.is_paused = False]. *)
Definition stamp (now : datetime) (gs : GameState.t) : GameState.t :=
  GameState.with_is_paused false (GameState.with_phase_start_time (Some now) gs).

(** The maintenance loop:
    [for key, cost in MAINTENANCE_COST.items(): apply_changes({key: -cost})]. *)
Definition apply_maintenance (n : NationalIndices.t) : NationalIndices.t :=
  fold_left (fun x kc =>
               NationalIndices.apply_changes x [(fst kc, - snd kc)]
                 NationalIndices.max_val_default)
            game_config.MAINTENANCE_COST n.

Definition advance_phase (now : datetime) (room : Room.t)
    : outcome (GamePhase * option TurnResult.t) :=
  match Room.game_state room with
  | None => (room, Raise (ValueError "Game not started"))
  | Some gs =>
      match GameState.current_phase gs with
      | EVENT =>
          let gs1 :=
            GameState.with_phase_time_limit game_config.PHASE_ACTION_DURATION
              (GameState.with_current_phase ACTION gs) in
          (Room.with_game_state (Some (stamp now gs1)) room, Ok (ACTION, None))
      | ACTION =>
          let gs1 :=
            GameState.with_phase_time_limit game_config.PHASE_RESOLUTION_DURATION
              (GameState.with_current_phase RESOLUTION gs) in
          let room1 :=
            Room.with_teams (map (Team.with_has_submitted true) (Room.teams room))
              (Room.with_game_state (Some gs1) room) in
          match _process_turn room1 with
          | (room2, Raise e) => (room2, Raise e)
          | (room2, Ok result) =>
              (* [gs] is the object [room.game_state] holds, as
                 [_process_turn] left it *)
              let gs2 := default gs1 (Room.game_state room2) in
              (Room.with_game_state (Some (stamp now gs2)) room2,
               Ok (GameState.current_phase gs2, Some result))
          end
      | RESOLUTION =>
          let gs1 :=
            GameState.with_phase_time_limit game_config.PHASE_RESULT_DURATION
              (GameState.with_current_phase RESULT gs) in
          (Room.with_game_state (Some (stamp now gs1)) room, Ok (RESULT, None))
      | RESULT =>
          let gs1 :=
            GameState.with_national_indices
              (apply_maintenance (GameState.national_indices gs)) gs in
          if NationalIndices.is_any_zero (GameState.national_indices gs1)
          then (Room.with_status FINISHED (Room.with_game_state (Some gs1) room),
                Ok (GameState.current_phase gs1, None))
          else if game_config.MAX_TURNS <=? GameState.current_turn gs1
          then (Room.with_status FINISHED (Room.with_game_state (Some gs1) room),
                Ok (GameState.current_phase gs1, None))
          else
            let gs2 :=
              GameState.with_phase_time_limit game_config.PHASE_EVENT_DURATION
                (GameState.with_current_phase EVENT
                   (GameState.with_current_turn (GameState.current_turn gs1 + 1) gs1)) in
            let next_event := events_config.get_event_by_turn (GameState.current_turn gs2) in
            let gs3 :=
              GameState.with_project_status (new_project_status next_event)
                (GameState.with_current_event next_event gs2) in
            let gs4 :=
              GameState.with_board
                (map (BoardCell.with_placements []) (GameState.board gs3)) gs3 in
            (Room.with_teams (map reset_team (Room.teams room))
               (Room.with_game_state (Some (stamp now gs4)) room),
             Ok (EVENT, None))
      end
  end.

Definition pause_game (room : Room.t) : Room.t :=
  match Room.game_state room with
  | Some gs =>
      Room.with_status PAUSED
        (Room.with_game_state (Some (GameState.with_is_paused true gs)) room)
  | None => room
  end.

Definition resume_game (now : datetime) (room : Room.t) : Room.t :=
  match Room.game_state room with
  | Some gs =>
      Room.with_status PLAYING
        (Room.with_game_state
           (Some (GameState.with_phase_start_time (Some now)
                    (GameState.with_is_paused false gs)))
           room)
  | None => room
  end.

End GameService.

(* ===================================================================== *)
(** * Part VI. The connection registry (backend/websocket/manager.py)    *)
(* ===================================================================== *)

Module ConnectionInfo.
Record t : Type := mk {
  authenticated : bool;
  role : option ClientRole;
  team_id : option string }.
(** [ConnectionInfo()] *)
Definition new : t := mk false None None.
End ConnectionInfo.

(** Truth value of an optional string: [None] and the empty string are false. *)
Definition truthy (s : option string) : option string :=
  match s with
  | Some "" => None
  | _ => s
  end.

Module ConnectionManager.

(** A [WebSocket] object is a dictionary key by identity: a number names it. *)
Definition WebSocket : Type := positive.

Record t : Type := mk {
  _connections : gmap string (gmap WebSocket ConnectionInfo.t);
  _team_connections : gmap string WebSocket;
  _host_connection : option WebSocket }.

(** [ConnectionManager()] *)
Definition init : t := mk ∅ ∅ None.

Definition connect (m : t) (websocket : WebSocket) (room_code : string) : t :=
  let room := default ∅ (_connections m !! room_code) in
  mk (<[room_code := <[websocket := ConnectionInfo.new]> room]> (_connections m))
     (_team_connections m) (_host_connection m).

Definition disconnect (m : t) (websocket : WebSocket) (room_code : string)
    : t * option ConnectionInfo.t :=
  match _connections m !! room_code with
  | None => (m, None)
  | Some room =>
      let info := room !! websocket in
      let room' := delete websocket room in
      let team_connections' :=
        match info with
        | Some i =>
            match truthy (ConnectionInfo.team_id i) with
            | Some tid =>
                if decide (_team_connections m !! tid = Some websocket)
                then delete tid (_team_connections m)
                else _team_connections m
            | None => _team_connections m
            end
        | None => _team_connections m
        end in
      let host_connection' :=
        match info with
        | Some i =>
            if decide (ConnectionInfo.role i = Some HOST)
            then if decide (_host_connection m = Some websocket)
                 then None else _host_connection m
            else _host_connection m
        | None => _host_connection m
        end in
      let connections' :=
        if decide (room' = ∅)
        then delete room_code (_connections m)
        else <[room_code := room']> (_connections m) in
      (mk connections' team_connections' host_connection', info)
  end.

Definition authenticate (m : t) (websocket : WebSocket) (room_code : string)
    (role : ClientRole) (team_id : option string) : t * (bool * string) :=
  match _connections m !! room_code with
  | None => (m, (false, "Room not found"))
  | Some room =>
      match room !! websocket with
      | None => (m, (false, "Connection not found"))
      | Some info =>
          let mark (m1 : t) : t * (bool * string) :=
            (mk (<[room_code := <[websocket := ConnectionInfo.mk true (Some role) team_id]> room]>
                   (_connections m1))
                (_team_connections m1) (_host_connection m1),
             (true, "")) in
          match role, truthy team_id with
          | HOST, _ =>
              match _host_connection m with
              | Some _ => (m, (false, "Host already connected"))
              | None => mark (mk (_connections m) (_team_connections m) (Some websocket))
              end
          | PLAYER, Some tid =>
              match _team_connections m !! tid with
              | Some _ => (m, (false, "Team already connected"))
              | None =>
                  mark (mk (_connections m) (<[tid := websocket]> (_team_connections m))
                          (_host_connection m))
              end
          | _, _ => mark m
          end
      end
  end.

Definition get_connection_info (m : t) (websocket : WebSocket) (room_code : string)
    : option ConnectionInfo.t :=
  match _connections m !! room_code with
  | Some room => room !! websocket
  | None => None
  end.


End ConnectionManager.

(* ===================================================================== *)
(** * Part VII. The state projector (backend/websocket/state_filter.py)  *)
(* ===================================================================== *)

(** [v != t] for a looked-up value [v] ([None] when the key is absent) and an
    optional string [t]. *)
Definition differs (v : option json) (t : option string) : bool :=
  match v, t with
  | None, None | Some JNull, None => false
  | Some (JStr s), Some s' => negb (bool_decide (s = s'))
  | _, _ => true
  end.

(** The body of [for team in filtered_data['teams']] for one team. *)
Definition filter_team (conn_info : ConnectionInfo.t) (team : json) : result json :=
  match team with
  | JDict d =>
      let filtered_team := dict.pop "session_token" d in
      let hidden (ft : dict.t json) : dict.t json :=
        dict.set "resources" JNull (dict.set "placements" (JList []) ft) in
      Ok (JDict
            match ConnectionInfo.role conn_info with
            | Some SPECTATOR => hidden filtered_team
            | Some PLAYER =>
                if differs (dict.get "id" d) (ConnectionInfo.team_id conn_info)
                then hidden filtered_team
                else filtered_team
            | _ => filtered_team
            end)
  | JList _ => Raise TypeError        (* a list has no [pop(key, default)] *)
  | _ => Raise AttributeError         (* no [copy] method *)
  end.

(** The elements the [for] loop visits when it iterates a value. *)
Definition iterate (v : json) : result (list json) :=
  match v with
  | JList l => Ok l
  | JDict d => Ok (map (fun kv => JStr (fst kv)) d)
  | JStr s => Ok (map (fun c => JStr (String c EmptyString)) (String.list_ascii_of_string s))
  | _ => Raise TypeError
  end.

Fixpoint rmap {A B} (f : A -> result B) (l : list A) : result (list B) :=
  match l with
  | [] => Ok []
  | x :: l' => do y <~ f x ; do ys <~ rmap f l' ; Ok (y :: ys)
  end.

Definition filter_game_state (message : dict.t json) (conn_info : ConnectionInfo.t)
    : result (dict.t json) :=
  match dict.get "type" message with
  | Some (JStr "GAME_STATE") =>
      if decide (ConnectionInfo.role conn_info = Some HOST)
      then Ok message
      else
        match default (JDict []) (dict.get "data" message) with
        | JDict data =>
            do filtered_data <~
              match dict.get "teams" data with
              | Some teams =>
                  do ts <~ iterate teams ;
                  do filtered_teams <~ rmap (filter_team conn_info) ts ;
                  Ok (dict.set "teams" (JList filtered_teams) data)
              | None => Ok data
              end ;
            Ok [("type", JStr "GAME_STATE");
                ("data", JDict (dict.pop "host_token" filtered_data))]
        | JList _ => Raise TypeError
        | _ => Raise AttributeError
        end
  | _ => Ok message
  end.

(** ** [room.model_dump(mode='json')]

    pydantic serialises a model to a dictionary of its declared fields, in
    declaration order; nested models and lists likewise, an enumeration
    member as its value, a tuple as a list, [None] as null.  A value that is
    not of the type its field declares is not refused: the serializer warns
    and goes by the value. *)

(** What the serializer makes of a number where the model declares an
    [int] and the value is none, and of a [float] that is not finite where
    it goes by the value: this is the library's, and it is left open. *)
Module Serializer.
Record t : Type := mk {
  off_type : number -> json;
  non_finite : float -> json }.
End Serializer.

Module model_dump.

Section serializer.

Variable ser : Serializer.t.

(** A field declared [int]. *)
Definition int_field (a : number) : json :=
  match a with
  | NInt z => JInt z
  | _ => Serializer.off_type ser a
  end.

(** A number in a dictionary, which declares nothing. *)
Definition any_number (a : number) : json :=
  match a with
  | NInt z => JInt z
  | NBool b => JBool b
  | NFloat x =>
      if PrimFloat.is_nan x || PrimFloat.is_infinity x
      then Serializer.non_finite ser x
      else JFloat x
  end.

Definition opt {A} (f : A -> json) (o : option A) : json :=
  match o with Some a => f a | None => JNull end.

Definition RoomStatus_value (s : RoomStatus) : string :=
  match s with
  | WAITING => "waiting" | PLAYING => "playing"
  | PAUSED => "paused" | FINISHED => "finished"
  end.

Definition GamePhase_value (p : GamePhase) : string :=
  match p with
  | EVENT => "event" | ACTION => "action"
  | RESOLUTION => "resolution" | RESULT => "result"
  end.

Definition CellType_value (c : CellType) : string :=
  match c with
  | COMPETITIVE => "competitive" | SYNERGY => "synergy" | SHARED => "shared"
  | COOPERATION => "cooperation" | PROJECT => "project"
  end.

Definition int_dict (d : dict.t Z) : json :=
  JDict (map (fun kv => (fst kv, JInt (snd kv))) d).

Definition region (r : Region.t) : json :=
  JDict [("id", JStr (Region.id r)); ("name", JStr (Region.name r));
         ("description", JStr (Region.description r))].

Definition placement (p : Placement.t) : json :=
  JDict [("cell_id", JStr (Placement.cell_id p));
         ("amount", int_field (Placement.amount p))].

Definition team (t : Team.t) : json :=
  JDict [("id", JStr (Team.id t));
         ("index", JInt (Team.index t));
         ("name", JStr (Team.name t));
         ("region", region (Team.region t));
         ("session_token", JStr (Team.session_token t));
         ("score", JInt (Team.score t));
         ("resources", int_field (of_num (Team.resources t)));
         ("placements", JList (map placement (Team.placements t)));
         ("has_submitted", JBool (Team.has_submitted t));
         ("is_connected", JBool (Team.is_connected t))].

Definition national_indices (n : NationalIndices.t) : json :=
  JDict [("economy", JInt (NationalIndices.economy n));
         ("society", JInt (NationalIndices.society n));
         ("culture", JInt (NationalIndices.culture n));
         ("integration", JInt (NationalIndices.integration n));
         ("environment", JInt (NationalIndices.environment n));
         ("science", JInt (NationalIndices.science n))].

Definition turn_event (e : TurnEvent.t) : json :=
  JDict [("turn", JInt (TurnEvent.turn e));
         ("year", JInt (TurnEvent.year e));
         ("name", JStr (TurnEvent.name e));
         ("project", JStr (TurnEvent.project e));
         ("min_total", JInt (TurnEvent.min_total e));
         ("min_teams", JInt (TurnEvent.min_teams e));
         ("success_reward", int_dict (TurnEvent.success_reward e));
         ("failure_penalty", int_dict (TurnEvent.failure_penalty e))].

Definition contribution (c : Contribution.t) : json :=
  JDict [("team_id", JStr (Contribution.team_id c));
         ("amount", any_number (Contribution.amount c))].

Definition project_status (p : ProjectStatus.t) : json :=
  JDict [("total_contributed", int_field (of_num (ProjectStatus.total_contributed p)));
         ("contributing_teams", JList (map contribution (ProjectStatus.contributing_teams p)));
         ("min_total", JInt (ProjectStatus.min_total p));
         ("min_teams", JInt (ProjectStatus.min_teams p));
         ("status", JStr (ProjectStatus.status p))].

Definition cell_placement (p : CellPlacement.t) : json :=
  JDict [("team_id", JStr (CellPlacement.team_id p));
         ("amount", JInt (CellPlacement.amount p))].

Definition board_cell (c : BoardCell.t) : json :=
  JDict [("id", JStr (BoardCell.id c));
         ("position", JList [JInt (fst (BoardCell.position c));
                             JInt (snd (BoardCell.position c))]);
         ("type", JStr (CellType_value (BoardCell.type c)));
         ("name", JStr (BoardCell.name c));
         ("indices", JList (map JStr (BoardCell.indices c)));
         ("placements", JList (map cell_placement (BoardCell.placements c)))].

Definition game_state (g : GameState.t) : json :=
  JDict [("current_turn", JInt (GameState.current_turn g));
         ("current_phase", JStr (GamePhase_value (GameState.current_phase g)));
         ("phase_start_time", opt JStr (GameState.phase_start_time g));
         ("phase_time_limit", JInt (GameState.phase_time_limit g));
         ("is_paused", JBool (GameState.is_paused g));
         ("paused_time_remaining", opt JInt (GameState.paused_time_remaining g));
         ("national_indices", national_indices (GameState.national_indices g));
         ("current_event", opt turn_event (GameState.current_event g));
         ("project_status", opt project_status (GameState.project_status g));
         ("board", JList (map board_cell (GameState.board g)))].

Definition room (r : Room.t) : dict.t json :=
  [("code", JStr (Room.code r));
   ("host_name", JStr (Room.host_name r));
   ("host_token", JStr (Room.host_token r));
   ("status", JStr (RoomStatus_value (Room.status r)));
   ("teams", JList (map team (Room.teams r)));
   ("game_state", opt game_state (Room.game_state r));
   ("created_at", JStr (Room.created_at r))].

End serializer.

End model_dump.

(** The message [_broadcast_game_state] and [handle_auth] build:
    [{'type': 'GAME_STATE', 'data': room.model_dump(mode='json')}]. *)
Definition state_msg (ser : Serializer.t) (room : Room.t) : dict.t json :=
  [("type", JStr "GAME_STATE"); ("data", JDict (model_dump.room ser room))].

(* ===================================================================== *)
(** * Part VIII. The specification's notions, and sample data            *)
(* ===================================================================== *)

(** Contributions as the data model has them, each amount an [int]: a list
    of team ids and amounts. *)
Definition int_contributions (entries : list (string * Z)) : list Contribution.t :=
  (fun e => Contribution.mk (fst e) (NInt (snd e))) <$> entries.

(** Placements as the data model has them, each amount an [int]: a list of
    cell ids and amounts. *)
Definition int_placements (entries : list (string * Z)) : list Placement.t :=
  (fun e => Placement.mk (fst e) (NInt (snd e))) <$> entries.

(** The number of distinct teams with a positive contribution. *)
Definition distinct_contributing_teams (cs : list Contribution.t) : Z :=
  Z.of_nat (length (remove_dups (Contribution.team_id <$> positive_entries cs))).

(** C3 as the specification words it: success exactly when the total reaches
    [min_total] and the number of distinct teams with a positive contribution
    reaches [min_teams]. *)
Definition project_success_spec (entries : list (string * Z)) (min_total min_teams : Z)
    : Prop :=
  forall pr,
    ScoringService.calculate_project_result (int_contributions entries) min_total min_teams
    = Ok pr ->
    (ScoringService.success pr = true <->
     min_total <= sum_int (snd <$> entries)
     /\ min_teams <= distinct_contributing_teams (int_contributions entries)).

(** [amount * PROJECT_SUCCESS_BONUS_PER_RP] *)
Definition raw_yield (amount : Z) : float :=
  PrimFloat.mul (round_int amount) scoring_config.PROJECT_SUCCESS_BONUS_PER_RP.

(** C1 as the specification words it: whatever the outcome, every
    contributor's project score is the raw yield of its amount. *)
Definition yield_regardless_of_outcome (entries : list (string * Z))
    (min_total min_teams : Z) : Prop :=
  forall pr,
    ScoringService.calculate_project_result (int_contributions entries) min_total min_teams
    = Ok pr ->
    forall e, e ∈ entries ->
      exists v, dict.get (fst e) (ScoringService.team_scores pr) = Some v
                /\ num_eqb v (PFloat (raw_yield (snd e))) = true.

(** A team contributed: [any(c['team_id'] == team.id and c['amount'] > 0 ...)]. *)
Definition contributed (cs : list Contribution.t) (team_id : string) : bool :=
  existsb (fun c => bool_decide (Contribution.team_id c = team_id)
                    && is_positive (Contribution.amount c)) cs.


(** ** Placements and budgets *)

(** C2 as the specification words it: after a successful [place_resource]
    every team's placements sum to at most its [resources] field
    ([sum(placement.amount for placement in team.placements) <= team.resources],
    with Python's [sum] and [<=]). *)
Definition sum_within (t : Team.t) : Prop :=
  exists total,
    sum_numbers (Placement.amount <$> Team.placements t) = Ok total
    /\ num_ge (Team.resources t) total = true.

Definition placements_within_resources_field (room : Room.t)
    (team_id : string) (cell_id amount : json) : Prop :=
  forall room',
    GameService.place_resource room team_id cell_id amount = (room', Ok tt) ->
    Forall sum_within (Room.teams room').

(** A request as the signature of [place_resource] annotates it,
    [cell_id: str, amount: int]. *)
Definition as_annotated (cell_id amount : json) : Prop :=
  (exists s, cell_id = JStr s) /\ (exists z, amount = JInt z).

(** A team whose numbers are of the declared type: its resources an [int],
    and the amount of every placement. *)
Definition is_int (a : number) : Prop := exists z, a = NInt z.

Definition typed_team (t : Team.t) : Prop :=
  (exists r, Team.resources t = PInt r)
  /\ Forall (fun p => is_int (Placement.amount p)) (Team.placements t).

(** The value of an [int]; by convention 0 for the numbers that are none,
    which [typed_team] excludes. *)
Definition units (a : number) : Z :=
  match a with
  | NInt z => z
  | _ => 0
  end.

Definition resources_left (t : Team.t) : Z :=
  match Team.resources t with
  | PInt r => r
  | PFloat _ => 0
  end.

(** [sum(placement.amount for placement in team.placements)] *)
Definition placed_total (t : Team.t) : Z :=
  sum_int ((fun p => units (Placement.amount p)) <$> Team.placements t).

(** The amount a team currently has on a cell ([0] when it has none). *)
Definition placed_on (cell_id : string) (t : Team.t) : Z :=
  match find_first (GameService.on_cell (JStr cell_id)) (Team.placements t) with
  | Some p => units (Placement.amount p)
  | None => 0
  end.

(** The budget of a team within a turn: its numbers are [int]s, what it
    placed and what it has left add up to the turn's grant, and every
    placement is positive. *)
Definition within_budget (t : Team.t) : Prop :=
  typed_team t
  /\ 0 <= resources_left t
  /\ placed_total t + resources_left t = game_config.RESOURCES_PER_TURN
  /\ Forall (fun p => 0 < units (Placement.amount p)) (Team.placements t).

(** The conditions under which [place_resource] is to reject a request. *)
Definition rejected (room : Room.t) (team_id cell_id : string) (amount : Z) : Prop :=
  Room.game_state room = None
  \/ (exists gs, Room.game_state room = Some gs /\ GameState.current_phase gs <> ACTION)
  \/ Forall (fun t => Team.id t <> team_id) (Room.teams room)
  \/ (exists team, find_first (GameService.is_team team_id) (Room.teams room) = Some team
                   /\ Team.has_submitted team = true)
  \/ (exists team, find_first (GameService.is_team team_id) (Room.teams room) = Some team
                   /\ resources_left team < amount - placed_on cell_id team)
  \/ amount < 0.

(** ** How a room evolves

    The operations by which the backend mutates a room: the engine's methods,
    called by the message handlers with the arguments the clients send (the
    handler of a placement passes the amount on as it is, and the cell id
    whenever it is not empty); the connectivity flag a handler sets on authentication and clears on
    disconnection; and the host ending the game. An operation that raises
    leaves the room in the state it reached.  [admits] says which cell ids
    and amounts the clients send: whatever JSON values ([step],
    [reachable]), or strings and [int]s only ([typed_step],
    [typed_reachable]). *)

(** [team.is_connected = b] for the first team with the given id. *)
Definition set_connected (team_id : string) (b : bool) (room : Room.t) : Room.t :=
  Room.with_teams
    (update_first (GameService.is_team team_id) (Team.with_is_connected b)
       (Room.teams room))
    room.

Inductive step_on (admits : json -> json -> Prop) : Room.t -> Room.t -> Prop :=
| step_start_game now room room' r :
    GameService.start_game now room = (room', r) -> step_on admits room room'
| step_place_resource room team_id cell_id amount room' r :
    admits cell_id amount ->
    GameService.place_resource room team_id cell_id amount = (room', r) ->
    step_on admits room room'
| step_submit_turn room team_id room' r :
    GameService.submit_turn room team_id = (room', r) -> step_on admits room room'
| step_advance_phase now room room' r :
    GameService.advance_phase now room = (room', r) -> step_on admits room room'
| step_pause_game room :
    step_on admits room (GameService.pause_game room)
| step_resume_game now room :
    step_on admits room (GameService.resume_game now room)
| step_connected room team_id b :
    step_on admits room (set_connected team_id b room)
| step_host_end room :
    step_on admits room (Room.with_status FINISHED room).

Definition step : Room.t -> Room.t -> Prop := step_on (fun _ _ => True).
Definition typed_step : Room.t -> Room.t -> Prop := step_on as_annotated.

(** A room as [RoomService.create_room] makes it: waiting, not started, every
    team with an id of its own (a fresh UUID), the turn's grant and nothing
    placed. *)
Definition created (room : Room.t) : Prop :=
  Room.status room = WAITING
  /\ Room.game_state room = None
  /\ Forall (fun t => Team.resources t = PInt game_config.RESOURCES_PER_TURN
                      /\ Team.placements t = []
                      /\ Team.score t = 0
                      /\ Team.has_submitted t = false
                      /\ Team.is_connected t = false)
            (Room.teams room)
  /\ NoDup (Team.id <$> Room.teams room).

Inductive reachable_on (admits : json -> json -> Prop) : Room.t -> Prop :=
| reachable_created room : created room -> reachable_on admits room
| reachable_step room room' :
    reachable_on admits room -> step_on admits room room' -> reachable_on admits room'.

(** The rooms the backend can reach, and those it reaches as long as the
    clients send cell ids and amounts of the annotated types. *)
Definition reachable : Room.t -> Prop := reachable_on (fun _ _ => True).
Definition typed_reachable : Room.t -> Prop := reachable_on as_annotated.

(** ** National indices *)

(** Every index lies in [[0, INDEX_MAXIMUM]]. *)
Definition indices_in_range (n : NationalIndices.t) : Prop :=
  forall f, 0 <= NationalIndices.getattr n f <= game_config.INDEX_MAXIMUM.

(** The indices of a room are in range once its game has started. *)
Definition room_indices_in_range (room : Room.t) : Prop :=
  forall gs, Room.game_state room = Some gs ->
             indices_in_range (GameState.national_indices gs).

(** The two updates the engine makes to the indices: the reward or penalty of
    a turn's event, applied by [_process_turn], and the maintenance cost,
    applied by [advance_phase] when a turn ends. *)
Inductive index_update : Type :=
| EventChanges (changes : dict.t Z)
| Maintenance.

Definition apply_update (n : NationalIndices.t) (u : index_update) : NationalIndices.t :=
  match u with
  | EventChanges changes =>
      NationalIndices.apply_changes n changes game_config.INDEX_MAXIMUM
  | Maintenance => GameService.apply_maintenance n
  end.

(** ** Phase transitions *)

Definition next_phase (p : GamePhase) : GamePhase :=
  match p with
  | EVENT => ACTION
  | ACTION => RESOLUTION
  | RESOLUTION => RESULT
  | RESULT => EVENT
  end.

(** The transition out of RESULT that ends the session: after the
    maintenance cost an index is at zero, or the last turn has been played. *)
Definition ends_session (gs : GameState.t) : bool :=
  bool_decide (GameState.current_phase gs = RESULT)
  && (NationalIndices.is_any_zero
        (GameService.apply_maintenance (GameState.national_indices gs))
      || (game_config.MAX_TURNS <=? GameState.current_turn gs)).

(** The phase-start time is the instant of the call and the pause flag is
    cleared. *)
Definition stamped (now : datetime) (gs : GameState.t) : Prop :=
  GameState.phase_start_time gs = Some now /\ GameState.is_paused gs = false.

(** C6 as the specification words it: every transition stamps. *)
Definition every_transition_stamps (now : datetime) (room : Room.t) : Prop :=
  forall room' r,
    GameService.advance_phase now room = (room', Ok r) ->
    exists gs', Room.game_state room' = Some gs' /\ stamped now gs'.

(** What [_process_turn] leaves of the clock of the game state: it touches
    the project status, the indices and the scores only. *)
Definition same_clock (gs gs' : GameState.t) : Prop :=
  GameState.current_turn gs' = GameState.current_turn gs
  /\ GameState.current_phase gs' = GameState.current_phase gs
  /\ GameState.phase_start_time gs' = GameState.phase_start_time gs
  /\ GameState.phase_time_limit gs' = GameState.phase_time_limit gs
  /\ GameState.is_paused gs' = GameState.is_paused gs.

(** [advance_phase] called at each of the given instants in turn. *)
Fixpoint advance_at (nows : list datetime) (room : Room.t) : Room.t :=
  match nows with
  | [] => room
  | now :: rest => advance_at rest (fst (GameService.advance_phase now room))
  end.

(** ** Sessions of the connection registry *)

(** What a session does to the registry. *)
Inductive registry_op : Type :=
| OpConnect (websocket : ConnectionManager.WebSocket)
| OpAuthenticate (websocket : ConnectionManager.WebSocket) (role : ClientRole)
    (team_id : option string)
| OpDisconnect (websocket : ConnectionManager.WebSocket).

Definition run_op (room_code : string) (m : ConnectionManager.t) (op : registry_op)
    : ConnectionManager.t :=
  match op with
  | OpConnect ws => ConnectionManager.connect m ws room_code
  | OpAuthenticate ws role team_id =>
      fst (ConnectionManager.authenticate m ws room_code role team_id)
  | OpDisconnect ws => fst (ConnectionManager.disconnect m ws room_code)
  end.

(** C8 as the specification words it: whatever session [A] does, the result
    of an authentication in a distinct session [B] is the same. *)
Definition sessions_independent (m : ConnectionManager.t) (A B : string)
    (ops : list registry_op) (websocket : ConnectionManager.WebSocket)
    (role : ClientRole) (team_id : option string) : Prop :=
  A <> B ->
  snd (ConnectionManager.authenticate (fold_left (run_op A) ops m)
         websocket B role team_id)
  = snd (ConnectionManager.authenticate m websocket B role team_id).

(** Operations that only open connections, or close connections that never
    authenticated: they establish and release no binding. *)
Definition binds_nothing (m : ConnectionManager.t) (room_code : string)
    (op : registry_op) : Prop :=
  match op with
  | OpConnect _ => True
  | OpAuthenticate _ _ _ => False
  | OpDisconnect ws =>
      match ConnectionManager.get_connection_info m ws room_code with
      | Some info => ConnectionInfo.role info = None /\ ConnectionInfo.team_id info = None
      | None => True
      end
  end.

(** ** Credentials in the projected state *)

(** The teams with their session credentials replaced, in order, by the
    given ones. *)
Fixpoint with_session_tokens (tokens : list string) (teams : list Team.t) : list Team.t :=
  match teams, tokens with
  | t :: teams', tok :: tokens' =>
      Team.with_session_token tok t :: with_session_tokens tokens' teams'
  | _, _ => teams
  end.

(** The room with other credentials and everything else the same. *)
Definition with_credentials (host_token : string) (tokens : list string)
    (room : Room.t) : Room.t :=
  Room.with_teams (with_session_tokens tokens (Room.teams room))
    (Room.with_host_token host_token room).

(** C7 as the specification words it: the view a recipient receives is the
    same whatever the credentials are. *)
Definition hides_credentials (ser : Serializer.t) (room : Room.t)
    (conn_info : ConnectionInfo.t) : Prop :=
  forall host_token tokens,
    filter_game_state (state_msg ser (with_credentials host_token tokens room)) conn_info
    = filter_game_state (state_msg ser room) conn_info.

(** A state message that carries no credential: its data has no [host_token]
    entry and none of its teams a [session_token] entry. *)
Definition team_credential_free (team : json) : Prop :=
  match team with
  | JDict d => dict.get "session_token" d = None
  | _ => True
  end.

Definition credential_free (message : dict.t json) : Prop :=
  match dict.get "data" message with
  | Some (JDict data) =>
      dict.get "host_token" data = None
      /\ match dict.get "teams" data with
         | Some (JList teams) => Forall team_credential_free teams
         | _ => True
         end
  | _ => True
  end.

(** What a recipient other than the host receives of one team. *)
Definition team_view (ser : Serializer.t) (conn_info : ConnectionInfo.t) (t : Team.t)
    : json :=
  let hide :=
    match ConnectionInfo.role conn_info with
    | Some SPECTATOR => true
    | Some PLAYER =>
        differs (Some (JStr (Team.id t))) (ConnectionInfo.team_id conn_info)
    | _ => false
    end in
  JDict [("id", JStr (Team.id t));
         ("index", JInt (Team.index t));
         ("name", JStr (Team.name t));
         ("region", model_dump.region (Team.region t));
         ("score", JInt (Team.score t));
         ("resources",
          if hide then JNull else model_dump.int_field ser (of_num (Team.resources t)));
         ("placements",
          if hide then JList []
          else JList (model_dump.placement ser <$> Team.placements t));
         ("has_submitted", JBool (Team.has_submitted t));
         ("is_connected", JBool (Team.is_connected t))].


(** ** Placements as a map from teams to amounts *)

(** The teams of a room have ids of their own, a team has at most one
    placement per cell, and -- once the game has started -- every board cell
    and the project hold at most one amount per team, each of them positive
    and within the turn's grant. *)
Definition cell_placements_ok (teams : list string) (c : BoardCell.t) : Prop :=
  NoDup (CellPlacement.team_id <$> BoardCell.placements c)
  /\ Forall (fun p => CellPlacement.team_id p ∈ teams
                      /\ 0 < CellPlacement.amount p <= game_config.RESOURCES_PER_TURN)
            (BoardCell.placements c).

Definition contributions_ok (teams : list string) (cs : list Contribution.t) : Prop :=
  NoDup (Contribution.team_id <$> cs)
  /\ Forall (fun c => Contribution.team_id c ∈ teams
                      /\ is_int (Contribution.amount c)
                      /\ 0 < units (Contribution.amount c) <= game_config.RESOURCES_PER_TURN)
            cs.

Definition well_formed (room : Room.t) : Prop :=
  NoDup (Team.id <$> Room.teams room)
  /\ Forall (fun t => NoDup (Placement.cell_id <$> Team.placements t)) (Room.teams room)
  /\ forall gs,
       Room.game_state room = Some gs ->
       Forall (cell_placements_ok (Team.id <$> Room.teams room)) (GameState.board gs)
       /\ forall ps,
            GameState.project_status gs = Some ps ->
            contributions_ok (Team.id <$> Room.teams room)
              (ProjectStatus.contributing_teams ps).

(** The synchronisation returns when every amount is an [int]: the sum of
    the project stays an [int], and the placement of a cell is accepted. *)
Definition int_total (st : list BoardCell.t * option ProjectStatus.t) : Prop :=
  forall ps, snd st = Some ps -> exists total, ProjectStatus.total_contributed ps = PInt total.

Definition int_amounts (t : Team.t) : Prop :=
  Forall (fun p => is_int (Placement.amount p)) (Team.placements t).

(** The rounds of the double loop of [_sync_placements_to_board], and what
    tells one round from another: the team it is at and the cell its
    placement names. *)
Definition sync_rounds (teams : list Team.t) : list (string * Placement.t) :=
  teams ≫= (fun team => (fun p => (Team.id team, p)) <$> Team.placements team).

Definition sync_key (round : string * Placement.t) : string * string :=
  (fst round, Placement.cell_id (snd round)).

(** The state of the loop after the rounds with the keys [rounds]: every
    cell and the project hold one amount per team, and a team's amount only
    where one of the rounds put it; the sum of the project is an [int]. *)
Definition sync_state_ok (teams : list string) (rounds : list (string * string))
    (st : list BoardCell.t * option ProjectStatus.t) : Prop :=
  Forall (fun c => cell_placements_ok teams c
                   /\ forall team_id,
                        team_id ∈ CellPlacement.team_id <$> BoardCell.placements c ->
                        (team_id, BoardCell.id c) ∈ rounds)
         (fst st)
  /\ forall ps, snd st = Some ps ->
       (exists total, ProjectStatus.total_contributed ps = PInt total)
       /\ contributions_ok teams (ProjectStatus.contributing_teams ps)
       /\ forall team_id,
            team_id ∈ Contribution.team_id <$> ProjectStatus.contributing_teams ps ->
            (team_id, board_config.PROJECT_CELL_ID) ∈ rounds.


(** ** Sample data *)

Definition sample_region : Region.t :=
  Region.mk "thu-do" "Thu do" "Trung tam chinh tri, van hoa".

Definition sample_team (i : Z) : Team.t :=
  Team.mk ("team-" +:+ board_config.str_of_int i) i
    ("Doi " +:+ board_config.str_of_int (i + 1)) sample_region
    ("token-" +:+ board_config.str_of_int i) 0 (PInt game_config.RESOURCES_PER_TURN) []
    false false.

(** A room as created, its five teams not yet connected. *)
Definition sample_room : Room.t :=
  Room.mk "123456" "Host" "host-token" WAITING
    [sample_team 0; sample_team 1; sample_team 2; sample_team 3; sample_team 4]
    None "2026-01-01T09:00:00".

(** The same room once three teams have connected and the host has started
    the game. *)
Definition started_room : Room.t :=
  fst (GameService.start_game "2026-01-01T09:01:00"
         (set_connected "team-2" true
            (set_connected "team-1" true
               (set_connected "team-0" true sample_room)))).

(** ... and skipped to the action phase of turn 1. *)
Definition action_room : Room.t :=
  fst (GameService.advance_phase "2026-01-01T09:01:15" started_room).

(** A game in which nobody places anything: the projects of turns 1 to 3
    fail, and in the RESULT phase of turn 3 the economy index is at zero.
    The host pauses there. *)
Definition paused_result_room : Room.t :=
  GameService.pause_game
    (advance_at
       ["09:01:15"; "09:02:15"; "09:02:18"; "09:02:33";
        "09:02:48"; "09:03:48"; "09:03:51"; "09:04:06";
        "09:04:21"; "09:05:21"; "09:05:24"]
       started_room).

(** A competitive cell on which two teams tie for the highest amount. *)
Definition tie_cell : BoardCell.t :=
  BoardCell.mk "cell-0-3" (0, 3) COMPETITIVE "Khu CN" ["economy"; "environment"]
    [CellPlacement.mk "t1" 5; CellPlacement.mk "t2" 5; CellPlacement.mk "t3" 3].

(** A registry with one open connection in each of two sessions. *)
Definition two_sessions : ConnectionManager.t :=
  ConnectionManager.connect
    (ConnectionManager.connect ConnectionManager.init 1%positive "AAAAAA")
    2%positive "BBBBBB".


(** The serializer that passes a number on as the kind of number it is. *)
Definition sample_serializer : Serializer.t :=
  Serializer.mk (fun a => match a with
                          | NInt z => JInt z
                          | NFloat x => JFloat x
                          | NBool b => JBool b
                          end)
                JFloat.

(* ===================================================================== *)
(** * Part IX. Rooms, rankings and the registry's other methods          *)
(* ===================================================================== *)

(** ** Regions (backend/config/regions_config.py) *)

Module regions_config.

Definition REGIONS : list Region.t :=
  [ Region.mk "thu-do" "Thủ đô"
      "Trung tâm chính trị, văn hóa (Hà Nội, Hải Phòng, Quảng Ninh)";
    Region.mk "duyen-hai" "Duyên hải"
      "Ven biển miền Trung (Đà Nẵng, Quảng Nam, Bình Định)";
    Region.mk "tay-nguyen" "Tây Nguyên"
      "Cao nguyên, nông lâm nghiệp (Đắk Lắk, Gia Lai, Kon Tum)";
    Region.mk "dong-bang" "Đồng bằng"
      "Vựa lúa quốc gia (Cần Thơ, An Giang, Đồng Tháp)";
    Region.mk "mien-dong" "Miền Đông"
      "Công nghiệp, kinh tế trọng điểm (TP.HCM, Bình Dương, Đồng Nai)" ].

Definition get_region_by_id (region_id : string) : option Region.t :=
  find_first (fun r => bool_decide (Region.id r = region_id)) REGIONS.

Definition get_region_by_index (index : Z) : option Region.t :=
  if (0 <=? index) && (index <? Z.of_nat (length REGIONS))
  then REGIONS !! Z.to_nat index
  else None.

End regions_config.

(** ** Regular cells (backend/config/board_config.py) *)

(** [{k: v for k, v in BOARD_CELLS.items() if k not in PROJECT_CELLS}] *)
Definition get_regular_cells : list ((Z * Z) * board_config.CellConfig) :=
  filter (fun kv => board_config.is_project_cell (fst kv) = false)
         board_config.BOARD_CELLS.

(** ** Public team data (backend/room/schemas.py) *)

Module TeamPublic.
Record t : Type := mk {
  id : string;
  index : Z;
  name : string;
  region : Region.t;
  score : Z;
  has_submitted : bool;
  is_connected : bool }.
End TeamPublic.

(** [Team.to_public] *)
Definition to_public (self : Team.t) : TeamPublic.t :=
  TeamPublic.mk (Team.id self) (Team.index self) (Team.name self) (Team.region self)
    (Team.score self) (Team.has_submitted self) (Team.is_connected self).

Module RoomInfoResponse.
Record t : Type := mk {
  room_code : string;
  status : RoomStatus;
  host_name : string;
  teams : list TeamPublic.t;
  created_at : datetime }.
End RoomInfoResponse.

Module CreateRoomResponse.
Record t : Type := mk { room_code : string; host_token : string }.
End CreateRoomResponse.

(** ** The end of a game (GameService.get_game_over_result) *)

(** An entry of [final_rankings]. *)
Module Ranking.
Record t : Type := mk {
  rank : Z;
  team_id : string;
  team_name : string;
  region : string;
  score : Z }.
End Ranking.

Module GameOverResult.
Record t : Type := mk {
  reason : string;
  failed_index : option string;
  final_rankings : list Ranking.t;
  total_turns_played : Z;
  final_indices : NationalIndices.t }.
End GameOverResult.

(** [sorted(l, key=key, reverse=True)]: the sort is stable, so elements with
    equal keys keep the order they had.  An element is inserted in front of
    the first element of the sorted rest whose key is not greater. *)
Fixpoint insert_desc {A} (key : A -> Z) (x : A) (l : list A) : list A :=
  match l with
  | [] => [x]
  | y :: l' => if key x <? key y then y :: insert_desc key x l' else x :: y :: l'
  end.

Fixpoint sorted_desc {A} (key : A -> Z) (l : list A) : list A :=
  match l with
  | [] => []
  | x :: l' => insert_desc key x (sorted_desc key l')
  end.

Definition get_game_over_result (room : Room.t) : GameOverResult.t :=
  let gs := Room.game_state room in
  let index_zero :=
    match gs with
    | Some g => NationalIndices.is_any_zero (GameState.national_indices g)
    | None => false
    end in
  let reason := if index_zero then "index_zero" else "completed" in
  let failed_index :=
    match gs with
    | Some g =>
        if index_zero
        then NationalIndices.get_zero_index (GameState.national_indices g)
        else None
    | None => None
    end in
  let sorted_teams := sorted_desc Team.score (Room.teams room) in
  let rankings :=
    imap (fun i t =>
            Ranking.mk (Z.of_nat i + 1) (Team.id t) (Team.name t)
              (Region.name (Team.region t)) (Team.score t))
         sorted_teams in
  GameOverResult.mk reason failed_index rankings
    (match gs with Some g => GameState.current_turn g | None => 0 end)
    (match gs with
     | Some g => GameState.national_indices g
     | None => NationalIndices.default
     end).

(** ** The registry's other methods (backend/websocket/manager.py) *)

Definition get_room_connection_count (m : ConnectionManager.t) (room_code : string) : Z :=
  match ConnectionManager._connections m !! room_code with
  | Some room => Z.of_nat (size room)
  | None => 0
  end.




(** ** The state of a game in play *)

(** The board [start_game] lays out: the regular cells, nothing placed. *)
Definition initial_board : list BoardCell.t :=
  map (fun kv =>
         BoardCell.mk (board_config.create_cell_id (fst kv)) (fst kv)
           (board_config.type (snd kv)) (board_config.name (snd kv))
           (board_config.indices (snd kv)) [])
      get_regular_cells.

(** The time limit the configuration gives a phase. *)
Definition phase_duration (p : GamePhase) : Z :=
  match p with
  | EVENT => game_config.PHASE_EVENT_DURATION
  | ACTION => game_config.PHASE_ACTION_DURATION
  | RESOLUTION => game_config.PHASE_RESOLUTION_DURATION
  | RESULT => game_config.PHASE_RESULT_DURATION
  end.

(** The turn is one of the game's, the event is the turn's, the project has
    the event's thresholds, the phase has its configured time limit, and the
    board is the initial one but for what is placed on it. *)
Definition game_state_ok (gs : GameState.t) : Prop :=
  1 <= GameState.current_turn gs <= game_config.MAX_TURNS
  /\ GameState.current_event gs
     = events_config.get_event_by_turn (GameState.current_turn gs)
  /\ (exists ev ps,
        GameState.current_event gs = Some ev
        /\ GameState.project_status gs = Some ps
        /\ ProjectStatus.min_total ps = TurnEvent.min_total ev
        /\ ProjectStatus.min_teams ps = TurnEvent.min_teams ev)
  /\ GameState.phase_time_limit gs = phase_duration (GameState.current_phase gs)
  /\ GameState.paused_time_remaining gs = None
  /\ BoardCell.with_placements [] <$> GameState.board gs = initial_board.

Definition game_state_consistent (room : Room.t) : Prop :=
  (Room.status room = WAITING -> Room.game_state room = None)
  /\ forall gs, Room.game_state room = Some gs -> game_state_ok gs.

(** What one team has placed on a cell, as the board records it, and what
    the teams of a room have, in the room's order; the amounts are [int]s
    where the teams are typed. *)
Definition team_placements_on (cell_id : string) (t : Team.t) : list CellPlacement.t :=
  (fun p => CellPlacement.mk (Team.id t) (units (Placement.amount p)))
    <$> filter (fun p => Placement.cell_id p = cell_id) (Team.placements t).

Definition placements_on (cell_id : string) (teams : list Team.t) : list CellPlacement.t :=
  teams ≫= team_placements_on cell_id.

(** What the teams have placed on the project. *)
Definition team_contributions (t : Team.t) : list Contribution.t :=
  (fun p => Contribution.mk (Team.id t) (Placement.amount p))
    <$> filter (fun p => Placement.cell_id p = board_config.PROJECT_CELL_ID)
          (Team.placements t).

Definition contributions_of (teams : list Team.t) : list Contribution.t :=
  teams ≫= team_contributions.

(** The sum of a project, where it is an [int]. *)
Definition int_of_total (ps : ProjectStatus.t) : Z :=
  match ProjectStatus.total_contributed ps with
  | PInt z => z
  | PFloat _ => 0
  end.

(** The board and the project show what the teams have placed, no more and
    no less. *)
Definition board_in_sync (room : Room.t) : Prop :=
  forall gs,
    Room.game_state room = Some gs ->
    Forall (fun c => BoardCell.placements c
                     = placements_on (BoardCell.id c) (Room.teams room))
           (GameState.board gs)
    /\ forall ps,
         GameState.project_status gs = Some ps ->
         ProjectStatus.contributing_teams ps = contributions_of (Room.teams room)
         /\ ProjectStatus.total_contributed ps
            = PInt (sum_int ((fun c => units (Contribution.amount c))
                               <$> ProjectStatus.contributing_teams ps)).


(** ** Float values, compared by their representation *)

(** Two floats with the same sign, mantissa and exponent: used to check
    tables of values by computation. *)
Definition sf_eqb (x y : spec_float) : bool :=
  match x, y with
  | S754_zero s, S754_zero s' => Bool.eqb s s'
  | S754_infinity s, S754_infinity s' => Bool.eqb s s'
  | S754_nan, S754_nan => true
  | S754_finite s m e, S754_finite s' m' e' =>
      Bool.eqb s s' && Pos.eqb m m' && Z.eqb e e'
  | _, _ => false
  end.

Definition float_same (x y : float) : bool := sf_eqb (Prim2SF x) (Prim2SF y).

(** The pairs [(a, b)] with [1 <= a <= b <= n]. *)
Definition pairs_upto (n : Z) : list (Z * Z) :=
  b ← seqZ 1 n; (fun a => (a, b)) <$> seqZ 1 b.


(** ** Decimal numerals *)

(** The strings of decimal digits: what an f-string prints of an [int], but
    for the sign. *)
Fixpoint all_digits (s : string) : Prop :=
  match s with
  | EmptyString => True
  | String c s' => (exists d : N, c = pretty.pretty_N_char d) /\ all_digits s'
  end.


(** ** The room store (backend/store/room_store.py) *)

Module RoomStore.

(** The store holds one room at most.  A room is a model object, and a model
    object is true as a condition, so [if self._room] tests for [None]. *)
Record t : Type := mk { _room : option Room.t }.

(** [RoomStore()] *)
Definition init : t := mk None.

Definition get (self : t) : option Room.t := _room self.

Definition set (self : t) (room : Room.t) : t := mk (Some room).

Definition delete (self : t) : t * bool :=
  match _room self with
  | Some _ => (mk None, true)
  | None => (self, false)
  end.

Definition exists_ (self : t) : bool :=
  match _room self with
  | Some _ => true
  | None => false
  end.

Section get_by_code.

(** [str.upper]: the store only compares its results. *)
Variable upper : string -> string.

Definition get_by_code (self : t) (code : string) : option Room.t :=
  match _room self with
  | Some room =>
      if decide (upper (Room.code room) = upper code) then Some room else None
  | None => None
  end.

End get_by_code.

End RoomStore.

(** [str.upper] on ASCII text: the letters [a] to [z] become [A] to [Z]. *)
Definition ascii_upper (s : string) : string :=
  String.string_of_list_ascii
    ((fun c => let n := Ascii.nat_of_ascii c in
               if (97 <=? n)%nat && (n <=? 122)%nat
               then Ascii.ascii_of_nat (n - 32) else c)
       <$> String.list_ascii_of_string s).

(** ** Room codes (backend/utils/room_code.py) *)

Module room_code.

(** [game_config.ROOM_CODE_LENGTH] and [game_config.ROOM_CODE_CHARSET] *)
Definition ROOM_CODE_LENGTH : nat := 6.
Definition ROOM_CODE_CHARSET : string := "0123456789".

(** [''.join(random.choices(charset, k=length))]: each of the [length]
    characters is one of the charset, picked at the index the generator
    yields -- here the [i]-th draw, taken modulo the size of the charset. *)
Definition generate_room_code (draw : nat -> nat) : string :=
  let charset := String.list_ascii_of_string ROOM_CODE_CHARSET in
  String.string_of_list_ascii
    ((fun i => nth (draw i mod length charset) charset Ascii.zero)
       <$> seq 0 ROOM_CODE_LENGTH).

End room_code.

(** ** Room management (backend/room/service.py, backend/room/exceptions.py) *)

Module exceptions.

Record HTTPException : Type := mk { status_code : Z; detail : string }.

Definition RoomNotFound : HTTPException := mk 404 "Room not found".
Definition Unauthorized : HTTPException := mk 401 "Unauthorized".

End exceptions.

(** What a request handler ends with: a value, or an HTTP error. *)
Inductive response (A : Type) : Type :=
| Returned (a : A)
| Failed (e : exceptions.HTTPException).
Arguments Returned {A} a.
Arguments Failed {A} e.

(** What the run time hands to one call of [create_room]: the draws of
    [random.choices], the strings of the successive calls of [uuid.uuid4],
    and the clock. *)
Module Entropy.
Record t : Type := mk { draw : nat -> nat; uuid4 : nat -> string; now : datetime }.
End Entropy.

Module RoomService.

Section with_upper.

Variable upper : string -> string.

(** The first [uuid4] is the host's token; then each team takes two, its id
    and its session token. *)
Definition create_room (room_store : RoomStore.t) (host_name : string) (e : Entropy.t)
    : RoomStore.t * CreateRoomResponse.t :=
  let room_store1 := fst (RoomStore.delete room_store) in
  let room_code := room_code.generate_room_code (Entropy.draw e) in
  let host_token := Entropy.uuid4 e 0 in
  let teams :=
    imap (fun i region =>
            Team.mk (Entropy.uuid4 e (2 * i + 1)) (Z.of_nat i)
              ("Đội " +:+ board_config.str_of_int (Z.of_nat i + 1)) region
              (Entropy.uuid4 e (2 * i + 2)) 0 (PInt game_config.RESOURCES_PER_TURN) []
              false false)
         regions_config.REGIONS in
  let room := Room.mk room_code host_name host_token WAITING teams None (Entropy.now e) in
  (RoomStore.set room_store1 room, CreateRoomResponse.mk room_code host_token).

Definition get_room (room_store : RoomStore.t) (room_code : string) : response Room.t :=
  match RoomStore.get_by_code upper room_store room_code with
  | Some room => Returned room
  | None => Failed exceptions.RoomNotFound
  end.

Definition get_current_room (room_store : RoomStore.t) : option Room.t :=
  RoomStore.get room_store.

Definition delete_room (room_store : RoomStore.t) (room_code host_token : string)
    : RoomStore.t * response bool :=
  match RoomStore.get_by_code upper room_store room_code with
  | None => (room_store, Failed exceptions.RoomNotFound)
  | Some room =>
      if decide (Room.host_token room = host_token)
      then (fst (RoomStore.delete room_store), Returned (snd (RoomStore.delete room_store)))
      else (room_store, Failed exceptions.Unauthorized)
  end.

Definition validate_host_token (room_store : RoomStore.t) (room_code token : string) : bool :=
  match RoomStore.get_by_code upper room_store room_code with
  | Some room => bool_decide (Room.host_token room = token)
  | None => false
  end.

Definition validate_session_token (room_store : RoomStore.t)
    (room_code team_id token : string) : bool :=
  match RoomStore.get_by_code upper room_store room_code with
  | None => false
  | Some room =>
      match find_first (GameService.is_team team_id) (Room.teams room) with
      | Some team => bool_decide (Team.session_token team = token)
      | None => false
      end
  end.

Definition get_team (room_store : RoomStore.t) (room_code team_id : string)
    : option Team.t :=
  match RoomStore.get_by_code upper room_store room_code with
  | None => None
  | Some room => find_first (GameService.is_team team_id) (Room.teams room)
  end.

Definition get_team_by_index (room_store : RoomStore.t) (room_code : string) (index : Z)
    : option Team.t :=
  match RoomStore.get_by_code upper room_store room_code with
  | None => None
  | Some room => find_first (fun t => Team.index t =? index) (Room.teams room)
  end.

Definition get_connected_team_count (room_store : RoomStore.t) (room_code : string) : Z :=
  match RoomStore.get_by_code upper room_store room_code with
  | None => 0
  | Some room =>
      Z.of_nat (length (filter (fun t => Team.is_connected t = true) (Room.teams room)))
  end.

End with_upper.

End RoomService.

(** ** The REST endpoints of a room (backend/room/router.py) *)

Module room_router.

Section with_upper.

Variable upper : string -> string.

(** [GET /api/rooms/{room_code}] *)
Definition get_room (room_store : RoomStore.t) (room_code : string)
    : response RoomInfoResponse.t :=
  match RoomService.get_room upper room_store (upper room_code) with
  | Returned room =>
      Returned (RoomInfoResponse.mk (Room.code room) (Room.status room)
                  (Room.host_name room) (to_public <$> Room.teams room)
                  (Room.created_at room))
  | Failed e => Failed e
  end.

(** [GET /api/rooms/{room_code}/teams] *)
Definition get_teams (room_store : RoomStore.t) (room_code : string)
    : response (dict.t json) :=
  match RoomService.get_room upper room_store (upper room_code) with
  | Returned room =>
      Returned
        [("teams",
          JList ((fun t =>
                    JDict [("id", JStr (Team.id t));
                           ("index", JInt (Team.index t));
                           ("name", JStr (Team.name t));
                           ("region", model_dump.region (Team.region t));
                           ("session_token", JStr (Team.session_token t));
                           ("is_connected", JBool (Team.is_connected t))])
                   <$> Room.teams room))]
  | Failed e => Failed e
  end.

End with_upper.

End room_router.

(** ** Sample data for the store *)

Definition sample_entropy : Entropy.t :=
  Entropy.mk (fun i => (7 * i + 3)%nat) (fun i => "uuid-" +:+ pretty.pretty i)
    "2026-01-01T08:59:00".

(** The store after the first [create_room]. *)
Definition sample_store : RoomStore.t :=
  fst (RoomService.create_room RoomStore.init "Host" sample_entropy).

(* ===================================================================== *)
(** * Part X. Properties                                                 *)
(* ===================================================================== *)

(** ** Dictionaries and loops *)

Lemma dict_get_set_eq {V} (k : string) (v : V) (d : dict.t V) :
  dict.get k (dict.set k v d) = Some v.
Proof.
  induction d as [|[k' v'] d IH]; simpl.
  - rewrite decide_True; done.
  - destruct (decide (k = k')) as [->|Hne]; simpl.
    + rewrite decide_True; done.
    + rewrite decide_False; done.
Qed.

Lemma dict_get_set_ne {V} (k k' : string) (v : V) (d : dict.t V) :
  k <> k' -> dict.get k (dict.set k' v d) = dict.get k d.
Proof.
  intros Hne. induction d as [|[k0 v0] d IH]; simpl.
  - rewrite decide_False; done.
  - destruct (decide (k' = k0)) as [->|Hne0]; simpl.
    + rewrite !decide_False; done.
    + destruct (decide (k = k0)); done.
Qed.

Lemma dict_get_set {V} (k k' : string) (v : V) (d : dict.t V) :
  dict.get k (dict.set k' v d) = if decide (k = k') then Some v else dict.get k d.
Proof.
  destruct (decide (k = k')) as [->|Hne].
  - apply dict_get_set_eq.
  - by apply dict_get_set_ne.
Qed.

Lemma dict_get_pop_eq {V} (k : string) (d : dict.t V) :
  NoDup (dict.keys d) -> dict.get k (dict.pop k d) = None.
Proof.
  unfold dict.keys. induction d as [|[k' v'] d IH]; simpl; [done|].
  intros Hnd. apply NoDup_cons in Hnd as [Hnotin Hnd].
  destruct (decide (k = k')) as [->|Hne]; simpl.
  - clear IH Hnd. induction d as [|[k0 v0] d IH]; simpl; [done|].
    simpl in Hnotin. apply not_elem_of_cons in Hnotin as [Hne Hnotin].
    rewrite decide_False by done. by apply IH.
  - rewrite decide_False by done. by apply IH.
Qed.

Lemma dict_get_pop_ne {V} (k k' : string) (d : dict.t V) :
  k <> k' -> dict.get k (dict.pop k' d) = dict.get k d.
Proof.
  intros Hne. induction d as [|[k0 v0] d IH]; simpl; [done|].
  destruct (decide (k' = k0)) as [->|Hne0]; simpl.
  - by rewrite decide_False.
  - destruct (decide (k = k0)); done.
Qed.

Lemma rfold_app {A S} (body : S -> A -> result S) (s : S) (l1 l2 : list A) :
  rfold body s (l1 ++ l2) = (do s' <~ rfold body s l1 ; rfold body s' l2).
Proof.
  revert s. induction l1 as [|x l1 IH]; intros s; simpl; [done|].
  destruct (body s x); simpl; [apply IH | done].
Qed.

(** The entry of a key after the loop [fill_scores] is the value of the last
    element that carries the key. *)
Lemma fill_scores_get {A} (key : A -> string) (value : A -> result num)
    (g : A -> num) (l : list A) :
  (forall x, x ∈ l -> value x = Ok (g x)) ->
  exists d, fill_scores key value l = Ok d /\
    forall k, dict.get k d
      = g <$> find_first (fun x => bool_decide (key x = k)) (rev l).
Proof.
  unfold fill_scores. induction l as [|x l IH] using rev_ind; intros Hv.
  - exists dict.empty. split; done.
  - destruct IH as (d & Hd & Hget); [intros y Hy; apply Hv; set_solver|].
    rewrite rfold_app, Hd. simpl. rewrite Hv by set_solver. simpl.
    eexists; split; [done|]. intros k. rewrite rev_unit. simpl.
    rewrite dict_get_set. case_bool_decide; subst.
    + by rewrite decide_True.
    + rewrite decide_False by done. apply Hget.
Qed.

Lemma find_first_last_occurrence {A} (key : A -> string) (l : list A) (i : nat) (c : A) :
  l !! i = Some c ->
  (forall j c', (i < j)%nat -> l !! j = Some c' -> key c' <> key c) ->
  find_first (fun x => bool_decide (key x = key c)) (rev l) = Some c.
Proof.
  revert i. induction l as [|x l IH] using rev_ind; intros i Hi Hlast; [done|].
  rewrite rev_unit. simpl.
  destruct (decide (i = length l)) as [->|Hne].
  - rewrite lookup_app_r, Nat.sub_diag in Hi by done. simplify_eq/=.
    by rewrite bool_decide_true.
  - assert (i < length l)%nat as Hlt.
    { apply lookup_lt_Some in Hi. rewrite length_app in Hi. simpl in Hi. lia. }
    rewrite lookup_app_l in Hi by done.
    rewrite bool_decide_false.
    + apply (IH i Hi). intros j c' Hj Hc'. apply (Hlast j); [done|].
      rewrite lookup_app_l; [done|]. by apply lookup_lt_Some in Hc'.
    + apply (Hlast (length l)); [done|].
      rewrite lookup_app_r, Nat.sub_diag by done. done.
Qed.

Lemma find_first_NoDup {A} (key : A -> string) (l : list A) (c : A) :
  NoDup (key <$> l) -> c ∈ l ->
  find_first (fun x => bool_decide (key x = key c)) (rev l) = Some c.
Proof.
  intros Hnd Hin. apply list_elem_of_lookup in Hin as [i Hi].
  apply (find_first_last_occurrence key l i c Hi).
  intros j c' Hlt Hj Heq.
  assert (i = j) as ->; [|lia].
  eapply NoDup_lookup; [exact Hnd| |].
  - rewrite list_lookup_fmap, Hi. done.
  - rewrite list_lookup_fmap, Hj. simpl. by rewrite Heq.
Qed.

Lemma find_first_None {A} (p : A -> bool) (l : list A) :
  find_first p l = None <-> Forall (fun x => p x = false) l.
Proof.
  induction l as [|x l IH]; simpl.
  - split; [constructor | done].
  - destruct (p x) eqn:Hp.
    + split; [done|]. intros H. apply Forall_cons in H as [H _]. congruence.
    + rewrite IH. split; [by constructor|]. intros H. by apply Forall_cons in H as [_ H].
Qed.

Lemma find_first_Some {A} (p : A -> bool) (l : list A) (x : A) :
  find_first p l = Some x -> x ∈ l /\ p x = true.
Proof.
  induction l as [|y l IH]; simpl; [done|].
  destruct (p y) eqn:Hp.
  - intros [= ->]. split; [left | done].
  - intros H. destruct (IH H). split; [by right | done].
Qed.

(** ** Sums and maxima *)

Lemma fold_left_add_acc (l : list Z) (a : Z) :
  fold_left Z.add l a = a + fold_left Z.add l 0.
Proof.
  revert a. induction l as [|x l IH]; intros a; simpl; [lia|].
  rewrite (IH (a + x)), (IH (0 + x)). lia.
Qed.

Lemma sum_int_cons (x : Z) (l : list Z) : sum_int (x :: l) = x + sum_int l.
Proof. unfold sum_int. simpl. apply fold_left_add_acc. Qed.

Lemma sum_int_app (l1 l2 : list Z) : sum_int (l1 ++ l2) = sum_int l1 + sum_int l2.
Proof.
  induction l1 as [|x l1 IH]; simpl; [done|].
  rewrite !sum_int_cons, IH. lia.
Qed.

Lemma fold_left_max_spec (l : list Z) (a : Z) :
  (fold_left Z.max l a = a \/ fold_left Z.max l a ∈ l)
  /\ a <= fold_left Z.max l a
  /\ Forall (fun x => x <= fold_left Z.max l a) l.
Proof.
  revert a. induction l as [|x l IH]; intros a; simpl.
  - split; [by left|]. split; [lia | constructor].
  - destruct (IH (Z.max a x)) as (Hin & Hle & Hall).
    split; [|split].
    + destruct Hin as [Heq|Hin]; [|right; by right].
      destruct (Z.max_spec a x) as [[_ Hm]|[_ Hm]]; rewrite Hm in Heq |- *.
      * right. rewrite Heq. left.
      * by left.
    + lia.
    + constructor; [lia | done].
Qed.

(** [max] returns an element that bounds the list, and only that value. *)
Lemma max_int_spec (l : list Z) (m : Z) :
  max_int l = Ok m <-> m ∈ l /\ Forall (fun x => x <= m) l.
Proof.
  destruct l as [|a l]; simpl.
  - split; [done|]. intros [H _]. by apply elem_of_nil in H.
  - pose proof (fold_left_max_spec l a) as (Hin & Hle & Hall). simpl in *.
    split.
    + intros [= <-]. split; [|by constructor].
      destruct Hin as [->|Hin]; [left | by right].
    + intros [Hm Hbound]. f_equal.
      apply Forall_cons in Hbound as [Ha Hl].
      assert (fold_left Z.max l a <= m).
      { destruct Hin as [->|Hin]; [done|].
        rewrite Forall_forall in Hl. by apply Hl. }
      assert (m <= fold_left Z.max l a); [|lia].
      apply elem_of_cons in Hm as [->|Hm]; [done|].
      rewrite Forall_forall in Hall. by apply Hall.
Qed.

(** ** Conversions *)

Lemma float_of_int_bounded (z : Z) :
  Z.abs z < float_max_int -> float_of_int z = Ok (round_int z).
Proof.
  intros H. unfold float_of_int.
  destruct (Z.ltb_spec (Z.abs z) float_max_int); [done | lia].
Qed.

Lemma int_mul_float_bounded (z : Z) (x : float) :
  Z.abs z < float_max_int -> int_mul_float z x = Ok (PrimFloat.mul (round_int z) x).
Proof. intros H. unfold int_mul_float. by rewrite float_of_int_bounded. Qed.

Lemma remove_dups_NoDup {A} `{EqDecision A} (l : list A) :
  NoDup l -> remove_dups l = l.
Proof.
  induction 1 as [|x l Hx Hnd IH]; simpl; [done|].
  destruct (decide_rel elem_of x l); [done|]. by rewrite IH.
Qed.

(** ** Numbers of the declared type *)

Lemma num_ge_int (a b : Z) : num_ge (PInt a) (PInt b) = (b <=? a).
Proof.
  unfold num_ge. cbn [num_gt num_eqb].
  destruct (Z.ltb_spec b a), (Z.eqb_spec a b), (Z.leb_spec b a); try reflexivity; lia.
Qed.

Lemma num_gt_int (a b : Z) : num_gt (PInt a) (PInt b) = (b <? a).
Proof. reflexivity. Qed.

Lemma is_positive_int (z : Z) : is_positive (NInt z) = (0 <? z).
Proof. reflexivity. Qed.

Lemma is_negative_int (z : Z) : is_negative (NInt z) = (z <? 0).
Proof. reflexivity. Qed.

Lemma is_zero_int (z : Z) : is_zero (NInt z) = (z =? 0).
Proof. reflexivity. Qed.

Lemma fmap_rev {A B} (f : A -> B) (l : list A) : f <$> rev l = rev (f <$> l).
Proof.
  induction l as [|x l IH]; [done|]. cbn [rev]. rewrite fmap_app, IH. done.
Qed.

Lemma sum_numbers_acc (zs : list Z) (a : Z) :
  rfold (fun acc x => num_add acc (to_num x)) (PInt a) (NInt <$> zs)
  = Ok (PInt (fold_left Z.add zs a)).
Proof.
  revert a. induction zs as [|z zs IH]; intros a; [done|].
  rewrite fmap_cons. cbn [rfold to_num num_add rbind]. apply IH.
Qed.

Lemma sum_numbers_ints (zs : list Z) : sum_numbers (NInt <$> zs) = Ok (PInt (sum_int zs)).
Proof. apply sum_numbers_acc. Qed.

(** ** The project: success, yield and flat bonus (C1, C3) *)

Section Project.

Import ScoringService.

Variables (entries : list (string * Z)) (min_total min_teams : Z).

Let contributions : list Contribution.t := int_contributions entries.
Let total : Z := sum_int (snd <$> entries).
Let positive : Z := Z.of_nat (length (positive_entries contributions)).

Lemma int_contributions_amounts :
  map Contribution.amount contributions = NInt <$> (snd <$> entries).
Proof.
  unfold contributions, int_contributions.
  change (map Contribution.amount) with (fmap (M := list) Contribution.amount).
  rewrite <- !list_fmap_compose. done.
Qed.

Lemma calculate_project_result_Ok :
  Forall (fun e => Z.abs (snd e) < float_max_int) entries ->
  exists scores,
    calculate_project_result contributions min_total min_teams
      = Ok (mkProjectResult ((min_total <=? total) && (min_teams <=? positive))
              (PInt total) positive scores)
    /\ forall k, dict.get k scores
         = (fun e => if (min_total <=? total) && (min_teams <=? positive)
                     then PFloat (PrimFloat.mul (round_int (snd e))
                                    scoring_config.PROJECT_SUCCESS_BONUS_PER_RP)
                     else PInt 0)
           <$> find_first (fun e => bool_decide (fst e = k)) (rev entries).
Proof.
  intros Hb. rewrite Forall_forall in Hb.
  unfold calculate_project_result.
  rewrite int_contributions_amounts, sum_numbers_ints. cbn [rbind].
  fold total. rewrite num_ge_int.
  change (Z.of_nat (length (positive_entries contributions))) with positive.
  assert (forall (value : Contribution.t -> result num) (v : string * Z -> num),
            (forall e, e ∈ entries ->
                       value (Contribution.mk (fst e) (NInt (snd e))) = Ok (v e)) ->
            exists d,
              fill_scores Contribution.team_id value contributions = Ok d
              /\ forall k, dict.get k d
                   = v <$> find_first (fun e => bool_decide (fst e = k)) (rev entries))
    as Hfill.
  { intros value v Hv.
    destruct (fill_scores_get Contribution.team_id value
                (fun c => v (Contribution.team_id c, units (Contribution.amount c)))
                contributions) as (d & Hd & Hget).
    { intros c [e [-> He]]%list_elem_of_fmap. rewrite (Hv e He). by destruct e. }
    exists d. split; [exact Hd|]. intros k. rewrite Hget.
    unfold contributions, int_contributions. rewrite <- fmap_rev.
    generalize (rev entries). intros l. induction l as [|e l IH]; [done|].
    rewrite fmap_cons. cbn [find_first Contribution.team_id].
    destruct (bool_decide (fst e = k)); [by destruct e|]. exact IH. }
  destruct (_ && _).
  - destruct (Hfill (fun c => do v <~ num_mul_float (to_num (Contribution.amount c))
                                      scoring_config.PROJECT_SUCCESS_BONUS_PER_RP ;
                              Ok (PFloat v))
                    (fun e => PFloat (PrimFloat.mul (round_int (snd e))
                                        scoring_config.PROJECT_SUCCESS_BONUS_PER_RP)))
      as (d & -> & Hd); [|exists d; split; [done | exact Hd]].
    intros e He. cbn [Contribution.amount to_num num_mul_float].
    by rewrite int_mul_float_bounded by auto.
  - destruct (Hfill (fun _ => Ok (PInt 0)) (fun _ => PInt 0))
      as (d & -> & Hd); [done|exists d; split; [done | exact Hd]].
Qed.

End Project.

(** C3, at the input that separates entries from distinct teams: one team
    entered three times passes a threshold of three teams. *)
Lemma project_success_spec_counterexample :
  ~ project_success_spec [("t1", 10); ("t1", 10); ("t1", 10)] 20 3.
Proof.
  intros H.
  destruct (ScoringService.calculate_project_result
              (int_contributions [("t1", 10); ("t1", 10); ("t1", 10)])
              20 3) as [pr|e] eqn:E; vm_compute in E; [|discriminate].
  specialize (H pr). injection E as <-.
  destruct H as [H _]; [vm_compute; reflexivity|].
  specialize (H eq_refl) as [_ H]. vm_compute in H. by apply H.
Qed.

(** C3 (amended). For contributions whose amounts are [int]s that convert to
    float, the project result is produced and succeeds exactly when the total
    reaches [min_total] and the number of entries with a positive amount
    reaches [min_teams]; meeting both thresholds exactly is a success, one
    unit below either is a failure; and when no team id repeats, the entries
    counted are the distinct contributing teams. *)
Theorem project_success_boundary (entries : list (string * Z)) (min_total min_teams : Z) :
  Forall (fun e => Z.abs (snd e) < float_max_int) entries ->
  let cs := int_contributions entries in
  exists pr,
    ScoringService.calculate_project_result cs min_total min_teams = Ok pr
    /\ (ScoringService.success pr = true <->
        min_total <= sum_int (snd <$> entries)
        /\ min_teams <= Z.of_nat (length (positive_entries cs)))
    /\ (sum_int (snd <$> entries) = min_total ->
        Z.of_nat (length (positive_entries cs)) = min_teams ->
        ScoringService.success pr = true)
    /\ (sum_int (snd <$> entries) = min_total - 1
        \/ Z.of_nat (length (positive_entries cs)) = min_teams - 1 ->
        ScoringService.success pr = false)
    /\ (forall e, e ∈ entries ->
          (Contribution.mk (fst e) (NInt (snd e)) ∈ positive_entries cs <-> 0 < snd e))
    /\ (NoDup (fst <$> entries) ->
        Z.of_nat (length (positive_entries cs)) = distinct_contributing_teams cs).
Proof.
  intros Hb cs. subst cs.
  destruct (calculate_project_result_Ok entries min_total min_teams Hb) as (scores & Hpr & _).
  eexists. split; [exact Hpr|]. simpl.
  split; [|split; [|split; [|split]]].
  - rewrite andb_true_iff, !Z.leb_le. done.
  - intros -> ->. rewrite !Z.leb_refl. done.
  - intros [->| ->]; apply andb_false_iff; [left | right]; apply Z.leb_gt; lia.
  - intros e He. unfold positive_entries. rewrite list_elem_of_filter.
    cbn [Contribution.amount]. rewrite is_positive_int, Z.ltb_lt.
    split; [by intros [? _]|]. intros Hpos. split; [done|].
    unfold int_contributions. apply list_elem_of_fmap. by exists e.
  - intros Hnd. unfold distinct_contributing_teams.
    rewrite remove_dups_NoDup, length_fmap; [done|].
    eapply sublist_NoDup; [|apply fmap_sublist, sublist_filter].
    unfold int_contributions. by rewrite <- list_fmap_compose.
Qed.

Lemma project_success_boundary_witness :
  exists pr,
    ScoringService.calculate_project_result
      (int_contributions [("t1", 7); ("t2", 7); ("t3", 6)]) 20 3 = Ok pr
    /\ ScoringService.success pr = true.
Proof.
  destruct (project_success_boundary [("t1", 7); ("t2", 7); ("t3", 6)] 20 3)
    as (pr & Hpr & _ & Hexact & _).
  - repeat constructor.
  - exists pr. split; [exact Hpr|]. apply Hexact; reflexivity.
Defined.

Lemma contributed_positive_entries (cs : list Contribution.t) (team_id : string) :
  contributed cs team_id = true -> positive_entries cs <> [].
Proof.
  unfold contributed. rewrite existsb_exists. intros (c & Hin & Hc) Hnil.
  apply andb_true_iff in Hc as [_ Hpos].
  assert (c ∈ positive_entries cs) as Hc.
  { apply list_elem_of_filter. split; [done | by apply list_elem_of_In]. }
  rewrite Hnil in Hc. by apply elem_of_nil in Hc.
Qed.

(** The flat bonus of a team: nothing on failure; on success the event's
    [points] divided (floor) by the number of positive entries, for a team
    that contributed, and nothing for the others. *)
Lemma bonus_share_spec (gs : GameState.t) (ev : TurnEvent.t) (ps : ProjectStatus.t)
    (project_success : bool) (team : Team.t) :
  GameState.current_event gs = Some ev ->
  GameState.project_status gs = Some ps ->
  GameService.bonus_share gs project_success team
  = Ok (if project_success
           && contributed (ProjectStatus.contributing_teams ps) (Team.id team)
        then default 0 (dict.get "points" (TurnEvent.success_reward ev))
             / Z.of_nat (length (positive_entries (ProjectStatus.contributing_teams ps)))
        else 0).
Proof.
  intros Hev Hps. unfold GameService.bonus_share. rewrite Hev, Hps.
  destruct project_success; simpl; [|done].
  fold (contributed (ProjectStatus.contributing_teams ps) (Team.id team)).
  destruct (ProjectStatus.contributing_teams ps) as [|c cs] eqn:Hcs; [done|].
  destruct (contributed (c :: cs) (Team.id team)) eqn:Hc; [|done].
  unfold int_floordiv.
  apply contributed_positive_entries in Hc.
  destruct (positive_entries (c :: cs)); [done|]. simpl length.
  destruct (Z.eqb_spec (Z.of_nat (S (length l))) 0); [lia | done].
Qed.

(** C1, at a failing project: one team gives 5 against a threshold of 20,
    and its project score is 0, not 5 * 1.0. *)
Lemma yield_regardless_of_outcome_counterexample :
  ~ yield_regardless_of_outcome [("t1", 5)] 20 3.
Proof.
  intros H.
  destruct (H (ScoringService.mkProjectResult false (PInt 5) 1 [("t1", PInt 0)])
              ltac:(vm_compute; reflexivity)
              ("t1", 5) ltac:(left))
    as (v & Hget & Heq).
  vm_compute in Hget. injection Hget as <-.
  vm_compute in Heq. discriminate.
Qed.

(** C1 (amended). For contributions whose amounts are [int]s that convert to
    float, the project result is produced and a team's project score (the
    entry its last contribution writes) is
    [amount * PROJECT_SUCCESS_BONUS_PER_RP] when the project succeeds and [0]
    when it fails; the flat bonus comes on top of it: on success the event's
    points, floor-divided by the number of positive contributions, for each
    team that contributed, and nothing on failure. *)
Theorem project_yield_by_outcome (entries : list (string * Z)) (min_total min_teams : Z) :
  Forall (fun e => Z.abs (snd e) < float_max_int) entries ->
  let cs := int_contributions entries in
  exists pr,
    ScoringService.calculate_project_result cs min_total min_teams = Ok pr
    /\ (forall i e,
          entries !! i = Some e ->
          (forall j e', (i < j)%nat -> entries !! j = Some e' -> fst e' <> fst e) ->
          dict.get (fst e) (ScoringService.team_scores pr)
          = Some (if ScoringService.success pr
                  then PFloat (raw_yield (snd e))
                  else PInt 0))
    /\ (forall gs ev ps team,
          GameState.current_event gs = Some ev ->
          GameState.project_status gs = Some ps ->
          ProjectStatus.contributing_teams ps = cs ->
          GameService.bonus_share gs (ScoringService.success pr) team
          = Ok (if ScoringService.success pr && contributed cs (Team.id team)
                then default 0 (dict.get "points" (TurnEvent.success_reward ev))
                     / Z.of_nat (length (positive_entries cs))
                else 0)).
Proof.
  intros Hb cs. subst cs.
  destruct (calculate_project_result_Ok entries min_total min_teams Hb)
    as (scores & Hpr & Hget).
  eexists. split; [exact Hpr|]. simpl. split.
  - intros i e Hi Hlast. rewrite Hget.
    by rewrite (find_first_last_occurrence fst entries i e Hi Hlast).
  - intros gs ev ps team Hev Hps <-. by apply bonus_share_spec.
Qed.

Lemma project_yield_by_outcome_witness :
  exists pr,
    ScoringService.calculate_project_result
      (int_contributions [("t1", 7); ("t2", 7); ("t3", 6)]) 20 3 = Ok pr
    /\ dict.get "t3" (ScoringService.team_scores pr) = Some (PFloat 6%float).
Proof.
  destruct (project_yield_by_outcome [("t1", 7); ("t2", 7); ("t3", 6)] 20 3)
    as (pr & Hpr & Hscore & _).
  - repeat constructor.
  - exists pr. split; [exact Hpr|].
    assert (ScoringService.success pr = true) as Hsucc.
    { rewrite <- (f_equal (fun r => match r with
                                    | Ok p => ScoringService.success p
                                    | Raise _ => true
                                    end) Hpr).
      vm_compute. reflexivity. }
    pose proof (Hscore 2%nat ("t3", 6) eq_refl) as H.
    simpl in H. rewrite H, Hsucc; [vm_compute; reflexivity|].
    intros j c' Hj Hc'. destruct j as [|[|[|j]]]; simpl in *; [lia..|discriminate].
Defined.

(** ** Competitive cells (C9) *)

Section Competitive.

Import ScoringService.

Variables (placements : list CellPlacement.t) (multiplier : float) (m : Z).

Hypothesis m_bounded : 0 < m < float_max_int.
Hypothesis m_placed : exists p, p ∈ placements /\ CellPlacement.amount p = m.
Hypothesis m_highest : Forall (fun p => CellPlacement.amount p <= m) placements.

Let positive : list CellPlacement.t :=
  filter (fun p => 0 < CellPlacement.amount p) placements.
Let winners : list CellPlacement.t :=
  filter (fun p => CellPlacement.amount p = m) placements.

Lemma positive_max : max_int (CellPlacement.amount <$> positive) = Ok m.
Proof.
  apply max_int_spec. split.
  - destruct m_placed as (p & Hin & Hp). apply list_elem_of_fmap.
    exists p. split; [done|]. apply list_elem_of_filter. split; [lia | done].
  - apply Forall_fmap. apply Forall_forall. intros p Hp.
    apply list_elem_of_filter in Hp as [_ Hp].
    rewrite Forall_forall in m_highest. simpl. by apply m_highest.
Qed.

Lemma positive_winners :
  filter (fun p => CellPlacement.amount p = m) positive = winners.
Proof. apply list_filter_filter_l. intros p. lia. Qed.

Lemma winners_nonempty : (0 < length winners)%nat.
Proof.
  destruct m_placed as (p & Hin & Hp).
  assert (p ∈ winners) as Hw by (by apply list_elem_of_filter).
  destruct winners; [by apply elem_of_nil in Hw | simpl; lia].
Qed.

(** The scores [_score_competitive] gives the positive placements: the prize
    for an amount equal to the highest, the literal [0] otherwise; a key holds
    what its last placement wrote. *)
Lemma score_competitive_positive :
  exists scores,
    _score_competitive positive multiplier = Ok scores
    /\ forall k, dict.get k scores
         = (fun p => if CellPlacement.amount p =? m
                     then PFloat (PrimFloat.div (PrimFloat.mul (round_int m) multiplier)
                                    (float_of_len (length winners)))
                     else PInt 0)
           <$> find_first (fun p => bool_decide (CellPlacement.team_id p = k))
                 (rev positive).
Proof.
  unfold _score_competitive.
  change (map CellPlacement.amount positive) with (CellPlacement.amount <$> positive).
  rewrite positive_max. simpl.
  rewrite positive_winners, int_mul_float_bounded by lia. simpl.
  pose proof winners_nonempty as Hw. unfold float_div_len.
  destruct (length winners) as [|n] eqn:Hlen; [lia|]. simpl.
  unfold score_each. apply fill_scores_get. done.
Qed.

End Competitive.

(** C9. On a competitive cell whose placements name each team once and whose
    highest amount [m] is positive, the scores are produced; every team that
    placed [m] receives the pool [m * multiplier] divided by the number of
    such teams, every other team with a positive placement receives 0, and a
    team without a positive placement has no score; when exactly two teams
    placed [m], each receives the pool divided by 2. *)
Theorem competitive_winners_split_pool (cell : BoardCell.t) (m : Z) :
  BoardCell.type cell = COMPETITIVE ->
  NoDup (CellPlacement.team_id <$> BoardCell.placements cell) ->
  0 < m < float_max_int ->
  (exists p, p ∈ BoardCell.placements cell /\ CellPlacement.amount p = m) ->
  Forall (fun p => CellPlacement.amount p <= m) (BoardCell.placements cell) ->
  exists scores,
    ScoringService.calculate_cell_scores cell = Ok scores
    /\ (forall p,
          p ∈ BoardCell.placements cell -> 0 < CellPlacement.amount p ->
          dict.get (CellPlacement.team_id p) scores
          = Some (if decide (CellPlacement.amount p = m)
                  then PFloat (PrimFloat.div
                                 (PrimFloat.mul (round_int m) 1.5%float)
                                 (float_of_len
                                    (length (filter (fun q => CellPlacement.amount q = m)
                                               (BoardCell.placements cell)))))
                  else PInt 0))
    /\ (forall k,
          (forall p, p ∈ BoardCell.placements cell -> 0 < CellPlacement.amount p ->
                     CellPlacement.team_id p <> k) ->
          dict.get k scores = None)
    /\ (forall p q,
          filter (fun q => CellPlacement.amount q = m) (BoardCell.placements cell) = [p; q] ->
          dict.get (CellPlacement.team_id p) scores
          = Some (PFloat (PrimFloat.div (PrimFloat.mul (round_int m) 1.5%float) 2%float))
          /\ dict.get (CellPlacement.team_id q) scores
             = Some (PFloat (PrimFloat.div (PrimFloat.mul (round_int m) 1.5%float) 2%float))).
Proof.
  intros Hty Hnd Hm Hplaced Hhigh.
  destruct (score_competitive_positive (BoardCell.placements cell) 1.5%float m
              Hm Hplaced Hhigh) as (scores & Hscores & Hget).
  assert (forall p, p ∈ BoardCell.placements cell -> 0 < CellPlacement.amount p ->
            dict.get (CellPlacement.team_id p) scores
            = Some (if decide (CellPlacement.amount p = m)
                    then PFloat (PrimFloat.div
                                   (PrimFloat.mul (round_int m) 1.5%float)
                                   (float_of_len
                                      (length (filter (fun q => CellPlacement.amount q = m)
                                                 (BoardCell.placements cell)))))
                    else PInt 0)) as Heach.
  { intros p Hin Hpos. rewrite Hget, find_first_NoDup.
    - simpl. destruct (Z.eqb_spec (CellPlacement.amount p) m).
      + by rewrite decide_True.
      + by rewrite decide_False.
    - eapply sublist_NoDup; [exact Hnd|]. apply fmap_sublist, sublist_filter.
    - by apply list_elem_of_filter. }
  exists scores. split; [|split; [exact Heach|split]].
  - unfold ScoringService.calculate_cell_scores. rewrite Hty.
    destruct (filter _ (BoardCell.placements cell)) as [|p0 ps0] eqn:Hpos.
    + destruct Hplaced as (p & Hin & Hp).
      assert (p ∈ filter (fun p => 0 < CellPlacement.amount p) (BoardCell.placements cell))
        as Hc by (apply list_elem_of_filter; split; [lia | done]).
      rewrite Hpos in Hc. by apply elem_of_nil in Hc.
    + exact Hscores.
  - intros k Hk. rewrite Hget.
    destruct (find_first _ _) as [p|] eqn:Hfind; [|done].
    apply find_first_Some in Hfind as [Hin Hkey].
    apply bool_decide_eq_true in Hkey.
    apply list_elem_of_In, in_rev, list_elem_of_In in Hin.
    apply list_elem_of_filter in Hin as [Hpos Hin].
    by destruct (Hk p Hin Hpos).
  - intros p q Hw.
    assert (p ∈ filter (fun q => CellPlacement.amount q = m) (BoardCell.placements cell))
      as Hp by (rewrite Hw; left).
    assert (q ∈ filter (fun q => CellPlacement.amount q = m) (BoardCell.placements cell))
      as Hq by (rewrite Hw; right; left).
    apply list_elem_of_filter in Hp as [Hpm Hp], Hq as [Hqm Hq].
    rewrite (Heach p), (Heach q), !decide_True, Hw by (done || lia).
    split; reflexivity.
Qed.

Lemma competitive_winners_split_pool_witness :
  exists scores,
    ScoringService.calculate_cell_scores tie_cell = Ok scores
    /\ dict.get "t1" scores = Some (PFloat 3.75%float)
    /\ dict.get "t2" scores = Some (PFloat 3.75%float)
    /\ dict.get "t3" scores = Some (PInt 0).
Proof.
  destruct (competitive_winners_split_pool tie_cell 5) as (scores & Hs & Heach & _ & Htie).
  - reflexivity.
  - compute_done.
  - split; reflexivity.
  - exists (CellPlacement.mk "t1" 5). split; [left | reflexivity].
  - repeat constructor; simpl; lia.
  - exists scores. split; [exact Hs|].
    destruct (Htie (CellPlacement.mk "t1" 5) (CellPlacement.mk "t2" 5) eq_refl) as [H1 H2].
    simpl in H1, H2. rewrite H1, H2.
    split; [vm_compute; reflexivity|]. split; [vm_compute; reflexivity|].
    apply (Heach (CellPlacement.mk "t3" 3)); [do 2 right; left | reflexivity].
Defined.

(** ** Lists mutated in place *)

Lemma update_first_insert {A} (p : A -> bool) (f : A -> A) (l : list A) (x : A) :
  find_first p l = Some x ->
  exists i, l !! i = Some x
    /\ (forall j y, (j < i)%nat -> l !! j = Some y -> p y = false)
    /\ update_first p f l = <[i := f x]> l.
Proof.
  induction l as [|y l IH]; simpl; [done|].
  destruct (p y) eqn:Hp.
  - intros [= ->]. exists 0%nat. split; [done|]. split; [|done].
    intros j z Hj. lia.
  - intros Hx. destruct (IH Hx) as (i & Hi & Hbefore & Hupd).
    exists (S i). split; [done|]. split.
    + intros [|j] z Hj; simpl; [by intros [= <-]|]. apply Hbefore. lia.
    + simpl. by rewrite Hupd.
Qed.

Lemma update_first_None {A} (p : A -> bool) (f : A -> A) (l : list A) :
  find_first p l = None -> update_first p f l = l.
Proof.
  induction l as [|y l IH]; simpl; [done|].
  destruct (p y); [done|]. intros H. by rewrite IH.
Qed.

Lemma Forall_update_first {A} (P : A -> Prop) (p : A -> bool) (f : A -> A) (l : list A) :
  Forall P l -> (forall x, P x -> p x = true -> P (f x)) -> Forall P (update_first p f l).
Proof.
  intros Hl Hf. induction Hl as [|y l Hy Hl IH]; simpl; [constructor|].
  destruct (p y) eqn:Hp; constructor; auto.
Qed.

Lemma Forall2_update_first {A} (R : A -> A -> Prop) (p : A -> bool) (f : A -> A)
    (l : list A) :
  (forall x, R x x) -> (forall x, p x = true -> R x (f x)) ->
  Forall2 R l (update_first p f l).
Proof.
  intros Hrefl Hf. induction l as [|y l IH]; simpl; [constructor|].
  destruct (p y) eqn:Hp; constructor; auto.
  clear IH. induction l; constructor; auto.
Qed.

Lemma Forall_update_first_impl {A} (P Q : A -> Prop) (p : A -> bool) (f : A -> A)
    (l : list A) :
  Forall P l -> (forall x, P x -> Q x) -> (forall x, P x -> p x = true -> Q (f x)) ->
  Forall Q (update_first p f l).
Proof.
  intros Hl HPQ Hf. induction Hl as [|y l Hy Hl IH]; simpl; [constructor|].
  destruct (p y) eqn:Hp; constructor; auto.
  eapply Forall_impl; [exact Hl | exact HPQ].
Qed.

Lemma fmap_update_first {A B} (g : A -> B) (p : A -> bool) (f : A -> A) (l : list A) :
  (forall x, g (f x) = g x) -> g <$> update_first p f l = g <$> l.
Proof.
  intros Hg. induction l as [|y l IH]; [done|]. cbn [update_first].
  destruct (p y); rewrite !fmap_cons; [by rewrite Hg | by rewrite IH].
Qed.

Lemma sum_update_first {A} (w : A -> Z) (p : A -> bool) (f : A -> A) (l : list A) (x : A) :
  find_first p l = Some x ->
  sum_int (w <$> update_first p f l) = sum_int (w <$> l) - w x + w (f x).
Proof.
  induction l as [|y l IH]; cbn [find_first update_first]; [done|].
  destruct (p y) eqn:Hp.
  - intros [= ->]. rewrite !fmap_cons, !sum_int_cons. lia.
  - intros Hx. rewrite !fmap_cons, !sum_int_cons, (IH Hx). lia.
Qed.

Lemma number_is_or_eq_refl (a : number) : number_is_or_eq a a = true.
Proof.
  destruct a as [z|x|b]; cbn [number_is_or_eq].
  - apply Z.eqb_refl.
  - unfold PrimFloat.is_nan. by destruct (PrimFloat.eqb x x).
  - by apply bool_decide_eq_true.
Qed.

Lemma Placement_eqb_refl (p : Placement.t) : Placement.eqb p p = true.
Proof.
  unfold Placement.eqb. rewrite number_is_or_eq_refl, andb_true_r.
  by apply bool_decide_eq_true.
Qed.

(** On placements whose amounts are [int]s, [==] is equality. *)
Lemma Placement_eqb_eq (p q : Placement.t) :
  is_int (Placement.amount p) -> is_int (Placement.amount q) ->
  Placement.eqb p q = true <-> p = q.
Proof.
  intros [a Ha] [b Hb]. destruct p as [c x], q as [c' y]. simpl in *. subst.
  unfold Placement.eqb. cbn [Placement.cell_id Placement.amount number_is_or_eq].
  rewrite andb_true_iff, bool_decide_eq_true, Z.eqb_eq.
  split; [intros [-> ->]; done | intros [= -> ->]; done].
Qed.

(** Removing a placement that was found in the list succeeds. *)
Lemma list_remove_returns (p : Placement.t -> bool) (l : list Placement.t)
    (x : Placement.t) :
  find_first p l = Some x ->
  exists l', list_remove Placement.eqb x l = Ok l'.
Proof.
  induction l as [|y l IH]; cbn [find_first list_remove]; [done|].
  destruct (Placement.eqb y x) eqn:Heq; [eauto|].
  destruct (p y) eqn:Hp.
  - intros [= ->]. by rewrite Placement_eqb_refl in Heq.
  - intros Hx. destruct (IH Hx) as (l' & ->). cbn [rbind]. eauto.
Qed.

(** ... and, when the amounts are [int]s, takes its amount off the total. *)
Lemma list_remove_found (p : Placement.t -> bool) (l : list Placement.t) (x : Placement.t) :
  Forall (fun q => is_int (Placement.amount q)) l ->
  find_first p l = Some x ->
  exists l', list_remove Placement.eqb x l = Ok l'
    /\ sum_int ((fun q => units (Placement.amount q)) <$> l)
       = units (Placement.amount x)
         + sum_int ((fun q => units (Placement.amount q)) <$> l')
    /\ l' `sublist_of` l.
Proof.
  intros Hint Hfind.
  assert (is_int (Placement.amount x)) as Hx.
  { rewrite Forall_forall in Hint. apply Hint.
    clear Hint. induction l as [|y l IH]; cbn [find_first] in Hfind; [done|].
    destruct (p y); [injection Hfind as ->; left | right; auto]. }
  revert Hfind. induction Hint as [|y l Hy Hint IH]; cbn [find_first list_remove]; [done|].
  destruct (Placement.eqb y x) eqn:Heq.
  - apply Placement_eqb_eq in Heq as ->; [|done..]. intros _. exists l.
    split; [done|]. rewrite fmap_cons, sum_int_cons. split; [done|].
    by apply sublist_cons.
  - destruct (p y) eqn:Hp.
    + intros [= ->]. by rewrite Placement_eqb_refl in Heq.
    + intros Hfind. destruct (IH Hfind) as (l' & -> & Hsum & Hsub). cbn [rbind].
      eexists. split; [done|]. rewrite !fmap_cons, !sum_int_cons, Hsum.
      split; [lia|]. by apply sublist_skip.
Qed.

(** ** [submit_turn] (C10) *)

Lemma teams_sync (room : Room.t) :
  Room.teams (fst (GameService._sync_placements_to_board room)) = Room.teams room.
Proof.
  unfold GameService._sync_placements_to_board.
  destruct (Room.game_state room); [|done]. by destruct (GameService.sync_teams _ _).
Qed.

Lemma find_team_None (team_id : string) (teams : list Team.t) :
  find_first (GameService.is_team team_id) teams = None
  <-> Forall (fun t => Team.id t <> team_id) teams.
Proof.
  rewrite find_first_None. apply Forall_iff. intros t.
  unfold GameService.is_team. by rewrite bool_decide_eq_false.
Qed.

(** C10. [submit_turn] raises exactly when no team of the room has the given
    id, and the room is then as it was.  For a known id it returns, whatever
    the phase, the status, and whether or not the game has started (the room
    is arbitrary): afterwards the submitted flag of the first team with that
    id is set, every other field of that team is as it was, and so are the
    other teams and the rest of the room. *)
Theorem submit_turn_needs_only_a_known_team (room : Room.t) (team_id : string) :
  ((exists e, snd (GameService.submit_turn room team_id) = Raise e)
   <-> Forall (fun t => Team.id t <> team_id) (Room.teams room))
  /\ (Forall (fun t => Team.id t <> team_id) (Room.teams room) ->
      GameService.submit_turn room team_id = (room, Raise (ValueError "Team not found")))
  /\ (forall team,
        team ∈ Room.teams room -> Team.id team = team_id ->
        exists room' i t t',
          GameService.submit_turn room team_id = (room', Ok tt)
          /\ Room.teams room !! i = Some t /\ Team.id t = team_id
          /\ (forall j t0, (j < i)%nat -> Room.teams room !! j = Some t0 ->
                           Team.id t0 <> team_id)
          /\ Room.teams room' !! i = Some t'
          /\ Team.has_submitted t' = true
          /\ Team.id t' = Team.id t
          /\ Team.index t' = Team.index t
          /\ Team.name t' = Team.name t
          /\ Team.region t' = Team.region t
          /\ Team.session_token t' = Team.session_token t
          /\ Team.score t' = Team.score t
          /\ Team.resources t' = Team.resources t
          /\ Team.placements t' = Team.placements t
          /\ Team.is_connected t' = Team.is_connected t
          /\ length (Room.teams room') = length (Room.teams room)
          /\ (forall j, j <> i -> Room.teams room' !! j = Room.teams room !! j)
          /\ Room.code room' = Room.code room
          /\ Room.host_name room' = Room.host_name room
          /\ Room.host_token room' = Room.host_token room
          /\ Room.status room' = Room.status room
          /\ Room.game_state room' = Room.game_state room
          /\ Room.created_at room' = Room.created_at room).
Proof.
  unfold GameService.submit_turn.
  destruct (find_first (GameService.is_team team_id) (Room.teams room)) as [t|] eqn:Hfind.
  - assert (~ Forall (fun t => Team.id t <> team_id) (Room.teams room)) as Hno.
    { rewrite <- find_team_None, Hfind. done. }
    split; [|split].
    + simpl. split; [intros [e He]; done | done].
    + done.
    + intros _ _ _.
      destruct (update_first_insert _ (Team.with_has_submitted true) _ _ Hfind)
        as (i & Hi & Hbefore & ->).
      apply find_first_Some in Hfind as [_ Hid].
      apply bool_decide_eq_true in Hid.
      eexists _, i, t, (Team.with_has_submitted true t).
      split; [reflexivity|]. split; [done|]. split; [done|]. split.
      { intros j t' Hj Ht'. specialize (Hbefore j t' Hj Ht').
        by apply bool_decide_eq_false in Hbefore. }
      cbn [Room.teams Room.with_teams]. split.
      { apply list_lookup_insert_eq. by eapply lookup_lt_Some. }
      split; [reflexivity|]. do 9 (split; [reflexivity|]).
      split; [by rewrite length_insert|]. split.
      { intros j Hj. by apply list_lookup_insert_ne. }
      repeat split.
  - apply find_team_None in Hfind. split; [|split].
    + simpl. split; [done | eauto].
    + done.
    + intros team Hin Hid. rewrite Forall_forall in Hfind. by destruct (Hfind team Hin).
Qed.

Lemma submit_turn_needs_only_a_known_team_witness :
  exists room' t',
    GameService.submit_turn sample_room "team-3" = (room', Ok tt)
    /\ Room.teams room' !! 3%nat = Some t'
    /\ Team.id t' = "team-3"
    /\ Team.has_submitted t' = true
    /\ Room.game_state room' = None /\ Room.status room' = WAITING.
Proof.
  destruct (submit_turn_needs_only_a_known_team sample_room "team-3") as (_ & _ & Hknown).
  destruct (Hknown (sample_team 3))
    as (room' & i & t & t' & Hsubmit & Hi & Hid & _ & Hi' & Hflag & Hid' & _ & _ & _ & _
        & _ & _ & _ & _ & _ & _ & _ & _ & _ & Hstatus & Hgs & _).
  - do 3 right. left.
  - reflexivity.
  - assert (i = 3%nat) as ->.
    { destruct i as [|[|[|[|[|i]]]]]; simpl in Hi; try done;
        injection Hi as <-; vm_compute in Hid; done. }
    exists room', t'. split; [exact Hsubmit|]. split; [exact Hi'|].
    split; [by rewrite Hid'|]. split; [exact Hflag|].
    split; [by rewrite Hgs | by rewrite Hstatus].
Defined.

(** ** [place_resource] on requests of the annotated types (C2, C5) *)

Lemma sync_placement_returns (team_id : string)
    (st : list BoardCell.t * option ProjectStatus.t) (p : Placement.t) :
  is_int (Placement.amount p) ->
  int_total st ->
  exists st', GameService.sync_placement team_id st p = Ok st' /\ int_total st'.
Proof.
  intros [z Hz] Hst. unfold GameService.sync_placement. rewrite Hz.
  destruct st as [board [ps|]]; cbn [fst snd].
  - destruct (Hst ps eq_refl) as [total Htotal].
    case_decide.
    + rewrite Htotal. cbn [to_num num_add rbind]. eexists. split; [done|].
      intros ps' [= <-]. by eexists.
    + destruct (find_first _ board); cbn [CellPlacement.new validate_int rbind];
        (eexists; split; [done|]); intros ps' [= <-]; by eexists.
  - case_decide; [by eexists|].
    destruct (find_first _ board); cbn [CellPlacement.new validate_int rbind];
      by eexists.
Qed.

Lemma sfold_returns {A S} (body : S -> A -> result S) (I : S -> Prop) (P : A -> Prop)
    (l : list A) (s : S) :
  (forall s x, P x -> I s -> exists s', body s x = Ok s' /\ I s') ->
  Forall P l -> I s ->
  exists s', GameService.sfold body s l = (s', Ok tt) /\ I s'.
Proof.
  intros Hbody Hl. revert s. induction Hl as [|x l Hx Hl IH]; intros s Hs; [by exists s|].
  cbn [GameService.sfold]. destruct (Hbody s x Hx Hs) as (s' & -> & Hs'). by apply IH.
Qed.

Lemma sync_returns (room : Room.t) :
  Forall int_amounts (Room.teams room) ->
  snd (GameService._sync_placements_to_board room) = Ok tt.
Proof.
  intros Hteams. unfold GameService._sync_placements_to_board.
  destruct (Room.game_state room) as [gs|]; [|done].
  unfold GameService.sync_teams.
  match goal with |- context [GameService.sfold ?b ?s ?l] =>
    destruct (sfold_returns b int_total (fun tp => is_int (Placement.amount (snd tp))) l s)
      as (st' & -> & _)
  end; [| | |done].
  - intros s [tid p] Hp Hs. by apply sync_placement_returns.
  - apply Forall_bind. eapply Forall_impl; [exact Hteams|].
    intros t Ht. apply Forall_fmap. eapply Forall_impl; [exact Ht|]. done.
  - intros ps. cbn [snd]. destruct (GameState.project_status gs); [|done].
    intros [= <-]. by eexists.
Qed.

(** What [place_resource] computes on numbers of the declared type. *)
Lemma num_sub_int (a b : Z) : num_sub (PInt a) (PInt b) = Ok (PInt (a - b)).
Proof. reflexivity. Qed.

Lemma placed_on_found (cell_id : string) (t : Team.t) (p : Placement.t) :
  find_first (GameService.on_cell (JStr cell_id)) (Team.placements t) = Some p ->
  placed_on cell_id t = units (Placement.amount p).
Proof. unfold placed_on. by intros ->. Qed.

Lemma find_first_elem_of {A} (p : A -> bool) (l : list A) (x : A) :
  find_first p l = Some x -> x ∈ l.
Proof. intros H. by apply find_first_Some in H as [? _]. Qed.

(** The two ways [place_resource] ends on a request of the annotated types
    in a room whose teams hold [int]s: a request that is [rejected] raises a
    [ValueError] and leaves the room as it was; any other request returns,
    with the team's resources reduced by the change, its placements [ps]
    rewritten, and the board synchronised. *)
Lemma place_resource_cases (room : Room.t) (team_id cell_id : string) (amount : Z) :
  Forall typed_team (Room.teams room) ->
  (rejected room team_id cell_id amount
   /\ exists msg, GameService.place_resource room team_id (JStr cell_id) (JInt amount)
                  = (room, Raise (ValueError msg)))
  \/ (~ rejected room team_id cell_id amount
      /\ exists team ps,
           find_first (GameService.is_team team_id) (Room.teams room) = Some team
           /\ amount - placed_on cell_id team <= resources_left team
           /\ 0 <= amount
           /\ Forall (fun p => is_int (Placement.amount p)) ps
           /\ sum_int ((fun p => units (Placement.amount p)) <$> ps)
              = placed_total team - placed_on cell_id team + amount
           /\ (Forall (fun p => 0 < units (Placement.amount p)) (Team.placements team) ->
               Forall (fun p => 0 < units (Placement.amount p)) ps)
           /\ (NoDup (Placement.cell_id <$> Team.placements team) ->
               NoDup (Placement.cell_id <$> ps))
           /\ GameService.place_resource room team_id (JStr cell_id) (JInt amount)
              = (fst (GameService._sync_placements_to_board
                        (Room.with_teams
                           (update_first (GameService.is_team team_id)
                              (fun _ => Team.with_placements ps
                                          (Team.with_resources
                                             (PInt (resources_left team
                                                    - (amount - placed_on cell_id team)))
                                             team))
                              (Room.teams room))
                           room)),
                 Ok tt)).
Proof.
  intros Htyped. unfold GameService.place_resource.
  destruct (Room.game_state room) as [gs|] eqn:Hgs;
    [|left; split; [by left | eauto]].
  destruct (decide (GameState.current_phase gs = ACTION)) as [Hphase|Hphase];
    [rewrite (bool_decide_true _ Hphase) | rewrite (bool_decide_false _ Hphase)];
    cbn [negb];
    [|left; split; [right; left; eauto | eauto]].
  destruct (find_first (GameService.is_team team_id) (Room.teams room))
    as [team|] eqn:Hteam;
    [|left; split; [do 2 right; left; by apply find_team_None | eauto]].
  destruct (Team.has_submitted team) eqn:Hsub;
    [left; split; [do 3 right; left; eauto | eauto]|].
  assert (typed_team team) as [[r Hr] Hints].
  { rewrite Forall_forall in Htyped. by eapply Htyped, find_first_elem_of. }
  assert (resources_left team = r) as Hleft by (unfold resources_left; by rewrite Hr).
  cbn [as_number to_num].
  assert (exists z,
            match find_first (GameService.on_cell (JStr cell_id)) (Team.placements team) with
            | Some p => Placement.amount p
            | None => NInt 0
            end = NInt z
            /\ placed_on cell_id team = z) as (z & -> & Hon).
  { unfold placed_on.
    destruct (find_first _ (Team.placements team)) as [cp|] eqn:Hcp; [|by exists 0].
    rewrite Forall_forall in Hints.
    destruct (Hints cp (find_first_elem_of _ _ _ Hcp)) as [z Hz].
    exists z. by rewrite Hz. }
  cbn [to_num]. rewrite num_sub_int. rewrite Hr, num_gt_int, is_negative_int.
  destruct (Z.ltb_spec r (amount - z)) as [Hres|Hres];
    [left; split; [do 4 right; left; exists team; split; [done|lia] | eauto]|].
  destruct (Z.ltb_spec amount 0) as [Hneg|Hneg];
    [left; split; [do 5 right; done | eauto]|].
  right. split.
  { intros [H|[(gs' & Hgs' & H)|[H|[(t & Ht & H)|[(t & Ht & H)|H]]]]];
      simplify_eq; try done; try lia; try congruence.
    apply find_team_None in H. congruence. }
  rewrite num_sub_int, is_zero_int, is_positive_int.
  cbn [Team.placements Team.with_resources].
  assert (forall ps,
            Forall (fun p => is_int (Placement.amount p)) ps ->
            GameService._sync_placements_to_board
              (Room.with_teams
                 (update_first (GameService.is_team team_id)
                    (fun _ => Team.with_placements ps
                                (Team.with_resources (PInt (r - (amount - z))) team))
                    (Room.teams room)) room)
            = (fst (GameService._sync_placements_to_board
                      (Room.with_teams
                         (update_first (GameService.is_team team_id)
                            (fun _ => Team.with_placements ps
                                        (Team.with_resources (PInt (r - (amount - z))) team))
                            (Room.teams room)) room)),
               Ok tt)) as Hsync.
  { intros ps Hps. rewrite (surjective_pairing (GameService._sync_placements_to_board _)).
    rewrite sync_returns; [done|]. cbn [Room.teams Room.with_teams].
    apply Forall_update_first.
    - eapply Forall_impl; [exact Htyped|]. by intros t [_ Ht].
    - intros _ _ _. exact Hps. }
  unfold placed_total.
  destruct (find_first (GameService.on_cell (JStr cell_id)) (Team.placements team))
    as [cp|] eqn:Hcp.
  - assert (units (Placement.amount cp) = z) as Hcpz
      by (by rewrite <- (placed_on_found _ _ _ Hcp)).
    destruct (Z.eqb_spec amount 0) as [->|Hnz].
    + destruct (list_remove_found _ _ _ Hints Hcp) as (ps & -> & Hsum & Hsub').
      assert (Forall (fun p => is_int (Placement.amount p)) ps) as Hps.
      { rewrite Forall_forall in Hints |- *. intros p Hp. apply Hints.
        eapply elem_of_sublist; [exact Hp | exact Hsub']. }
      exists team, ps. rewrite Hleft, Hon. split; [done|]. split; [done|]. split; [done|].
      split; [done|]. split; [lia|]. split; [|split; [|by apply Hsync]].
      * intros Hpos. rewrite Forall_forall in Hpos |- *.
        intros p Hp. apply Hpos. eapply elem_of_sublist; [exact Hp | exact Hsub'].
      * intros Hnd. eapply sublist_NoDup; [exact Hnd|]. by apply fmap_sublist.
    + assert (Forall (fun p => is_int (Placement.amount p))
                (update_first (GameService.on_cell (JStr cell_id))
                   (Placement.with_amount (NInt amount)) (Team.placements team))) as Hps.
      { apply Forall_update_first; [done|]. intros p _ _. by eexists. }
      eexists team, _. rewrite Hleft, Hon.
      split; [done|]. split; [done|]. split; [done|]. split; [exact Hps|].
      split; [|split; [|split; [|by apply Hsync]]].
      * rewrite (sum_update_first _ _ _ _ _ Hcp). simpl. lia.
      * intros Hpos. apply Forall_update_first; [done|]. intros p _ _. simpl. lia.
      * intros Hnd. by rewrite fmap_update_first.
  - assert (z = 0) as Hz by (rewrite <- Hon; unfold placed_on; by rewrite Hcp).
    destruct (Z.ltb_spec 0 amount) as [Hpos|Hzero].
    + cbn [Placement.new validate_str validate_int rbind].
      assert (Forall (fun p => is_int (Placement.amount p))
                (Team.placements team ++ [Placement.mk cell_id (NInt amount)])) as Hps.
      { apply Forall_app. split; [done|]. repeat constructor. by eexists. }
      eexists team, _. rewrite Hleft, Hon.
      split; [done|]. split; [done|]. split; [done|]. split; [exact Hps|].
      split; [|split; [|split; [|by apply Hsync]]].
      * rewrite fmap_app, sum_int_app. simpl. rewrite sum_int_cons. unfold sum_int at 2.
        simpl. lia.
      * intros Hall. apply Forall_app. split; [done|]. by repeat constructor.
      * intros Hnd. rewrite fmap_app. apply NoDup_app. split; [done|]. split.
        -- intros k Hk Hk'. apply list_elem_of_singleton in Hk' as ->.
           apply list_elem_of_fmap in Hk as (p & Hp & Hin).
           apply find_first_None in Hcp. rewrite Forall_forall in Hcp.
           specialize (Hcp p Hin). unfold GameService.on_cell in Hcp.
           apply bool_decide_eq_false in Hcp. by destruct Hcp.
        -- apply NoDup_singleton.
    + exists team, (Team.placements team). rewrite Hleft, Hon.
      split; [done|]. split; [done|]. split; [done|]. split; [done|].
      split; [lia|]. split; [done|]. split; [done|]. by apply Hsync.
Qed.

(** On requests of the annotated types, in a room whose teams hold [int]s,
    [place_resource] raises exactly when the request is [rejected]: the game
    has not started, the phase is not ACTION, the team is unknown, the team
    has submitted, the change exceeds the team's remaining resources, or the
    amount is negative. What it raises is a [ValueError], and the room is
    then left as it was (teams, resources, placements, board). *)
Lemma place_resource_rejects_exactly (room : Room.t) (team_id cell_id : string)
    (amount : Z) :
  Forall typed_team (Room.teams room) ->
  ((exists e, snd (GameService.place_resource room team_id (JStr cell_id) (JInt amount))
              = Raise e)
   <-> rejected room team_id cell_id amount)
  /\ (forall e,
        snd (GameService.place_resource room team_id (JStr cell_id) (JInt amount)) = Raise e ->
        fst (GameService.place_resource room team_id (JStr cell_id) (JInt amount)) = room
        /\ exists msg, e = ValueError msg).
Proof.
  intros Htyped.
  destruct (place_resource_cases room team_id cell_id amount Htyped)
    as [[Hrej (msg & ->)]|[Hrej (team & ps & _ & _ & _ & _ & _ & _ & _ & ->)]]; simpl.
  - split; [split; [done | eauto]|]. intros e [= <-]. eauto.
  - split; [split; [intros [e He]; done | done]|]. intros e He. done.
Qed.

(** C5, at a fractional amount.  In the ACTION phase of turn 1 the player of
    a team that has not submitted, holds 14 resources and has nothing on the
    cell sends the amount 2.5: the game has started, the phase is ACTION, the
    team is known and has not submitted, the change of 2.5 does not exceed
    the 14 resources, and the amount is not negative.  [place_resource]
    nevertheless raises -- the constructor of the placement refuses the
    amount --, and by then it has taken the 2.5 off the team's resources:
    the room is not left as it was. *)
Lemma place_resource_fractional_amount_raises_after_the_change :
  (exists gs team,
     Room.game_state action_room = Some gs
     /\ GameState.current_phase gs = ACTION
     /\ find_first (GameService.is_team "team-0") (Room.teams action_room) = Some team
     /\ Team.has_submitted team = false
     /\ Team.resources team = PInt 14
     /\ find_first (GameService.on_cell (JStr "cell-0-0")) (Team.placements team) = None
     /\ num_gt (PFloat 2.5) (Team.resources team) = false
     /\ is_negative (NFloat 2.5) = false)
  /\ exists room' team',
       GameService.place_resource action_room "team-0" (JStr "cell-0-0") (JFloat 2.5)
       = (room', Raise ValidationError)
       /\ room' <> action_room
       /\ find_first (GameService.is_team "team-0") (Room.teams room') = Some team'
       /\ Team.resources team' = PFloat 11.5
       /\ Team.placements team' = [].
Proof.
  split.
  - eexists _, _. split; [vm_compute; reflexivity|]. split; [reflexivity|].
    split; [vm_compute; reflexivity|]. repeat split.
  - eexists _, _. split; [vm_compute; reflexivity|]. split.
    + intros H. apply (f_equal (fun r => Team.resources <$> head (Room.teams r))) in H.
      vm_compute in H. discriminate.
    + split; [vm_compute; reflexivity|]. split; reflexivity.
Qed.

(** ... and at NaN: the call returns, the team's resources are NaN from
    then on, and no later amount exceeds them: the team places 1000. *)
Lemma place_resource_nan_amount_lifts_the_limit :
  exists room1 room2 team1 team2,
    GameService.place_resource action_room "team-0" (JStr "cell-0-0") (JFloat nan)
    = (room1, Ok tt)
    /\ find_first (GameService.is_team "team-0") (Room.teams room1) = Some team1
    /\ PrimFloat.is_nan (match Team.resources team1 with
                         | PFloat x => x
                         | PInt _ => 0%float
                         end) = true
    /\ Team.placements team1 = []
    /\ GameService.place_resource room1 "team-0" (JStr "cell-0-0") (JInt 1000)
       = (room2, Ok tt)
    /\ find_first (GameService.is_team "team-0") (Room.teams room2) = Some team2
    /\ Team.placements team2 = [Placement.mk "cell-0-0" (NInt 1000)].
Proof.
  eexists _, _, _, _. split; [vm_compute; reflexivity|].
  split; [vm_compute; reflexivity|]. split; [vm_compute; reflexivity|].
  split; [reflexivity|]. split; [vm_compute; reflexivity|].
  split; [vm_compute; reflexivity|]. reflexivity.
Qed.

(** C2, at the first placement of a turn: a team holding 14 resources places
    10 on a cell; its placements then sum to 10 and its [resources] field,
    which holds what is left, is 4. *)
Lemma placements_within_resources_field_counterexample :
  ~ placements_within_resources_field action_room "team-0" (JStr "cell-0-0") (JInt 10).
Proof.
  intros H.
  specialize (H _ ltac:(vm_compute; reflexivity)).
  apply Forall_inv in H. destruct H as (total & Htotal & Hle).
  vm_compute in Htotal. injection Htotal as <-. vm_compute in Hle. discriminate.
Qed.

Lemma within_budget_fields (t t' : Team.t) :
  Team.resources t' = Team.resources t ->
  Team.placements t' = Team.placements t ->
  within_budget t -> within_budget t'.
Proof.
  unfold within_budget, typed_team, placed_total, resources_left. by intros -> ->.
Qed.

Lemma within_budget_typed (teams : list Team.t) :
  Forall within_budget teams -> Forall typed_team teams.
Proof. intros H. eapply Forall_impl; [exact H|]. by intros t [? _]. Qed.

(** The budget of every team survives a [place_resource] call of the
    annotated types, whatever its outcome. *)
Lemma place_resource_within_budget (room : Room.t) (team_id cell_id : string)
    (amount : Z) :
  Forall within_budget (Room.teams room) ->
  Forall within_budget
    (Room.teams (fst (GameService.place_resource room team_id (JStr cell_id)
                        (JInt amount)))).
Proof.
  intros Hall.
  destruct (place_resource_cases room team_id cell_id amount (within_budget_typed _ Hall))
    as [[_ (msg & ->)]
       |[_ (team & ps & Hteam & Hres & Hpos & Hints & Hsum & Hps & _ & ->)]];
    cbn [fst]; [done|].
  rewrite teams_sync. cbn [Room.teams Room.with_teams].
  apply Forall_update_first; [done|]. intros t _ _.
  apply find_first_Some in Hteam as [Hin _].
  rewrite Forall_forall in Hall.
  destruct (Hall team Hin) as (Htyped & Hr & Hbudget & Hplaced).
  unfold within_budget, typed_team, placed_total, resources_left in *. simpl.
  split; [split; [by eexists | done]|].
  split; [lia|]. split; [|auto].
  rewrite Hsum. lia.
Qed.

(** ** The budget invariant over the rooms reached with requests of the
    annotated types (C2) *)

Lemma within_budget_reset (t : Team.t) : within_budget (GameService.reset_team t).
Proof.
  unfold within_budget, typed_team, placed_total, resources_left. simpl.
  split; [split; [by eexists | constructor]|].
  split; [done|]. split; [done | constructor].
Qed.

Lemma score_teams_Forall (P : Team.t -> Prop) (gs : GameState.t) (tts : dict.t num)
    (project_success : bool) (teams : list Team.t) :
  (forall t s, P t -> P (Team.with_score s t)) ->
  Forall P teams ->
  Forall P (fst (GameService.score_teams gs tts project_success teams)).
Proof.
  intros Hscore. induction 1 as [|t teams Ht Hteams IH]; simpl; [constructor|].
  destruct (GameService.turn_score_of gs tts project_success t); simpl.
  - constructor; auto.
  - constructor; auto.
Qed.

Lemma process_turn_Forall (P : Team.t -> Prop) (room : Room.t) :
  (forall t s, P t -> P (Team.with_score s t)) ->
  Forall P (Room.teams room) ->
  Forall P (Room.teams (fst (GameService._process_turn room))).
Proof.
  intros Hscore Hall. unfold GameService._process_turn.
  destruct (Room.game_state room) as [gs|]; [|done].
  destruct (GameService.score_cells _ _) as [[cell_results tts1]|e]; [|done].
  destruct (GameService.process_project gs tts1) as [gs1 [po|e]]; [|done].
  pose proof (score_teams_Forall P gs1 (GameService.po_team_turn_scores po)
                (GameService.po_project_success po) (Room.teams room) Hscore Hall).
  destruct (snd (GameService.score_teams _ _ _ _)); done.
Qed.

Lemma advance_phase_within_budget (now : datetime) (room : Room.t) :
  Forall within_budget (Room.teams room) ->
  Forall within_budget (Room.teams (fst (GameService.advance_phase now room))).
Proof.
  intros Hall. unfold GameService.advance_phase.
  destruct (Room.game_state room) as [gs|]; [|done].
  destruct (GameState.current_phase gs); try done.
  - match goal with |- context [GameService._process_turn ?r] => set (room1 := r) end.
    assert (Forall within_budget (Room.teams (fst (GameService._process_turn room1)))) as H.
    { apply process_turn_Forall.
      - intros t s. by apply within_budget_fields.
      - subst room1. cbn [Room.teams Room.with_teams].
        apply Forall_fmap. eapply Forall_impl; [exact Hall|].
        intros t. by apply within_budget_fields. }
    destruct (GameService._process_turn room1) as [room2 [result|e]]; exact H.
  - repeat case_match; try done. cbn [fst Room.teams Room.with_teams].
    apply Forall_fmap, Forall_forall. intros t _. apply within_budget_reset.
Qed.

Lemma step_within_budget (room room' : Room.t) :
  typed_step room room' ->
  Forall within_budget (Room.teams room) -> Forall within_budget (Room.teams room').
Proof.
  intros Hstep Hall. destruct Hstep as
    [now room room' r H|room team_id cell_id amount room' r [[c ->] [z ->]] H
    |room team_id room' r H|now room room' r H| | | |].
  - unfold GameService.start_game in H. repeat case_match; simplify_eq; try done.
    cbn [Room.teams Room.with_teams].
    apply Forall_fmap, Forall_forall. intros x _. apply within_budget_reset.
  - pose proof (place_resource_within_budget room team_id c z Hall) as Hp.
    by rewrite H in Hp.
  - unfold GameService.submit_turn in H. repeat case_match; simplify_eq; try done.
    cbn [Room.teams Room.with_teams].
    apply Forall_update_first; [done|]. intros x Hx _. by apply (within_budget_fields x).
  - pose proof (advance_phase_within_budget now room Hall) as Hp. by rewrite H in Hp.
  - unfold GameService.pause_game. by destruct (Room.game_state room).
  - unfold GameService.resume_game. by destruct (Room.game_state room).
  - cbn [set_connected Room.teams Room.with_teams].
    apply Forall_update_first; [done|]. intros x Hx _. by apply (within_budget_fields x).
  - done.
Qed.

Lemma typed_reachable_within_budget (room : Room.t) :
  typed_reachable room -> Forall within_budget (Room.teams room).
Proof.
  induction 1 as [room (_ & _ & Hteams & _)|room room' _ IH Hstep].
  - eapply Forall_impl; [exact Hteams|]. intros t (Hr & Hp & _).
    unfold within_budget, typed_team, placed_total, resources_left. rewrite Hr, Hp.
    split; [split; [by eexists | constructor]|].
    split; [done|]. split; [done | constructor].
  - by apply (step_within_budget room room').
Qed.

(** The budget written out: the resources are an [int], the placements are
    a list of cell ids and [int] amounts. *)
Lemma within_budget_explicit (t : Team.t) :
  within_budget t ->
  exists (r : Z) (placed : list (string * Z)),
    Team.resources t = PInt r
    /\ Team.placements t = int_placements placed
    /\ sum_int (snd <$> placed) <= game_config.RESOURCES_PER_TURN
    /\ 0 <= r
    /\ sum_int (snd <$> placed) + r = game_config.RESOURCES_PER_TURN
    /\ Forall (fun e => 0 < snd e) placed.
Proof.
  intros ([[r Hr] Hints] & Hpos & Hsum & Hplaced).
  unfold resources_left, placed_total in *. rewrite Hr in Hpos, Hsum.
  exists r, ((fun p => (Placement.cell_id p, units (Placement.amount p)))
               <$> Team.placements t).
  split; [done|].
  assert (int_placements ((fun p => (Placement.cell_id p, units (Placement.amount p)))
                            <$> Team.placements t) = Team.placements t) as Hsame.
  { unfold int_placements. rewrite <- list_fmap_compose.
    rewrite <- (list_fmap_id (Team.placements t)) at 2.
    apply Forall_fmap_ext. eapply Forall_impl; [exact Hints|].
    intros [c a] [z Hz]. simpl in *. by subst. }
  split; [done|]. rewrite <- list_fmap_compose.
  change (snd ∘ (fun p => (Placement.cell_id p, units (Placement.amount p))))
    with (fun p => units (Placement.amount p)).
  split; [lia|]. split; [done|]. split; [exact Hsum|].
  apply Forall_fmap. eapply Forall_impl; [exact Hplaced|]. done.
Qed.

(** C2 (amended). In every room the backend reaches while the clients send
    cell ids that are strings and amounts that are [int]s, after a successful
    [place_resource] call of that kind every team's placement amounts sum to
    at most the resources granted for the turn ([RESOURCES_PER_TURN]); the
    [resources] field holds what is left of the grant: it is an [int], not
    negative, and with the placed amounts it adds up to the grant; every
    placed amount is a positive [int]. *)
Theorem placements_within_turn_grant (room room' : Room.t) (team_id cell_id : string)
    (amount : Z) :
  typed_reachable room ->
  GameService.place_resource room team_id (JStr cell_id) (JInt amount) = (room', Ok tt) ->
  Forall (fun t =>
            exists (r : Z) (placed : list (string * Z)),
              Team.resources t = PInt r
              /\ Team.placements t = int_placements placed
              /\ sum_int (snd <$> placed) <= game_config.RESOURCES_PER_TURN
              /\ 0 <= r
              /\ sum_int (snd <$> placed) + r = game_config.RESOURCES_PER_TURN
              /\ Forall (fun e => 0 < snd e) placed)
         (Room.teams room').
Proof.
  intros Hreach Hplace.
  assert (typed_reachable room') as Hreach'.
  { eapply reachable_step; [exact Hreach|].
    eapply step_place_resource; [|exact Hplace]. split; by eexists. }
  eapply Forall_impl; [apply (typed_reachable_within_budget room' Hreach')|].
  apply within_budget_explicit.
Qed.

Lemma started_room_reachable (admits : json -> json -> Prop) :
  reachable_on admits started_room.
Proof.
  unfold started_room.
  eapply reachable_step; [|eapply step_start_game, surjective_pairing].
  do 3 (eapply reachable_step; [|apply step_connected]).
  apply reachable_created. split; [done|]. split; [done|].
  split; [by repeat constructor | compute_done].
Qed.

Lemma advance_at_reachable (admits : json -> json -> Prop) (nows : list datetime)
    (room : Room.t) :
  reachable_on admits room -> reachable_on admits (advance_at nows room).
Proof.
  revert room. induction nows as [|now nows IH]; intros room Hr; simpl; [done|].
  apply IH. eapply reachable_step; [exact Hr|].
  eapply step_advance_phase, surjective_pairing.
Qed.

Lemma action_room_reachable (admits : json -> json -> Prop) :
  reachable_on admits action_room.
Proof.
  unfold action_room.
  eapply reachable_step; [|eapply step_advance_phase, surjective_pairing].
  apply started_room_reachable.
Qed.

(** The rooms reached with requests of the annotated types are among the
    rooms the backend can reach. *)
Lemma typed_reachable_reachable (room : Room.t) : typed_reachable room -> reachable room.
Proof.
  induction 1 as [room Hcreated|room room' _ IH Hstep]; [by apply reachable_created|].
  eapply reachable_step; [exact IH|].
  destruct Hstep; try (by econstructor; eauto).
Qed.

(** Beyond them the budget does not hold: the room after the fractional
    amount is one the backend can reach, and a team of it holds 11.5. *)
Lemma reachable_beyond_budget :
  exists room, reachable room /\ ~ Forall within_budget (Room.teams room).
Proof.
  exists (fst (GameService.place_resource action_room "team-0" (JStr "cell-0-0")
                 (JFloat 2.5))).
  split.
  - eapply reachable_step; [apply action_room_reachable|].
    eapply step_place_resource; [done | apply surjective_pairing].
  - intros H. apply within_budget_typed in H.
    assert (Forall typed_team
              (take 1 (Room.teams (fst (GameService.place_resource action_room "team-0"
                                          (JStr "cell-0-0") (JFloat 2.5)))))) as H1
      by (by apply Forall_take).
    vm_compute in H1. apply Forall_inv in H1 as [[r Hr] _]. discriminate.
Qed.

Lemma placements_within_turn_grant_witness :
  typed_reachable action_room
  /\ snd (GameService.place_resource action_room "team-0" (JStr "cell-0-0") (JInt 10))
     = Ok tt
  /\ Forall (fun t =>
               exists (r : Z) (placed : list (string * Z)),
                 Team.resources t = PInt r
                 /\ Team.placements t = int_placements placed
                 /\ sum_int (snd <$> placed) <= game_config.RESOURCES_PER_TURN
                 /\ 0 <= r
                 /\ sum_int (snd <$> placed) + r = game_config.RESOURCES_PER_TURN
                 /\ Forall (fun e => 0 < snd e) placed)
            (Room.teams (fst (GameService.place_resource action_room "team-0"
                                (JStr "cell-0-0") (JInt 10))))
  /\ (fun t => (Team.resources t, Team.placements t))
       <$> head (Room.teams (fst (GameService.place_resource action_room "team-0"
                                    (JStr "cell-0-0") (JInt 10))))
     = Some (PInt 4, int_placements [("cell-0-0", 10)]).
Proof.
  split; [exact (action_room_reachable _)|]. split; [vm_compute; reflexivity|].
  split; [|vm_compute; reflexivity].
  apply (placements_within_turn_grant action_room _ "team-0" "cell-0-0" 10).
  - exact (action_room_reachable _).
  - vm_compute. reflexivity.
Defined.

(** ** National indices stay in range (C4) *)

Lemma getattr_setattr (n : NationalIndices.t) (f f' : NationalIndices.field) (v : Z) :
  NationalIndices.getattr (NationalIndices.setattr n f v) f'
  = match f, f' with
    | NationalIndices.Economy, NationalIndices.Economy
    | NationalIndices.Society, NationalIndices.Society
    | NationalIndices.Culture, NationalIndices.Culture
    | NationalIndices.Integration, NationalIndices.Integration
    | NationalIndices.Environment, NationalIndices.Environment
    | NationalIndices.Science, NationalIndices.Science => v
    | _, _ => NationalIndices.getattr n f'
    end.
Proof. by destruct f, f'. Qed.

(** One change clamps the index it names into [[0, max_val]] and leaves the
    others alone. *)
Lemma apply_change_in_range (max_val : Z) (n : NationalIndices.t) (kd : string * Z) :
  0 <= max_val <= game_config.INDEX_MAXIMUM ->
  indices_in_range n ->
  indices_in_range (NationalIndices.apply_change max_val n kd).
Proof.
  intros Hmax Hn f. unfold NationalIndices.apply_change.
  destruct (NationalIndices.field_of (fst kd)) as [f0|]; [|apply Hn].
  rewrite getattr_setattr. specialize (Hn f).
  destruct f0, f; simpl in *; lia.
Qed.

Lemma apply_changes_in_range (n : NationalIndices.t) (changes : dict.t Z) (max_val : Z) :
  0 <= max_val <= game_config.INDEX_MAXIMUM ->
  indices_in_range n ->
  indices_in_range (NationalIndices.apply_changes n changes max_val).
Proof.
  intros Hmax. unfold NationalIndices.apply_changes. revert n.
  induction changes as [|kd changes IH]; intros n Hn; simpl; [done|].
  apply IH. by apply apply_change_in_range.
Qed.

Lemma apply_maintenance_in_range (n : NationalIndices.t) :
  indices_in_range n -> indices_in_range (GameService.apply_maintenance n).
Proof.
  unfold GameService.apply_maintenance.
  generalize game_config.MAINTENANCE_COST. intros costs. revert n.
  induction costs as [|kc costs IH]; intros n Hn; cbn [fold_left]; [done|].
  apply IH. apply apply_changes_in_range; [|done].
  unfold NationalIndices.max_val_default, game_config.INDEX_MAXIMUM. lia.
Qed.

(** C4. Whatever sequence of updates is applied -- event rewards or
    penalties with any keys and deltas, and maintenance rounds -- indices that
    start within [[0, INDEX_MAXIMUM]] are within [[0, INDEX_MAXIMUM]] after
    each [apply_changes], hence at the end. *)
Theorem national_indices_stay_in_range (n : NationalIndices.t) (updates : list index_update) :
  indices_in_range n ->
  indices_in_range (fold_left apply_update updates n).
Proof.
  revert n. induction updates as [|u updates IH]; intros n Hn; simpl; [done|].
  apply IH. destruct u as [changes|]; cbn [apply_update].
  - apply apply_changes_in_range; [|done].
    unfold game_config.INDEX_MAXIMUM. lia.
  - by apply apply_maintenance_in_range.
Qed.

Lemma national_indices_stay_in_range_witness :
  indices_in_range
    (fold_left apply_update
       [EventChanges [("economy", 25); ("society", -40)]; Maintenance;
        EventChanges [("points", 8); ("science", 1000)]]
       (NationalIndices.of_dict game_config.STARTING_INDICES)).
Proof.
  apply national_indices_stay_in_range.
  intros f. destruct f; vm_compute; split; discriminate.
Defined.

(** ** Phase transitions (C6) *)

Lemma process_project_same_clock (gs : GameState.t) (tts : dict.t num) :
  same_clock gs (fst (GameService.process_project gs tts)).
Proof.
  unfold GameService.process_project.
  repeat case_match; simpl; repeat split; done.
Qed.

Lemma process_turn_same_clock (room : Room.t) (gs : GameState.t) :
  Room.game_state room = Some gs ->
  exists gs', Room.game_state (fst (GameService._process_turn room)) = Some gs'
              /\ same_clock gs gs'.
Proof.
  intros Hgs. unfold GameService._process_turn. rewrite Hgs.
  destruct (GameService.score_cells _ _) as [[cell_results tts1]|e];
    [|exists gs; repeat split; done].
  pose proof (process_project_same_clock gs tts1) as Hclock.
  destruct (GameService.process_project gs tts1) as [gs1 [po|e]]; simpl in Hclock.
  - destruct (snd (GameService.score_teams _ _ _ _)); exists gs1; split; done.
  - exists gs1. split; done.
Qed.

(** C6, at a reachable room: the game is in the RESULT phase of turn 3 with
    the economy index at zero, and paused. The transition ends the session
    and returns early: the phase-start time stays the one of the previous
    transition and the pause flag stays set. *)
Lemma every_transition_stamps_counterexample :
  reachable paused_result_room
  /\ ~ every_transition_stamps "09:05:39" paused_result_room.
Proof.
  split.
  - unfold paused_result_room.
    eapply reachable_step; [|apply step_pause_game].
    apply advance_at_reachable, started_room_reachable.
  - intros H.
    destruct (H _ _ ltac:(vm_compute; reflexivity)) as (gs' & Hgs' & Hstart & Hpaused).
    vm_compute in Hgs'. injection Hgs' as <-. discriminate Hpaused.
Qed.

(** C6 (amended). Every [advance_phase] transition that does not end the
    session moves to the next phase, stamps the phase-start time with the
    instant of the call and clears the pause flag. The RESULT-phase
    transition that ends the session sets the status to FINISHED and leaves
    the phase, the phase-start time and the pause flag as they were. *)
Theorem advance_phase_stamps_unless_final (now : datetime) (room room' : Room.t)
    (r : GamePhase * option TurnResult.t) :
  GameService.advance_phase now room = (room', Ok r) ->
  exists gs gs',
    Room.game_state room = Some gs
    /\ Room.game_state room' = Some gs'
    /\ fst r = GameState.current_phase gs'
    /\ if ends_session gs
       then Room.status room' = FINISHED
            /\ GameState.current_phase gs' = RESULT
            /\ GameState.phase_start_time gs' = GameState.phase_start_time gs
            /\ GameState.is_paused gs' = GameState.is_paused gs
       else GameState.current_phase gs' = next_phase (GameState.current_phase gs)
            /\ stamped now gs'.
Proof.
  unfold GameService.advance_phase, ends_session, stamped.
  destruct (Room.game_state room) as [gs|] eqn:Hgs; [|done].
  destruct (GameState.current_phase gs) eqn:Hphase.
  - intros [= <- <-]. exists gs. eexists. do 3 (split; [done|]).
    rewrite Hphase, bool_decide_false by done. simpl. done.
  - match goal with |- context [GameService._process_turn ?r] => set (room1 := r) end.
    destruct (process_turn_same_clock room1 _ eq_refl)
      as (gs2 & Hgs2 & _ & Hphase2 & _).
    destruct (GameService._process_turn room1) as [room2 [result|e]]; [|done].
    simpl in Hgs2. rewrite Hgs2. simpl.
    intros [= <- <-]. exists gs. eexists. do 3 (split; [done|]).
    rewrite Hphase, bool_decide_false by done. simpl. rewrite Hphase2. done.
  - intros [= <- <-]. exists gs. eexists. do 3 (split; [done|]).
    rewrite Hphase, bool_decide_false by done. simpl. done.
  - destruct (NationalIndices.is_any_zero
                (GameService.apply_maintenance (GameState.national_indices gs)))
      eqn:Hzero; cbn [GameState.national_indices GameState.with_national_indices].
    + rewrite Hzero. intros [= <- <-]. exists gs. eexists. do 3 (split; [done|]).
      rewrite Hphase, bool_decide_true, Hzero by done. simpl. done.
    + rewrite Hzero. cbn [GameState.current_turn GameState.with_national_indices].
      destruct (game_config.MAX_TURNS <=? GameState.current_turn gs) eqn:Hturn.
      * intros [= <- <-]. exists gs. eexists. do 3 (split; [done|]).
        rewrite Hphase, bool_decide_true, Hzero, Hturn by done. simpl. done.
      * intros [= <- <-]. exists gs. eexists. do 3 (split; [done|]).
        rewrite Hphase, bool_decide_true, Hzero, Hturn by done. simpl. done.
Qed.

Lemma advance_phase_stamps_unless_final_witness :
  exists room' r gs',
    GameService.advance_phase "2026-01-01T09:02:15" action_room = (room', Ok r)
    /\ Room.game_state room' = Some gs'
    /\ GameState.current_phase gs' = RESOLUTION
    /\ stamped "2026-01-01T09:02:15" gs'.
Proof.
  destruct (GameService.advance_phase "2026-01-01T09:02:15" action_room)
    as [room' [r|e]] eqn:E; [|vm_compute in E; discriminate].
  destruct (advance_phase_stamps_unless_final _ _ _ _ E)
    as (gs & gs' & Hgs & Hgs' & _ & H).
  exists room', r, gs'. split; [reflexivity|]. split; [exact Hgs'|].
  vm_compute in Hgs. injection Hgs as <-. exact H.
Defined.

(** ** The connection registry across sessions (C8) *)

(** C8, with two sessions: once the host of session A has authenticated, the
    host of session B is refused, although B has no host. *)
Lemma sessions_independent_counterexample :
  ~ sessions_independent two_sessions "AAAAAA" "BBBBBB"
      [OpAuthenticate 1%positive HOST None] 2%positive HOST None.
Proof.
  intros H. specialize (H ltac:(discriminate)).
  vm_compute in H. discriminate H.
Qed.

(** The result of [authenticate] is read off three things: the connections
    of the session it names, the host binding, and the binding of the team
    id. *)
Lemma authenticate_result (m : ConnectionManager.t)
    (websocket : ConnectionManager.WebSocket) (room_code : string) (role : ClientRole)
    (team_id : option string) :
  snd (ConnectionManager.authenticate m websocket room_code role team_id)
  = match ConnectionManager._connections m !! room_code with
    | None => (false, "Room not found")
    | Some room =>
        match room !! websocket with
        | None => (false, "Connection not found")
        | Some _ =>
            match role, truthy team_id with
            | HOST, _ =>
                match ConnectionManager._host_connection m with
                | Some _ => (false, "Host already connected")
                | None => (true, "")
                end
            | PLAYER, Some tid =>
                match ConnectionManager._team_connections m !! tid with
                | Some _ => (false, "Team already connected")
                | None => (true, "")
                end
            | _, _ => (true, "")
            end
        end
    end.
Proof.
  unfold ConnectionManager.authenticate.
  repeat case_match; simplify_eq; done.
Qed.

(** C8 (amended). The registry partitions its connection table by session:
    the result of authenticating in session B is the same in two registries
    that agree on B's connections, on the host binding and on the binding of
    the team id, whatever the connections of the other sessions. The host
    binding and the team bindings are not partitioned: while a host is bound
    (by any session) a host is refused in B, and while a team id is bound (by
    any session) that team id is refused in B. *)
Theorem authenticate_reads_own_connections_and_shared_bindings
    (m m' : ConnectionManager.t) (websocket : ConnectionManager.WebSocket)
    (B : string) (role : ClientRole) (team_id : option string) :
  ConnectionManager._connections m !! B = ConnectionManager._connections m' !! B ->
  ConnectionManager._host_connection m = ConnectionManager._host_connection m' ->
  (forall tid, truthy team_id = Some tid ->
               ConnectionManager._team_connections m !! tid
               = ConnectionManager._team_connections m' !! tid) ->
  snd (ConnectionManager.authenticate m websocket B role team_id)
  = snd (ConnectionManager.authenticate m' websocket B role team_id)
  /\ (is_Some (ConnectionManager.get_connection_info m websocket B) ->
      is_Some (ConnectionManager._host_connection m) ->
      ConnectionManager.authenticate m websocket B HOST team_id
      = (m, (false, "Host already connected")))
  /\ (forall tid,
        is_Some (ConnectionManager.get_connection_info m websocket B) ->
        truthy team_id = Some tid ->
        is_Some (ConnectionManager._team_connections m !! tid) ->
        ConnectionManager.authenticate m websocket B PLAYER team_id
        = (m, (false, "Team already connected"))).
Proof.
  intros Hconn Hhost Hteam. split; [|split].
  - rewrite !authenticate_result, Hconn, Hhost.
    destruct (ConnectionManager._connections m' !! B) as [room|]; [|done].
    destruct (room !! websocket); [|done].
    destruct role; try done.
    destruct (truthy team_id) as [tid|] eqn:Htid; [|done].
    by rewrite (Hteam tid).
  - unfold ConnectionManager.get_connection_info, ConnectionManager.authenticate.
    destruct (ConnectionManager._connections m !! B) as [room|]; [|by intros [? ?]].
    intros [info ->] [w ->]. done.
  - intros tid. unfold ConnectionManager.get_connection_info, ConnectionManager.authenticate.
    destruct (ConnectionManager._connections m !! B) as [room|]; [|by intros [? ?]].
    intros [info ->] -> [w ->]. done.
Qed.

(** Whatever another session does that binds nothing (opening connections,
    closing connections that never authenticated) changes no result in B. *)
Lemma run_op_binds_nothing (m : ConnectionManager.t) (A B : string) (op : registry_op) :
  A <> B -> binds_nothing m A op ->
  ConnectionManager._connections (run_op A m op) !! B
  = ConnectionManager._connections m !! B
  /\ ConnectionManager._host_connection (run_op A m op)
     = ConnectionManager._host_connection m
  /\ ConnectionManager._team_connections (run_op A m op)
     = ConnectionManager._team_connections m.
Proof.
  intros Hne Hop. destruct op as [ws|ws role tid|ws]; simpl in *; [|done|].
  - by rewrite lookup_insert_ne.
  - unfold ConnectionManager.disconnect, ConnectionManager.get_connection_info in *.
    destruct (ConnectionManager._connections m !! A) as [room|]; [|done]. simpl.
    split; [|split].
    + case_decide; [by rewrite lookup_delete_ne | by rewrite lookup_insert_ne].
    + destruct (room !! ws) as [info|]; [|done].
      destruct Hop as [-> _]. by rewrite decide_False.
    + destruct (room !! ws) as [info|]; [|done].
      destruct Hop as [_ ->]. done.
Qed.

Lemma authenticate_reads_own_connections_and_shared_bindings_witness :
  snd (ConnectionManager.authenticate
         (fold_left (run_op "AAAAAA") [OpConnect 3%positive; OpDisconnect 1%positive]
            two_sessions)
         2%positive "BBBBBB" HOST None)
  = snd (ConnectionManager.authenticate two_sessions 2%positive "BBBBBB" HOST None).
Proof.
  apply authenticate_reads_own_connections_and_shared_bindings.
  - vm_compute. reflexivity.
  - reflexivity.
  - intros tid Htid. discriminate Htid.
Defined.

(** ** The state projector and credentials (C7) *)

(** C7, for the host: the message goes out as it is, host credential and
    session credentials included, so the view changes with them. *)
Lemma hides_credentials_counterexample :
  ~ hides_credentials sample_serializer sample_room
      (ConnectionInfo.mk true (Some HOST) None).
Proof.
  intros H. specialize (H "another-host-token" []).
  vm_compute in H. discriminate H.
Qed.

Lemma rmap_fmap {A B C} (f : B -> result C) (g : A -> B) (h : A -> C) (l : list A) :
  (forall x, f (g x) = Ok (h x)) -> rmap f (g <$> l) = Ok (h <$> l).
Proof.
  intros Hf. induction l as [|x l IH]; [done|].
  rewrite !fmap_cons. cbn [rmap]. rewrite Hf. cbn [rbind]. rewrite IH. done.
Qed.

Lemma filter_team_view (ser : Serializer.t) (conn_info : ConnectionInfo.t)
    (t : Team.t) :
  filter_team conn_info (model_dump.team ser t) = Ok (team_view ser conn_info t).
Proof.
  unfold filter_team, team_view, model_dump.team.
  change (dict.get "id" _) with (Some (JStr (Team.id t))).
  destruct (ConnectionInfo.role conn_info) as [[| |]|];
    try destruct (differs _ _); vm_compute; reflexivity.
Qed.

Lemma team_view_with_session_tokens (ser : Serializer.t)
    (conn_info : ConnectionInfo.t) (tokens : list string) (teams : list Team.t) :
  team_view ser conn_info <$> with_session_tokens tokens teams
  = team_view ser conn_info <$> teams.
Proof.
  revert tokens. induction teams as [|t teams IH]; intros [|tok tokens]; simpl; try done.
  by rewrite IH.
Qed.

(** The projection of a room's state for a recipient other than the host. *)
Lemma filter_game_state_view (ser : Serializer.t) (room : Room.t)
    (conn_info : ConnectionInfo.t) :
  ConnectionInfo.role conn_info <> Some HOST ->
  filter_game_state (state_msg ser room) conn_info
  = Ok [("type", JStr "GAME_STATE");
        ("data",
         JDict [("code", JStr (Room.code room));
                ("host_name", JStr (Room.host_name room));
                ("status", JStr (model_dump.RoomStatus_value (Room.status room)));
                ("teams", JList (team_view ser conn_info <$> Room.teams room));
                ("game_state",
                 model_dump.opt (model_dump.game_state ser) (Room.game_state room));
                ("created_at", JStr (Room.created_at room))])].
Proof.
  intros Hrole. unfold filter_game_state, state_msg.
  change (dict.get "type" _) with (Some (JStr "GAME_STATE")).
  rewrite decide_False by done.
  change (dict.get "data" _) with (Some (JDict (model_dump.room ser room))).
  cbn [default from_option id].
  change (dict.get "teams" (model_dump.room ser room))
    with (Some (JList (model_dump.team ser <$> Room.teams room))).
  cbn [iterate rbind].
  rewrite (rmap_fmap _ _ (team_view ser conn_info)) by apply filter_team_view.
  cbn [rbind]. vm_compute dict.pop. done.
Qed.

(** C7 (amended). For every room and every recipient other than the host
    (a player, a spectator), the projected state is produced, is the same
    whatever the host credential and the teams' session credentials are, and
    carries no [host_token] and no [session_token] entry. For the host the
    message is passed on as it is, credentials included. This holds whatever
    the room's number fields hold and however the serializer writes them. *)
Theorem projection_hides_credentials_from_non_hosts (ser : Serializer.t)
    (room : Room.t) (conn_info : ConnectionInfo.t) :
  ConnectionInfo.role conn_info <> Some HOST ->
  hides_credentials ser room conn_info
  /\ (exists view, filter_game_state (state_msg ser room) conn_info = Ok view
                   /\ credential_free view)
  /\ (forall authenticated team_id,
        filter_game_state (state_msg ser room)
          (ConnectionInfo.mk authenticated (Some HOST) team_id)
        = Ok (state_msg ser room)).
Proof.
  intros Hrole. split; [|split].
  - intros host_token tokens. rewrite !filter_game_state_view by done.
    unfold with_credentials. cbn [Room.code Room.host_name Room.status Room.teams
      Room.game_state Room.created_at Room.with_teams Room.with_host_token].
    by rewrite team_view_with_session_tokens.
  - eexists. split; [by apply filter_game_state_view|].
    unfold credential_free.
    change (dict.get "data" _) with (Some (JDict
      [("code", JStr (Room.code room));
       ("host_name", JStr (Room.host_name room));
       ("status", JStr (model_dump.RoomStatus_value (Room.status room)));
       ("teams", JList (team_view ser conn_info <$> Room.teams room));
       ("game_state",
        model_dump.opt (model_dump.game_state ser) (Room.game_state room));
       ("created_at", JStr (Room.created_at room))])).
    split; [reflexivity|].
    change (dict.get "teams" _)
      with (Some (JList (team_view ser conn_info <$> Room.teams room))).
    apply Forall_fmap, Forall_forall. intros t _. reflexivity.
  - intros authenticated team_id. reflexivity.
Qed.

Lemma projection_hides_credentials_from_non_hosts_witness :
  filter_game_state
    (state_msg sample_serializer
       (with_credentials "another-host-token" ["x"; "y"] action_room))
    (ConnectionInfo.mk true (Some PLAYER) (Some "team-1"))
  = filter_game_state (state_msg sample_serializer action_room)
      (ConnectionInfo.mk true (Some PLAYER) (Some "team-1")).
Proof.
  apply (projection_hides_credentials_from_non_hosts sample_serializer action_room
           (ConnectionInfo.mk true (Some PLAYER) (Some "team-1"))).
  discriminate.
Defined.

(** ** The indices of every reachable room *)

Lemma sync_national_indices (room : Room.t) (gs : GameState.t) :
  Room.game_state (fst (GameService._sync_placements_to_board room)) = Some gs ->
  exists gs0, Room.game_state room = Some gs0
              /\ GameState.national_indices gs = GameState.national_indices gs0.
Proof.
  unfold GameService._sync_placements_to_board.
  destruct (Room.game_state room) as [gs0|] eqn:Hgs; [|by simpl; rewrite Hgs].
  destruct (GameService.sync_teams _ _) as [st r].
  simpl. intros [= <-]. by exists gs0.
Qed.

(** Whatever the client sends as cell id and amount, [place_resource] leaves
    the national indices as they were. *)
Lemma place_resource_national_indices (room : Room.t) (team_id : string)
    (cell_id amount : json) (gs : GameState.t) :
  Room.game_state (fst (GameService.place_resource room team_id cell_id amount))
  = Some gs ->
  exists gs0, Room.game_state room = Some gs0
              /\ GameState.national_indices gs = GameState.national_indices gs0.
Proof.
  unfold GameService.place_resource.
  destruct (Room.game_state room) as [gs0|] eqn:Hgs; [|by simpl; rewrite Hgs].
  assert (forall r : Room.t, Room.game_state r = Some gs0 ->
            Room.game_state r = Some gs ->
            exists g, Some gs0 = Some g
                      /\ GameState.national_indices gs = GameState.national_indices g)
    as Hsame by (intros r -> [= ->]; eauto).
  repeat case_match; cbn [fst]; try (by apply Hsame);
    try (cbn [Room.game_state Room.with_teams]; rewrite Hgs; intros [= <-]; by eauto).
  all: intros Hg; apply sync_national_indices in Hg as (g & Hg & ->).
  all: cbn [Room.game_state Room.with_teams] in Hg; rewrite Hgs in Hg.
  all: injection Hg as <-; eauto.
Qed.

Lemma process_project_in_range (gs : GameState.t) (tts : dict.t num) :
  indices_in_range (GameState.national_indices gs) ->
  indices_in_range
    (GameState.national_indices (fst (GameService.process_project gs tts))).
Proof.
  intros Hgs. unfold GameService.process_project.
  repeat case_match; simpl; try done;
    apply apply_changes_in_range; try done;
    unfold game_config.INDEX_MAXIMUM; lia.
Qed.

Lemma process_turn_in_range (room : Room.t) :
  room_indices_in_range room ->
  room_indices_in_range (fst (GameService._process_turn room)).
Proof.
  intros Hroom. unfold GameService._process_turn.
  destruct (Room.game_state room) as [gs|] eqn:Hgs; [|done].
  destruct (GameService.score_cells _ _) as [[cell_results tts1]|e]; [|done].
  pose proof (process_project_in_range gs tts1 (Hroom gs Hgs)) as Hp.
  destruct (GameService.process_project gs tts1) as [gs1 [po|e]]; simpl in Hp.
  - destruct (snd (GameService.score_teams _ _ _ _)); intros g [= <-]; done.
  - intros g [= <-]. done.
Qed.

Lemma advance_phase_in_range (now : datetime) (room : Room.t) :
  room_indices_in_range room ->
  room_indices_in_range (fst (GameService.advance_phase now room)).
Proof.
  intros Hroom. unfold GameService.advance_phase.
  destruct (Room.game_state room) as [gs|] eqn:Hgs; [|done].
  pose proof (Hroom gs Hgs) as Hin.
  destruct (GameState.current_phase gs).
  - intros g [= <-]. done.
  - match goal with |- context [GameService._process_turn ?r] => set (room1 := r) end.
    assert (room_indices_in_range room1) as H1 by (intros g [= <-]; done).
    apply process_turn_in_range in H1.
    destruct (process_turn_same_clock room1 _ eq_refl) as (gs2 & Hgs2 & _).
    destruct (GameService._process_turn room1) as [room2 [result|e]]; [|done].
    simpl in *. rewrite Hgs2. intros g [= <-]. simpl. by apply H1.
  - intros g [= <-]. done.
  - apply apply_maintenance_in_range in Hin.
    repeat case_match; intros g [= <-]; done.
Qed.

(** In every room the backend can reach, whatever cell ids and amounts the
    clients send, once the game has started every national index lies in
    [[0, INDEX_MAXIMUM]]. *)
Lemma reachable_indices_in_range (room : Room.t) :
  reachable room -> room_indices_in_range room.
Proof.
  induction 1 as [room (_ & Hgs & _)|room room' _ IH Hstep].
  - intros gs. by rewrite Hgs.
  - destruct Hstep as
      [now room room' r H|room team_id cell_id amount room' r _ H|room team_id room' r H
      |now room room' r H| | | |].
    + unfold GameService.start_game in H. repeat case_match; simplify_eq; try done.
      intros g [= <-]. intros f. destruct f; vm_compute; split; discriminate.
    + intros g Hg.
      pose proof (place_resource_national_indices room team_id cell_id amount g) as Hp.
      rewrite H in Hp. destruct (Hp Hg) as (gs0 & Hgs0 & ->). by apply IH.
    + unfold GameService.submit_turn in H. repeat case_match; simplify_eq; done.
    + pose proof (advance_phase_in_range now room IH) as Hp. by rewrite H in Hp.
    + unfold GameService.pause_game.
      destruct (Room.game_state room) as [gs|] eqn:Hgs; [|done].
      intros g [= <-]. simpl. by apply IH.
    + unfold GameService.resume_game.
      destruct (Room.game_state room) as [gs|] eqn:Hgs; [|done].
      intros g [= <-]. simpl. by apply IH.
    + done.
    + done.
Qed.

(** ** Transitions that always return *)

(** Outside the ACTION phase, [advance_phase] returns whenever the game has
    started: only the scoring of a turn can raise. *)
Lemma advance_phase_returns (now : datetime) (room : Room.t) (gs : GameState.t) :
  Room.game_state room = Some gs ->
  GameState.current_phase gs <> ACTION ->
  exists room' r, GameService.advance_phase now room = (room', Ok r).
Proof.
  intros Hgs Hphase. unfold GameService.advance_phase. rewrite Hgs.
  destruct (GameState.current_phase gs); try done; repeat case_match; eauto.
Qed.

(** ** Values checked against the interpreter *)

Example float_of_int_largest :
  float_of_int (float_max_int - 1) = Ok 0x1.fffffffffffffp+1023%float
  /\ float_of_int float_max_int = Raise OverflowError.
Proof. split; vm_compute; reflexivity. Qed.

Example int_truediv_rounds :
  int_truediv 1 3 = Ok (PrimFloat.div 1 3)
  /\ int_truediv (2 ^ 54 + 1) 3 = Ok 6004799503160662%float
  /\ int_truediv 7 (-2) = Ok (-3.5)%float
  /\ int_truediv 1 0 = Raise ZeroDivisionError.
Proof. repeat split; vm_compute; reflexivity. Qed.

Example int_of_float_truncates :
  int_of_float 19.5%float = Ok 19 /\ int_of_float (-7.5)%float = Ok (-7)
  /\ int_of_float infinity = Raise OverflowError.
Proof. repeat split; vm_compute; reflexivity. Qed.

Example tie_cell_scores :
  ScoringService.calculate_cell_scores tie_cell
  = Ok [("t1", PFloat 3.75%float); ("t2", PFloat 3.75%float); ("t3", PInt 0)].
Proof. vm_compute. reflexivity. Qed.

Example shared_cell_scores :
  ScoringService.calculate_cell_scores
    (BoardCell.mk "cell-1-0" (1, 0) SHARED "Dong bang" ["society"; "environment"]
       [CellPlacement.mk "t1" 5; CellPlacement.mk "t2" 5; CellPlacement.mk "t3" 3])
  = Ok [("t1", PFloat 7.5%float); ("t2", PFloat 7.5%float); ("t3", PFloat 4.5%float)].
Proof. vm_compute. reflexivity. Qed.

Example cooperation_alone_scores_nothing :
  ScoringService.calculate_cell_scores
    (BoardCell.mk "cell-0-0" (0, 0) COOPERATION "Cua khau" ["integration"; "economy"]
       [CellPlacement.mk "t1" 5])
  = Ok [("t1", PInt 0)].
Proof. vm_compute. reflexivity. Qed.

Example validate_int_lax :
  validate_int (NInt 7) = Some 7
  /\ validate_int (NFloat 3) = Some 3
  /\ validate_int (NFloat 2.5) = None
  /\ validate_int (NFloat nan) = None
  /\ validate_int (NFloat infinity) = None
  /\ validate_int (NBool true) = Some 1.
Proof. repeat split; vm_compute; reflexivity. Qed.

Example create_cell_id_of_position : board_config.create_cell_id (0, 3) = "cell-0-3".
Proof. vm_compute. reflexivity. Qed.

(** The first turn of the sample game: three teams place 5 on a cell and 7
    on the project, the project succeeds, and the turn scores are
    [int(12.5 + 7.0) + 8 // 3] and [int(10.5 + 7.0) + 8 // 3]. *)
Example first_turn_scores :
  let room :=
    fold_left (fun r '(team, cell, amount) =>
                 fst (GameService.place_resource r team (JStr cell) (JInt amount)))
      [("team-0", "cell-0-0", 5); ("team-0", "project-center", 7);
       ("team-1", "cell-0-0", 5); ("team-1", "project-center", 7);
       ("team-2", "cell-0-3", 7); ("team-2", "project-center", 7)]
      action_room in
  TurnResult.team_scores <$>
    (snd <$> match snd (GameService.advance_phase "2026-01-01T09:02:15" room) with
             | Ok r => Some r
             | Raise _ => None
             end) ≫= id
  = Some [TeamScore.mk "team-0" 21 21; TeamScore.mk "team-1" 21 21;
          TeamScore.mk "team-2" 19 19; TeamScore.mk "team-3" 0 0;
          TeamScore.mk "team-4" 0 0].
Proof. vm_compute. reflexivity. Qed.

(** ** The board as a view of the teams' placements *)

Section Sync.

(** The ids of the room's teams. *)
Variable teams : list string.

Let grant : Z := game_config.RESOURCES_PER_TURN.

Lemma sync_state_ok_mono (rounds rounds' : list (string * string))
    (st : list BoardCell.t * option ProjectStatus.t) :
  rounds ⊆ rounds' -> sync_state_ok teams rounds st -> sync_state_ok teams rounds' st.
Proof.
  intros Hsub [Hboard Hproject]. split.
  - eapply Forall_impl; [exact Hboard|]. intros c [Hc Hin]. split; [done|]. auto.
  - intros ps Hps. destruct (Hproject ps Hps) as (Htotal & Hc & Hin). auto.
Qed.

(** One round of the loop, for a team and a cell that no round before was
    about, with an amount that is a positive [int] within the grant. *)
Lemma sync_placement_ok (rounds : list (string * string)) (team_id : string)
    (st : list BoardCell.t * option ProjectStatus.t) (p : Placement.t) :
  sync_state_ok teams rounds st ->
  sync_key (team_id, p) ∉ rounds ->
  team_id ∈ teams ->
  is_int (Placement.amount p) ->
  0 < units (Placement.amount p) <= grant ->
  exists st',
    GameService.sync_placement team_id st p = Ok st'
    /\ sync_state_ok teams (sync_key (team_id, p) :: rounds) st'.
Proof.
  intros Hst Hnew Hteam [z Hz] Hamount. rewrite Hz in Hamount. cbn [units] in Hamount.
  assert (sync_state_ok teams (sync_key (team_id, p) :: rounds) st) as Hst'
    by (eapply sync_state_ok_mono; [|exact Hst]; intros k Hk; by right).
  destruct Hst' as [Hboard Hproject].
  unfold GameService.sync_placement. unfold sync_key in *. cbn [fst snd] in *.
  rewrite Hz.
  destruct (decide (Placement.cell_id p = board_config.PROJECT_CELL_ID)) as [Hp|Hp].
  - destruct (snd st) as [ps|] eqn:Hps; [|exists st; split; [done|]; split; [done|];
      by rewrite Hps].
    destruct (Hproject ps eq_refl) as ([total Htotal] & [Hnd Hall] & Hin).
    rewrite Htotal. cbn [to_num num_add rbind]. eexists. split; [reflexivity|].
    split; cbn [fst snd]; [done|]. intros ps' [= <-].
    cbn [ProjectStatus.contributing_teams ProjectStatus.total_contributed
         ProjectStatus.with_contributions].
    split; [by eexists|]. split; [split|].
    + rewrite fmap_app. apply NoDup_app. split; [done|]. split; [|apply NoDup_singleton].
      intros k Hk Hk'. apply list_elem_of_singleton in Hk'. simpl in Hk'. subst k.
      destruct Hst as [_ Hproject0]. destruct (Hproject0 ps Hps) as (_ & _ & Hin0).
      apply Hnew. rewrite Hp. by apply Hin0.
    + apply Forall_app. split; [done|]. apply Forall_singleton. simpl.
      split; [done|]. split; [by eexists|]. fold grant. lia.
    + intros k Hk. rewrite fmap_app in Hk. apply elem_of_app in Hk as [Hk|Hk]; [auto|].
      apply list_elem_of_singleton in Hk. simpl in Hk. subst k. rewrite Hp. left.
  - destruct (find_first _ (fst st)) as [c0|] eqn:Hfind;
      [|exists st; split; [done|]; split; done].
    cbn [CellPlacement.new validate_int rbind]. eexists. split; [reflexivity|].
    split; cbn [fst snd]; [|done].
    destruct Hst as [Hboard0 _].
    assert (Forall (fun c =>
              (cell_placements_ok teams c
               /\ forall k, k ∈ CellPlacement.team_id <$> BoardCell.placements c ->
                            (k, BoardCell.id c) ∈ (team_id, Placement.cell_id p) :: rounds)
              /\ (forall k, k ∈ CellPlacement.team_id <$> BoardCell.placements c ->
                            (k, BoardCell.id c) ∈ rounds))
              (fst st)) as Hboth.
    { rewrite Forall_forall in Hboard, Hboard0 |- *. intros c Hc.
      split; [by apply Hboard|]. by apply (Hboard0 c Hc). }
    eapply Forall_update_first_impl; [exact Hboth| |].
    + by intros c [Hc _].
    + intros c [[[Hnd Hall] Hin] Hin0] Hcell.
      apply bool_decide_eq_true in Hcell. unfold cell_placements_ok.
      cbn [BoardCell.placements BoardCell.with_placements BoardCell.id].
      split; [split|].
      * rewrite fmap_app. apply NoDup_app. split; [done|].
        split; [|apply NoDup_singleton].
        intros k Hk Hk'. apply list_elem_of_singleton in Hk'. simpl in Hk'. subst k.
        apply Hnew. rewrite <- Hcell. by apply Hin0.
      * apply Forall_app. split; [done|]. apply Forall_singleton. simpl.
        split; [done|]. fold grant. lia.
      * intros k Hk. rewrite fmap_app in Hk. apply elem_of_app in Hk as [Hk|Hk]; [auto|].
        apply list_elem_of_singleton in Hk. simpl in Hk. subst k. rewrite Hcell. left.
Qed.

(** The loop over rounds that differ in their keys. *)
Lemma sync_rounds_ok (l : list (string * Placement.t)) (rounds : list (string * string))
    (st : list BoardCell.t * option ProjectStatus.t) :
  sync_state_ok teams rounds st ->
  NoDup (sync_key <$> l) ->
  Forall (fun round => (sync_key round ∉ rounds)
                       /\ fst round ∈ teams
                       /\ is_int (Placement.amount (snd round))
                       /\ 0 < units (Placement.amount (snd round)) <= grant) l ->
  exists st' rounds',
    GameService.sfold (fun st round => GameService.sync_placement (fst round) st (snd round))
      st l = (st', Ok tt)
    /\ sync_state_ok teams rounds' st'.
Proof.
  revert rounds st. induction l as [|[team_id p] l IH]; intros rounds st Hst Hnd Hall;
    cbn [GameService.sfold]; [eauto|].
  rewrite fmap_cons in Hnd. apply NoDup_cons in Hnd as [Hp Hnd].
  apply Forall_cons in Hall as [(Hnew & Hteam & Hint & Hamount) Hall].
  cbn [fst snd] in *.
  destruct (sync_placement_ok rounds team_id st p) as (st1 & -> & Hst1); try done.
  apply (IH (sync_key (team_id, p) :: rounds)); [done | done |].
  rewrite Forall_forall in Hall |- *. intros q Hq.
  destruct (Hall q Hq) as (Hq1 & Hq2). split; [|done].
  apply not_elem_of_cons. split; [|done].
  intros Heq. apply Hp. rewrite <- Heq. by apply list_elem_of_fmap_2.
Qed.

End Sync.

Lemma sync_rounds_cons (t : Team.t) (teams : list Team.t) :
  sync_rounds (t :: teams)
  = ((fun p => (Team.id t, p)) <$> Team.placements t) ++ sync_rounds teams.
Proof. reflexivity. Qed.

Lemma sync_rounds_team (teams : list Team.t) (round : string * Placement.t) :
  round ∈ sync_rounds teams ->
  exists t, t ∈ teams /\ fst round = Team.id t /\ snd round ∈ Team.placements t.
Proof.
  induction teams as [|t teams IH]; [by intros ?%elem_of_nil|].
  rewrite sync_rounds_cons. intros [H|H]%elem_of_app.
  - apply list_elem_of_fmap in H as (p & -> & Hp). exists t. split; [left | done].
  - destruct (IH H) as (t' & Ht' & Hr). exists t'. split; [by right | done].
Qed.

(** The rounds of the loop differ in their keys when the teams differ in
    their ids and a team's placements in their cells. *)
Lemma sync_keys_NoDup (teams : list Team.t) :
  NoDup (Team.id <$> teams) ->
  Forall (fun t => NoDup (Placement.cell_id <$> Team.placements t)) teams ->
  NoDup (sync_key <$> sync_rounds teams).
Proof.
  induction teams as [|t teams IH]; intros Hnd Hcells; [constructor|].
  rewrite fmap_cons in Hnd. apply NoDup_cons in Hnd as [Ht Hnd].
  apply Forall_cons in Hcells as [Hcell Hcells].
  rewrite sync_rounds_cons, fmap_app. apply NoDup_app. split; [|split; [|by apply IH]].
  - rewrite <- list_fmap_compose.
    assert (sync_key ∘ (fun p => (Team.id t, p))
            = (fun c => (Team.id t, c)) ∘ Placement.cell_id) as -> by done.
    rewrite list_fmap_compose. apply NoDup_fmap_2; [|done]. by intros c c' [= ->].
  - intros k Hk Hk'.
    apply list_elem_of_fmap in Hk as (r & -> & Hr).
    apply list_elem_of_fmap in Hr as (p & -> & Hp).
    apply list_elem_of_fmap in Hk' as (r' & Heq & Hr').
    apply sync_rounds_team in Hr' as (t' & Ht' & Hid & _).
    apply Ht. unfold sync_key in Heq. cbn [fst snd] in Heq. injection Heq as Heq _.
    rewrite Heq, Hid. by apply list_elem_of_fmap_2.
Qed.

(** A team with a budget has placements within the grant. *)
Lemma within_budget_amounts (t : Team.t) :
  within_budget t ->
  Forall (fun p => is_int (Placement.amount p)
                   /\ 0 < units (Placement.amount p) <= game_config.RESOURCES_PER_TURN)
         (Team.placements t).
Proof.
  intros ([_ Hints] & Hr & Hsum & Hpos). unfold placed_total in Hsum.
  assert (forall l, Forall (fun p => 0 < units (Placement.amount p)) l ->
            0 <= sum_int ((fun p => units (Placement.amount p)) <$> l)
            /\ Forall (fun p => units (Placement.amount p)
                                <= sum_int ((fun p => units (Placement.amount p)) <$> l)) l)
    as Hle.
  { induction 1 as [|p l Hp Hl [IH1 IH2]].
    - split; [done | constructor].
    - rewrite fmap_cons, sum_int_cons. split; [lia|]. constructor; [lia|].
      eapply Forall_impl; [exact IH2|]. intros q Hq. simpl in Hq. lia. }
  destruct (Hle _ Hpos) as [_ Hall].
  rewrite Forall_forall in Hpos, Hall, Hints |- *. intros p Hp.
  specialize (Hpos p Hp). specialize (Hall p Hp). simpl in Hall.
  split; [by apply Hints | lia].
Qed.

(** After [_sync_placements_to_board], every cell of the board and the
    project hold at most one amount per team, each positive and within the
    grant. *)
Lemma sync_placements_to_board_ok (room : Room.t) (gs : GameState.t) :
  NoDup (Team.id <$> Room.teams room) ->
  Forall (fun t => NoDup (Placement.cell_id <$> Team.placements t)) (Room.teams room) ->
  Forall within_budget (Room.teams room) ->
  Room.game_state (fst (GameService._sync_placements_to_board room)) = Some gs ->
  Forall (cell_placements_ok (Team.id <$> Room.teams room)) (GameState.board gs)
  /\ forall ps, GameState.project_status gs = Some ps ->
       contributions_ok (Team.id <$> Room.teams room)
         (ProjectStatus.contributing_teams ps).
Proof.
  intros Hnd Hcells Hbudget. unfold GameService._sync_placements_to_board.
  destruct (Room.game_state room) as [gs0|] eqn:Hgs0; [|by simpl; rewrite Hgs0].
  unfold GameService.sync_teams.
  match goal with |- context [GameService.sfold ?body ?st ?l] =>
    destruct (sync_rounds_ok (Team.id <$> Room.teams room) l [] st)
      as (st' & rounds' & Hst' & Hb & Hp)
  end.
  - split; cbn [fst snd].
    + apply Forall_fmap, Forall_forall. intros c _. split; [split; cbn; constructor|].
      cbn. by intros k ?%elem_of_nil.
    + destruct (GameState.project_status gs0); [|done].
      intros ps [= <-]. cbn. split; [by eexists|]. split; [split; constructor|].
      by intros k ?%elem_of_nil.
  - by apply sync_keys_NoDup.
  - apply Forall_forall. intros round Hround.
    apply (sync_rounds_team (Room.teams room)) in Hround as (t & Ht & Hid & Hin).
    split; [apply not_elem_of_nil|]. split; [rewrite Hid; by apply list_elem_of_fmap_2|].
    rewrite Forall_forall in Hbudget.
    pose proof (within_budget_amounts t (Hbudget t Ht)) as Hall.
    rewrite Forall_forall in Hall. by apply Hall.
  - rewrite Hst'. cbn. intros [= <-]. cbn. split; [|intros ps Hps; by apply Hp].
    eapply Forall_impl; [exact Hb|]. by intros c [Hc _].
Qed.

(** ** Well-formed rooms *)

Lemma score_teams_fmap {B} (g : Team.t -> B) (gs : GameState.t) (tts : dict.t num)
    (project_success : bool) (teams : list Team.t) :
  (forall t s, g (Team.with_score s t) = g t) ->
  g <$> fst (GameService.score_teams gs tts project_success teams) = g <$> teams.
Proof.
  intros Hg. induction teams as [|t teams IH]; [done|]. cbn [GameService.score_teams].
  destruct (GameService.turn_score_of gs tts project_success t); cbn [fst]; [|done].
  by rewrite !fmap_cons, Hg, IH.
Qed.

(** What [_process_turn] leaves of a room: the teams but for their scores,
    the board, and the project's contributions. *)
Lemma process_turn_frame (room : Room.t) (gs : GameState.t) :
  Room.game_state room = Some gs ->
  exists gs',
    Room.game_state (fst (GameService._process_turn room)) = Some gs'
    /\ GameState.board gs' = GameState.board gs
    /\ (ProjectStatus.contributing_teams <$> GameState.project_status gs'
        = ProjectStatus.contributing_teams <$> GameState.project_status gs)
    /\ Team.id <$> Room.teams (fst (GameService._process_turn room))
       = Team.id <$> Room.teams room
    /\ Team.placements <$> Room.teams (fst (GameService._process_turn room))
       = Team.placements <$> Room.teams room.
Proof.
  intros Hgs. unfold GameService._process_turn. rewrite Hgs.
  destruct (GameService.score_cells _ _) as [[cell_results tts1]|e];
    [|exists gs; cbn [fst]; done].
  assert (GameState.board (fst (GameService.process_project gs tts1)) = GameState.board gs
          /\ ProjectStatus.contributing_teams
               <$> GameState.project_status (fst (GameService.process_project gs tts1))
             = ProjectStatus.contributing_teams <$> GameState.project_status gs)
    as [Hboard Hps].
  { unfold GameService.process_project.
    destruct (GameState.project_status gs) as [ps|] eqn:Hps0;
      [|cbn [fst]; by rewrite Hps0].
    destruct (GameState.current_event gs); [|cbn [fst]; by rewrite Hps0].
    destruct (ScoringService.calculate_project_result _ _ _);
      [|cbn [fst]; by rewrite Hps0].
    destruct (GameService.add_scores _ _); cbn; done. }
  destruct (GameService.process_project gs tts1) as [gs1 [po|e]]; cbn [fst] in *.
  - exists gs1.
    destruct (snd (GameService.score_teams _ _ _ _));
      cbn [fst Room.game_state Room.teams Room.with_teams Room.with_game_state];
      rewrite !score_teams_fmap by done; done.
  - exists gs1. done.
Qed.

Lemma well_formed_teams (room room' : Room.t) :
  Team.id <$> Room.teams room' = Team.id <$> Room.teams room ->
  Team.placements <$> Room.teams room' = Team.placements <$> Room.teams room ->
  (forall gs', Room.game_state room' = Some gs' ->
     exists gs, Room.game_state room = Some gs
                /\ GameState.board gs' = GameState.board gs
                /\ ProjectStatus.contributing_teams <$> GameState.project_status gs'
                   = ProjectStatus.contributing_teams <$> GameState.project_status gs) ->
  well_formed room -> well_formed room'.
Proof.
  intros Hids Hpl Hgs (Hnd & Hcells & Hstate). unfold well_formed. rewrite Hids.
  split; [done|]. split.
  - rewrite Forall_forall in Hcells |- *. intros t' Ht'.
    assert (Team.placements t' ∈ Team.placements <$> Room.teams room') as H
      by (by apply list_elem_of_fmap_2).
    rewrite Hpl in H. apply list_elem_of_fmap in H as (t & -> & Ht). by apply Hcells.
  - intros gs' Hgs'. destruct (Hgs gs' Hgs') as (gs & Hg & Hboard & Hps).
    destruct (Hstate gs Hg) as [Hb Hp]. rewrite Hboard. split; [done|].
    intros ps' Hps'. rewrite Hps' in Hps.
    destruct (GameState.project_status gs) as [ps|]; [|done].
    injection Hps as ->. by apply Hp.
Qed.

Lemma well_formed_cleared (room room' : Room.t) (gs' : GameState.t) :
  Team.id <$> Room.teams room' = Team.id <$> Room.teams room ->
  Forall (fun t => Team.placements t = []) (Room.teams room') ->
  Room.game_state room' = Some gs' ->
  Forall (fun c => BoardCell.placements c = []) (GameState.board gs') ->
  (forall ps, GameState.project_status gs' = Some ps ->
              ProjectStatus.contributing_teams ps = []) ->
  well_formed room -> well_formed room'.
Proof.
  intros Hids Hpl Hgs Hboard Hps (Hnd & _ & _). unfold well_formed. rewrite Hids.
  split; [done|]. split.
  - eapply Forall_impl; [exact Hpl|]. intros t ->. constructor.
  - intros g. rewrite Hgs. intros [= <-]. split.
    + eapply Forall_impl; [exact Hboard|]. intros c Hc.
      unfold cell_placements_ok. rewrite Hc. split; constructor.
    + intros ps Hp. unfold contributions_ok. rewrite (Hps ps Hp). split; constructor.
Qed.

Lemma fmap_reset_team (teams : list Team.t) :
  Team.id <$> (GameService.reset_team <$> teams) = Team.id <$> teams
  /\ Forall (fun t => Team.placements t = []) (GameService.reset_team <$> teams).
Proof.
  split.
  - rewrite <- list_fmap_compose. done.
  - apply Forall_fmap, Forall_forall. done.
Qed.

Lemma new_project_status_empty (ev : option TurnEvent.t) (ps : ProjectStatus.t) :
  GameService.new_project_status ev = Some ps -> ProjectStatus.contributing_teams ps = [].
Proof. destruct ev; simpl; [intros [= <-] | ]; done. Qed.

Lemma advance_phase_well_formed (now : datetime) (room : Room.t) :
  well_formed room -> well_formed (fst (GameService.advance_phase now room)).
Proof.
  intros Hwf. unfold GameService.advance_phase.
  destruct (Room.game_state room) as [gs|] eqn:Hgs; [|done].
  destruct (GameState.current_phase gs).
  - apply (well_formed_teams room); try done.
    intros gs' [= <-]. exists gs. by rewrite Hgs.
  - match goal with |- context [GameService._process_turn ?r] => set (room1 := r) end.
    destruct (process_turn_frame room1 _ eq_refl) as (gs2 & Hgs2 & Hb & Hp & Hids & Hpl).
    assert (well_formed (fst (GameService._process_turn room1))) as Hwf2.
    { apply (well_formed_teams room).
      - rewrite Hids. subst room1. cbn. by rewrite <- list_fmap_compose.
      - rewrite Hpl. subst room1. cbn. by rewrite <- list_fmap_compose.
      - intros gs'. rewrite Hgs2. intros [= <-]. exists gs. by rewrite Hgs, Hb, Hp.
      - done. }
    destruct (GameService._process_turn room1) as [room2 [result|e]]; [|done].
    cbn [fst] in *. apply (well_formed_teams room2); try done.
    intros gs'. cbn. intros [= <-]. exists gs2. rewrite Hgs2. done.
  - apply (well_formed_teams room); try done.
    intros gs' [= <-]. exists gs. by rewrite Hgs.
  - destruct (NationalIndices.is_any_zero _);
      [|destruct (game_config.MAX_TURNS <=? _)]; cbn [fst].
    + apply (well_formed_teams room); try done.
      intros gs' [= <-]. exists gs. by rewrite Hgs.
    + apply (well_formed_teams room); try done.
      intros gs' [= <-]. exists gs. by rewrite Hgs.
    + destruct (fmap_reset_team (Room.teams room)) as [Hids Hpl].
      eapply (well_formed_cleared room); [exact Hids | exact Hpl | reflexivity | | | done].
      * cbn. apply Forall_fmap, Forall_forall. done.
      * cbn. apply new_project_status_empty.
Qed.

Lemma start_game_well_formed (now : datetime) (room : Room.t) :
  well_formed room -> well_formed (fst (GameService.start_game now room)).
Proof.
  intros Hwf. unfold GameService.start_game.
  repeat case_match; cbn [fst]; try done.
  destruct (fmap_reset_team (Room.teams room)) as [Hids Hpl].
  eapply (well_formed_cleared room); [exact Hids | exact Hpl | reflexivity | | | done].
  - cbn [GameState.board]. apply Forall_fmap, Forall_forall. done.
  - cbn [GameState.project_status]. apply new_project_status_empty.
Qed.

Lemma place_resource_well_formed (room : Room.t) (team_id cell_id : string) (amount : Z) :
  Forall within_budget (Room.teams room) ->
  well_formed room ->
  well_formed (fst (GameService.place_resource room team_id (JStr cell_id) (JInt amount))).
Proof.
  intros Hbudget Hwf.
  pose proof (place_resource_within_budget room team_id cell_id amount Hbudget) as Hbudget'.
  destruct (place_resource_cases room team_id cell_id amount (within_budget_typed _ Hbudget))
    as [[_ (msg & ->)]|[_ (team & ps & Hteam & _ & _ & _ & _ & _ & Hps & Hplace)]];
    [done|].
  rewrite Hplace in Hbudget' |- *. cbn [fst] in *.
  destruct Hwf as (Hnd & Hcells & _).
  rewrite teams_sync in Hbudget'.
  set (room1 := Room.with_teams _ room) in *.
  assert (Team.id <$> Room.teams room1 = Team.id <$> Room.teams room) as Hids.
  { subst room1. cbn [Room.teams Room.with_teams].
    apply find_first_Some in Hteam as [_ Hid]. apply bool_decide_eq_true in Hid.
    clear -Hid. induction (Room.teams room) as [|t teams IH]; [done|].
    cbn [update_first]. unfold GameService.is_team at 1. case_bool_decide.
    - rewrite !fmap_cons. cbn. congruence.
    - by rewrite !fmap_cons, IH. }
  assert (Forall (fun t => NoDup (Placement.cell_id <$> Team.placements t))
            (Room.teams room1)) as Hcells1.
  { subst room1. cbn [Room.teams Room.with_teams].
    apply Forall_update_first; [done|]. intros t _ _. cbn.
    apply Hps. apply find_first_Some in Hteam as [Hin _].
    rewrite Forall_forall in Hcells. by apply Hcells. }
  unfold well_formed. rewrite teams_sync, Hids. split; [done|]. split; [done|].
  intros gs Hgs. rewrite <- Hids.
  apply (sync_placements_to_board_ok room1); try done. by rewrite Hids.
Qed.

Lemma step_well_formed (room room' : Room.t) :
  typed_step room room' ->
  Forall within_budget (Room.teams room) -> well_formed room -> well_formed room'.
Proof.
  intros Hstep Hbudget Hwf. destruct Hstep as
    [now room room' r H|room team_id cell_id amount room' r [[c ->] [z ->]] H
    |room team_id room' r H|now room room' r H| | | |].
  - pose proof (start_game_well_formed now room Hwf) as Hp. by rewrite H in Hp.
  - pose proof (place_resource_well_formed room team_id c z Hbudget Hwf) as Hp.
    by rewrite H in Hp.
  - unfold GameService.submit_turn in H. repeat case_match; simplify_eq; try done.
    apply (well_formed_teams room); cbn; try done.
    + by apply fmap_update_first.
    + by apply fmap_update_first.
    + intros gs' Hgs'. by exists gs'.
  - pose proof (advance_phase_well_formed now room Hwf) as Hp. by rewrite H in Hp.
  - unfold GameService.pause_game.
    destruct (Room.game_state room) as [gs|] eqn:Hgs; [|done].
    apply (well_formed_teams room); cbn; try done.
    intros gs' [= <-]. by exists gs.
  - unfold GameService.resume_game.
    destruct (Room.game_state room) as [gs|] eqn:Hgs; [|done].
    apply (well_formed_teams room); cbn; try done.
    intros gs' [= <-]. by exists gs.
  - apply (well_formed_teams room); cbn; try done.
    + by apply fmap_update_first.
    + by apply fmap_update_first.
    + intros gs' Hgs'. by exists gs'.
  - apply (well_formed_teams room); cbn; try done.
    intros gs' Hgs'. by exists gs'.
Qed.

(** In every room the backend reaches while the clients send requests of the
    annotated types, the teams have ids of their own, a team has one
    placement per cell at most, and every board cell and the project hold one
    amount per team at most, positive and within the grant. *)
Lemma typed_reachable_well_formed (room : Room.t) : typed_reachable room -> well_formed room.
Proof.
  intros Hreach. pose proof Hreach as Hr.
  induction Hreach as [room (_ & Hgs & Hteams & Hnd)|room room' Hreach IH Hstep].
  - split; [done|]. split.
    + eapply Forall_impl; [exact Hteams|]. intros t (_ & -> & _). constructor.
    + intros gs. by rewrite Hgs.
  - apply (step_well_formed room room' Hstep); [|by apply IH].
    by apply typed_reachable_within_budget.
Qed.

(** On a board reached with requests of the annotated types the hypotheses
    of the competitive rule hold: a competitive cell with a positive
    placement has its scores computed, the highest amount winning. *)
Lemma typed_reachable_competitive_cell (room : Room.t) (gs : GameState.t) (cell : BoardCell.t) :
  typed_reachable room ->
  Room.game_state room = Some gs ->
  cell ∈ GameState.board gs ->
  NoDup (CellPlacement.team_id <$> BoardCell.placements cell)
  /\ Forall (fun p => 0 < CellPlacement.amount p < float_max_int)
            (BoardCell.placements cell).
Proof.
  intros Hreach Hgs Hcell.
  destruct (typed_reachable_well_formed room Hreach) as (_ & _ & Hstate).
  destruct (Hstate gs Hgs) as [Hboard _]. rewrite Forall_forall in Hboard.
  destruct (Hboard cell Hcell) as [Hnd Hall]. split; [done|].
  eapply Forall_impl; [exact Hall|]. intros p [_ [Hpos Hle]]. split; [done|].
  eapply Z.le_lt_trans; [exact Hle|]. reflexivity.
Qed.

(** In a room reached with requests of the annotated types the project's
    contributions name each team once, so the entries counted for the team
    threshold are the distinct teams. *)
Lemma typed_reachable_contributions (room : Room.t) (gs : GameState.t) (ps : ProjectStatus.t) :
  typed_reachable room ->
  Room.game_state room = Some gs ->
  GameState.project_status gs = Some ps ->
  NoDup (Contribution.team_id <$> ProjectStatus.contributing_teams ps)
  /\ Z.of_nat (length (positive_entries (ProjectStatus.contributing_teams ps)))
     = distinct_contributing_teams (ProjectStatus.contributing_teams ps).
Proof.
  intros Hreach Hgs Hps.
  destruct (typed_reachable_well_formed room Hreach) as (_ & _ & Hstate).
  destruct (Hstate gs Hgs) as [_ Hproject]. destruct (Hproject ps Hps) as [Hnd _].
  split; [done|]. unfold distinct_contributing_teams.
  rewrite remove_dups_NoDup, length_fmap; [done|].
  eapply sublist_NoDup; [exact Hnd|]. apply fmap_sublist, sublist_filter.
Qed.

(* ===================================================================== *)
(** * Part XI. Further properties of the backend                         *)
(* ===================================================================== *)

(** ** The end of a game *)

Lemma is_any_zero_get_zero_index (n : NationalIndices.t) :
  NationalIndices.is_any_zero n = true <-> is_Some (NationalIndices.get_zero_index n).
Proof.
  unfold NationalIndices.is_any_zero, NationalIndices.get_zero_index.
  repeat case_match; simpl; split; intros Hz; try done; try (by eexists);
    by destruct Hz.
Qed.

(** X1. [get_zero_index] names an index exactly when [is_any_zero] holds, and
    the index it names is the first one, in declaration order, that is at or
    below zero: its value is at most 0 and every index declared before it is
    positive. *)
Theorem get_zero_index_names_first_index_at_zero (n : NationalIndices.t) :
  (NationalIndices.is_any_zero n = true
   <-> is_Some (NationalIndices.get_zero_index n))
  /\ forall key,
       NationalIndices.get_zero_index n = Some key ->
       exists (i : nat) (f : NationalIndices.field),
         NationalIndices.fields !! i = Some f
         /\ NationalIndices.field_of key = Some f
         /\ NationalIndices.getattr n f <= 0
         /\ forall (j : nat) (f' : NationalIndices.field),
              (j < i)%nat -> NationalIndices.fields !! j = Some f' ->
              0 < NationalIndices.getattr n f'.
Proof.
  split; [apply is_any_zero_get_zero_index|].
  intros key. unfold NationalIndices.get_zero_index.
  destruct (NationalIndices.economy n <=? 0) eqn:E1;
    [intros [= <-]; exists 0%nat, NationalIndices.Economy|];
  [|destruct (NationalIndices.society n <=? 0) eqn:E2;
    [intros [= <-]; exists 1%nat, NationalIndices.Society|]];
  [| |destruct (NationalIndices.culture n <=? 0) eqn:E3;
    [intros [= <-]; exists 2%nat, NationalIndices.Culture|]];
  [| | |destruct (NationalIndices.integration n <=? 0) eqn:E4;
    [intros [= <-]; exists 3%nat, NationalIndices.Integration|]];
  [| | | |destruct (NationalIndices.environment n <=? 0) eqn:E5;
    [intros [= <-]; exists 4%nat, NationalIndices.Environment|]];
  [| | | | |destruct (NationalIndices.science n <=? 0) eqn:E6;
    [intros [= <-]; exists 5%nat, NationalIndices.Science|done]];
  (split; [reflexivity|]; split; [reflexivity|]; split; [simpl; lia|];
   intros j f' Hj Hf';
   do 6 (destruct j as [|j]; [injection Hf' as <-; simpl; lia|]); lia).
Qed.

(** *** Sorting by score *)

Lemma insert_desc_Permutation {A} (key : A -> Z) (x : A) (l : list A) :
  insert_desc key x l ≡ₚ x :: l.
Proof.
  induction l as [|y l IH]; simpl; [done|].
  destruct (key x <? key y); [|done].
  rewrite IH. apply Permutation_swap.
Qed.

Lemma sorted_desc_Permutation {A} (key : A -> Z) (l : list A) :
  sorted_desc key l ≡ₚ l.
Proof.
  induction l as [|x l IH]; simpl; [done|].
  by rewrite insert_desc_Permutation, IH.
Qed.

Lemma insert_desc_sorted {A} (key : A -> Z) (x : A) (l : list A) :
  StronglySorted (fun a b => key b <= key a) l ->
  StronglySorted (fun a b => key b <= key a) (insert_desc key x l).
Proof.
  induction 1 as [|y l Hs IH Hy]; simpl.
  - by repeat constructor.
  - destruct (key x <? key y) eqn:E.
    + constructor; [done|].
      rewrite insert_desc_Permutation. constructor; [lia|done].
    + constructor; [by constructor|].
      constructor; [lia|].
      eapply Forall_impl; [exact Hy|]. simpl. intros z Hz. lia.
Qed.

Lemma sorted_desc_sorted {A} (key : A -> Z) (l : list A) :
  StronglySorted (fun a b => key b <= key a) (sorted_desc key l).
Proof.
  induction l as [|x l IH]; simpl; [constructor|].
  by apply insert_desc_sorted.
Qed.

(** Stability: the elements with a given key come out in the order they went
    in. *)
Lemma insert_desc_filter {A} (key : A -> Z) (s : Z) (x : A) (l : list A) :
  filter (fun a => key a = s) (insert_desc key x l)
  = filter (fun a => key a = s) (x :: l).
Proof.
  induction l as [|y l IH]; simpl; [done|].
  destruct (key x <? key y) eqn:E; [|done].
  rewrite filter_cons, IH, !filter_cons.
  destruct (decide (key y = s)), (decide (key x = s)); try done. lia.
Qed.

Lemma sorted_desc_filter {A} (key : A -> Z) (s : Z) (l : list A) :
  filter (fun a => key a = s) (sorted_desc key l) = filter (fun a => key a = s) l.
Proof.
  induction l as [|x l IH]; simpl; [done|].
  by rewrite insert_desc_filter, !filter_cons, IH.
Qed.

Lemma final_rankings_fmap {B} (g : Ranking.t -> B) (h : Team.t -> B) (room : Room.t) :
  (forall i t, g (Ranking.mk (Z.of_nat i + 1) (Team.id t) (Team.name t)
                    (Region.name (Team.region t)) (Team.score t)) = h t) ->
  g <$> GameOverResult.final_rankings (get_game_over_result room)
  = h <$> sorted_desc Team.score (Room.teams room).
Proof.
  intros Hgh. unfold get_game_over_result. cbn [GameOverResult.final_rankings].
  rewrite fmap_imap. rewrite <- (imap_const h).
  apply imap_ext. intros i t _. apply Hgh.
Qed.

(** X2. The final rankings list every team of the room once, with its name,
    its region's name and its score; the entry at position [i] has rank
    [i + 1]; and scores never increase down the list. *)
Theorem final_rankings_rank_teams_by_score (room : Room.t) :
  let rankings := GameOverResult.final_rankings (get_game_over_result room) in
  (fun x => (Ranking.team_id x, Ranking.team_name x, Ranking.region x, Ranking.score x))
    <$> rankings
  ≡ₚ (fun t => (Team.id t, Team.name t, Region.name (Team.region t), Team.score t))
       <$> Room.teams room
  /\ (forall (i : nat) x, rankings !! i = Some x -> Ranking.rank x = Z.of_nat i + 1)
  /\ (forall (i j : nat) x y,
        (i <= j)%nat -> rankings !! i = Some x -> rankings !! j = Some y ->
        Ranking.score y <= Ranking.score x).
Proof.
  intros rankings. split; [|split].
  - subst rankings.
    rewrite (final_rankings_fmap _
               (fun t => (Team.id t, Team.name t, Region.name (Team.region t),
                          Team.score t))) by done.
    by rewrite sorted_desc_Permutation.
  - subst rankings. unfold get_game_over_result. cbn [GameOverResult.final_rankings].
    intros i x. rewrite list_lookup_imap.
    destruct (sorted_desc Team.score (Room.teams room) !! i); [|done].
    by intros [= <-].
  - intros i j x y Hij Hx Hy.
    assert (Ranking.score <$> rankings = Team.score <$> sorted_desc Team.score (Room.teams room))
      as Hscores by (by apply final_rankings_fmap).
    assert ((Team.score <$> sorted_desc Team.score (Room.teams room)) !! i
            = Some (Ranking.score x)) as Hi
      by (by rewrite <- Hscores, list_lookup_fmap, Hx).
    assert ((Team.score <$> sorted_desc Team.score (Room.teams room)) !! j
            = Some (Ranking.score y)) as Hj
      by (by rewrite <- Hscores, list_lookup_fmap, Hy).
    pose proof (sorted_desc_sorted Team.score (Room.teams room)) as Hsorted.
    clear Hscores Hx Hy. clearbody rankings. clear rankings.
    revert i j Hij Hi Hj.
    induction Hsorted as [|t l Hs IH Ht]; intros i j Hij Hi Hj; [done|].
    destruct i as [|i], j as [|j]; simpl in *; try lia.
    + injection Hi as <-. injection Hj as <-. lia.
    + injection Hi as <-.
      rewrite list_lookup_fmap in Hj.
      destruct (l !! j) as [u|] eqn:Hu; [|done]. injection Hj as <-.
      rewrite Forall_forall in Ht. apply Ht. by eapply list_elem_of_lookup_2.
    + apply (IH i j); [lia|done|done].
Qed.

(** X3. The ranking is stable: the teams that share a score are ranked in the
    order in which the room lists them. *)
Theorem final_rankings_keep_room_order_on_ties (room : Room.t) (s : Z) :
  Ranking.team_id
    <$> filter (fun x => Ranking.score x = s)
          (GameOverResult.final_rankings (get_game_over_result room))
  = Team.id <$> filter (fun t => Team.score t = s) (Room.teams room).
Proof.
  rewrite <- (sorted_desc_filter Team.score s (Room.teams room)).
  unfold get_game_over_result. cbn [GameOverResult.final_rankings].
  generalize (sorted_desc Team.score (Room.teams room)). intros l.
  assert (forall n,
    Ranking.team_id <$> filter (fun x => Ranking.score x = s)
      (imap (fun i t => Ranking.mk (Z.of_nat (n + i) + 1) (Team.id t) (Team.name t)
                          (Region.name (Team.region t)) (Team.score t)) l)
    = Team.id <$> filter (fun t => Team.score t = s) l) as Hgen.
  { induction l as [|t l IH]; intros n; [done|].
    cbn [imap]. rewrite !filter_cons. cbn [Ranking.score].
    specialize (IH (S n)).
    rewrite (imap_ext _ (fun i t => Ranking.mk (Z.of_nat (S n + i) + 1) (Team.id t) (Team.name t)
                          (Region.name (Team.region t)) (Team.score t)) l) 
      by (intros; simpl; do 2 f_equal; lia).
    destruct (decide (Team.score t = s)); [rewrite !fmap_cons; cbn [Ranking.team_id]; by rewrite IH|done]. }
  apply (Hgen 0%nat).
Qed.

Lemma is_any_zero_getattr (n : NationalIndices.t) :
  NationalIndices.is_any_zero n = true
  <-> exists f, NationalIndices.getattr n f <= 0.
Proof.
  unfold NationalIndices.is_any_zero. split.
  - intros Hz. repeat (apply orb_prop in Hz as [Hz|Hz]).
    + exists NationalIndices.Economy. simpl. lia.
    + exists NationalIndices.Society. simpl. lia.
    + exists NationalIndices.Culture. simpl. lia.
    + exists NationalIndices.Integration. simpl. lia.
    + exists NationalIndices.Environment. simpl. lia.
    + exists NationalIndices.Science. simpl. lia.
  - intros [f Hf]. destruct f; simpl in Hf;
      repeat (apply orb_true_intro; first [right; lia | left]); lia.
Qed.

(** X4. The reason of a game-over result is either [completed] or
    [index_zero], never [host_ended]: it is [index_zero] exactly when the
    game has started and one of its indices is at or below zero, and the
    failed index is then the one [get_zero_index] names.  The status of the
    room plays no part, so a game the host ends reports [completed] unless an
    index is at zero.  For a room whose game never started the result counts
    no turn and carries the default indices. *)
Theorem game_over_reason_is_completed_or_index_zero (room : Room.t) :
  let r := get_game_over_result room in
  (GameOverResult.reason r = "completed" \/ GameOverResult.reason r = "index_zero")
  /\ (GameOverResult.reason r = "index_zero"
      <-> exists gs f, Room.game_state room = Some gs
                       /\ NationalIndices.getattr (GameState.national_indices gs) f <= 0)
  /\ GameOverResult.failed_index r
     = (match Room.game_state room with
        | Some gs => NationalIndices.get_zero_index (GameState.national_indices gs)
        | None => None
        end)
  /\ (Room.game_state room = None ->
      GameOverResult.total_turns_played r = 0
      /\ GameOverResult.final_indices r = NationalIndices.default)
  /\ forall s, get_game_over_result (Room.with_status s room) = r.
Proof.
  intros r. subst r.
  assert (forall s, get_game_over_result (Room.with_status s room)
                    = get_game_over_result room) as Hstatus by reflexivity.
  revert Hstatus. unfold get_game_over_result.
  destruct (Room.game_state room) as [gs|] eqn:Hgs; cbn; intros Hstatus.
  - destruct (NationalIndices.is_any_zero (GameState.national_indices gs)) eqn:Hz; cbn.
    + split; [by right|]. split.
      { split; [intros _|done]. apply is_any_zero_getattr in Hz as [f Hf]. by exists gs, f. }
      done.
    + split; [by left|]. split; [split; [done|]|split].
      * intros (gs' & f & Heq & Hf). injection Heq as <-.
        assert (NationalIndices.is_any_zero (GameState.national_indices gs) = true)
          by (apply is_any_zero_getattr; eauto). congruence.
      * destruct (NationalIndices.get_zero_index _) eqn:Hi; [|done].
        assert (NationalIndices.is_any_zero (GameState.national_indices gs) = true)
          by (apply is_any_zero_get_zero_index; rewrite Hi; eauto). congruence.
      * done.
  - split; [by left|]. split; [split; [done|intros (gs & f & [=] & _)]|].
    done.
Qed.


(** ** Starting a game *)

(** X5. [start_game] checks the connected teams first and the status second:
    with fewer than three connected teams it raises the one error, with
    three or more in a room that is not waiting the other, and in both cases
    the room is left as it was.  Otherwise it returns: the room is playing
    turn 1 in the EVENT phase, stamped with the instant of the call and not
    paused, every index at 10, the event of turn 1 current, the board made
    of the twelve regular cells, with ids of their own, none of them the
    project's, and nothing placed; every team is reset to the turn's grant
    with nothing placed and nothing submitted, and keeps everything else,
    its score included. *)
Theorem start_game_needs_three_connected_teams_in_a_waiting_room
    (now : datetime) (room : Room.t) :
  let connected :=
    Z.of_nat (length (filter (fun t => Team.is_connected t = true) (Room.teams room))) in
  (connected < 3 ->
   GameService.start_game now room
   = (room, Raise (ValueError "Need at least 3 connected teams to start")))
  /\ (3 <= connected -> Room.status room <> WAITING ->
      GameService.start_game now room
      = (room, Raise (ValueError "Game already started")))
  /\ (3 <= connected -> Room.status room = WAITING ->
      exists gs,
        GameService.start_game now room
        = (Room.mk (Room.code room) (Room.host_name room) (Room.host_token room) PLAYING
             ((fun t => Team.mk (Team.id t) (Team.index t) (Team.name t) (Team.region t)
                          (Team.session_token t) (Team.score t)
                          (PInt game_config.RESOURCES_PER_TURN) [] false
                          (Team.is_connected t))
                <$> Room.teams room)
             (Some gs) (Room.created_at room),
           Ok tt)
        /\ GameState.current_turn gs = 1
        /\ GameState.current_phase gs = EVENT
        /\ GameState.phase_start_time gs = Some now
        /\ GameState.phase_time_limit gs = game_config.PHASE_EVENT_DURATION
        /\ GameState.is_paused gs = false
        /\ (forall f, NationalIndices.getattr (GameState.national_indices gs) f = 10)
        /\ GameState.current_event gs = events_config.get_event_by_turn 1
        /\ (exists ev, GameState.current_event gs = Some ev
                       /\ GameState.project_status gs
                          = Some (ProjectStatus.mk (PInt 0) [] (TurnEvent.min_total ev)
                                    (TurnEvent.min_teams ev) "pending"))
        /\ Z.of_nat (length (GameState.board gs)) = 12
        /\ NoDup (BoardCell.id <$> GameState.board gs)
        /\ Forall (fun c => BoardCell.placements c = []
                            /\ BoardCell.type c <> PROJECT
                            /\ BoardCell.id c <> board_config.PROJECT_CELL_ID
                            /\ BoardCell.id c = board_config.create_cell_id (BoardCell.position c))
                  (GameState.board gs)).
Proof.
  intros connected. unfold GameService.start_game. fold connected.
  split; [|split].
  - intros Hlt. destruct (Z.ltb_spec connected 3); [done|lia].
  - intros Hge Hst. destruct (Z.ltb_spec connected 3); [lia|].
    by rewrite bool_decide_false.
  - intros Hge Hst. destruct (Z.ltb_spec connected 3); [lia|].
    rewrite bool_decide_true by done. cbn [negb].
    eexists. split; [reflexivity|].
    cbn [GameState.current_turn GameState.current_phase GameState.phase_start_time
         GameState.phase_time_limit GameState.is_paused GameState.national_indices
         GameState.current_event GameState.project_status GameState.board].
    do 5 (split; [reflexivity|]).
    split; [by intros []|]. split; [reflexivity|].
    split; [eexists; split; reflexivity|].
    split; [reflexivity|].
    split; [apply (bool_decide_unpack _); vm_compute; reflexivity|].
    vm_compute. repeat constructor; done.
Qed.

Lemma start_game_needs_three_connected_teams_in_a_waiting_room_witness :
  exists gs,
    Room.game_state started_room = Some gs
    /\ Room.status started_room = PLAYING
    /\ GameState.current_turn gs = 1
    /\ Z.of_nat (length (GameState.board gs)) = 12.
Proof.
  destruct (start_game_needs_three_connected_teams_in_a_waiting_room "2026-01-01T09:01:00"
              (set_connected "team-2" true
                 (set_connected "team-1" true (set_connected "team-0" true sample_room))))
    as (_ & _ & Hstart).
  destruct Hstart as (gs & Heq & Hturn & _ & _ & _ & _ & _ & _ & _ & Hboard & _);
    [vm_compute; discriminate | reflexivity |].
  exists gs. unfold started_room. rewrite Heq. cbn [fst Room.game_state Room.status].
  done.
Defined.

(** ** Placing resources *)

Lemma placed_on_with_placements (c : string) (l : list Placement.t) (t : Team.t) :
  placed_on c (Team.with_placements l t)
  = match find_first (GameService.on_cell (JStr c)) l with
    | Some p => units (Placement.amount p)
    | None => 0
    end.
Proof. reflexivity. Qed.

Ltac case_on_cell p k :=
  destruct (decide (Placement.cell_id p = k));
  [rewrite ?(bool_decide_true (Placement.cell_id p = k)) in * by done
  |rewrite ?(bool_decide_false (Placement.cell_id p = k)) in * by done].

Lemma placed_on_update_first (c k : string) (a : Z) (l : list Placement.t)
    (cp : Placement.t) (t : Team.t) :
  find_first (GameService.on_cell (JStr k)) l = Some cp ->
  placed_on c (Team.with_placements
                 (update_first (GameService.on_cell (JStr k))
                    (Placement.with_amount (NInt a)) l) t)
  = if decide (c = k) then a else placed_on c (Team.with_placements l t).
Proof.
  unfold placed_on, GameService.on_cell. cbn [Team.placements Team.with_placements].
  destruct (decide (c = k)) as [->|Hck].
  - induction l as [|p l IH]; cbn [find_first update_first]; [done|].
    case_on_cell p k.
    + intros _. cbn [find_first Placement.with_amount Placement.cell_id].
      by rewrite bool_decide_true.
    + intros Hcp. cbn [find_first]. rewrite bool_decide_false by done. by apply IH.
  - induction l as [|p l IH]; cbn [find_first update_first]; [done|].
    case_on_cell p k.
    + intros _. cbn [find_first Placement.with_amount Placement.cell_id].
      by rewrite !bool_decide_false by congruence.
    + intros Hcp. cbn [find_first]. case_on_cell p c; [done|]. by apply IH.
Qed.

Lemma placed_on_list_remove (c k : string) (l : list Placement.t) (cp : Placement.t)
    (t : Team.t) :
  find_first (GameService.on_cell (JStr k)) l = Some cp ->
  NoDup (Placement.cell_id <$> l) ->
  exists l', list_remove Placement.eqb cp l = Ok l'
    /\ placed_on c (Team.with_placements l' t)
       = if decide (c = k) then 0 else placed_on c (Team.with_placements l t).
Proof.
  unfold placed_on, GameService.on_cell. cbn [Team.placements Team.with_placements].
  induction l as [|p l IH]; cbn [find_first list_remove]; [done|].
  rewrite fmap_cons. intros Hcp Hnd. apply NoDup_cons in Hnd as [Hnotin Hnd].
  case_on_cell p k.
  - injection Hcp as ->. rewrite Placement_eqb_refl.
    exists l. split; [done|]. subst k.
    destruct (decide (c = Placement.cell_id cp)) as [->|Hc].
    + assert (find_first (fun q => bool_decide (Placement.cell_id q = Placement.cell_id cp)) l
              = None) as ->; [|done].
      apply find_first_None, Forall_forall. intros q Hq.
      apply bool_decide_eq_false. intros Heq.
      apply Hnotin. rewrite <- Heq. by apply list_elem_of_fmap_2.
    + by rewrite bool_decide_false by congruence.
  - destruct (Placement.eqb p cp) eqn:Heq.
    { unfold Placement.eqb in Heq. apply andb_true_iff in Heq as [Heq _].
      apply bool_decide_eq_true in Heq.
      apply find_first_Some in Hcp as [_ Hcp].
      apply bool_decide_eq_true in Hcp. congruence. }
    destruct (IH Hcp Hnd) as (l' & -> & Hl'). cbn [rbind].
    eexists. split; [done|]. cbn [find_first].
    case_on_cell p c.
    + destruct (decide (c = k)); [congruence|done].
    + exact Hl'.
Qed.

Lemma placed_on_app (c k : string) (a : Z) (l : list Placement.t) (t : Team.t) :
  find_first (GameService.on_cell (JStr k)) l = None ->
  placed_on c (Team.with_placements (l ++ [Placement.mk k (NInt a)]) t)
  = if decide (c = k) then a else placed_on c (Team.with_placements l t).
Proof.
  unfold placed_on, GameService.on_cell. cbn [Team.placements Team.with_placements].
  induction l as [|p l IH]; cbn [find_first app].
  - intros _. cbn [Placement.cell_id Placement.amount units].
    destruct (decide (c = k)) as [->|Hc];
      [by rewrite bool_decide_true | by rewrite bool_decide_false by congruence].
  - case_on_cell p k; [done|]. intros Hnone.
    case_on_cell p c.
    + destruct (decide (c = k)); [congruence|done].
    + by apply IH.
Qed.

(** X6. In a room the backend reaches with requests of the annotated types, a
    placement of that kind that is accepted changes one team only, the first
    and only one with the given id, and of it the resources and the
    placements only: afterwards the team holds exactly the given amount on
    the given cell, what it holds on every other cell is as before, and its
    resources have gone down by the difference to what it held on the cell
    before.  What the room has besides its teams and its game state is
    untouched, and of the game state all but the board and the project. *)
Theorem place_resource_sets_the_amount_on_the_cell (room room' : Room.t)
    (team_id cell_id : string) (amount : Z) :
  typed_reachable room ->
  GameService.place_resource room team_id (JStr cell_id) (JInt amount) = (room', Ok tt) ->
  exists (i : nat) (team team' : Team.t),
    Room.teams room !! i = Some team
    /\ Team.id team = team_id
    /\ Room.teams room' = <[i := team']> (Room.teams room)
    /\ (forall c, placed_on c team'
                  = if decide (c = cell_id) then amount else placed_on c team)
    /\ (exists r, Team.resources team = PInt r
                  /\ Team.resources team' = PInt (r - (amount - placed_on cell_id team)))
    /\ team' = Team.with_placements (Team.placements team')
                 (Team.with_resources (Team.resources team') team)
    /\ Room.with_game_state (Room.game_state room) (Room.with_teams (Room.teams room) room')
       = room
    /\ exists gs gs',
         Room.game_state room = Some gs /\ Room.game_state room' = Some gs'
         /\ GameState.with_project_status (GameState.project_status gs)
              (GameState.with_board (GameState.board gs) gs') = gs.
Proof.
  intros Hreach. pose proof (typed_reachable_well_formed room Hreach) as (_ & Hcells & _).
  pose proof (within_budget_typed _ (typed_reachable_within_budget room Hreach)) as Htyped.
  unfold GameService.place_resource.
  destruct (Room.game_state room) as [gs|] eqn:Hgs; [|done].
  destruct (negb _); [done|].
  destruct (find_first (GameService.is_team team_id) (Room.teams room))
    as [team|] eqn:Hteam; [|done].
  destruct (Team.has_submitted team); [done|].
  assert (typed_team team) as [[r Hr] Hints].
  { rewrite Forall_forall in Htyped. by eapply Htyped, find_first_elem_of. }
  cbn [as_number to_num].
  assert (exists z,
            match find_first (GameService.on_cell (JStr cell_id)) (Team.placements team) with
            | Some p => Placement.amount p
            | None => NInt 0
            end = NInt z
            /\ placed_on cell_id team = z) as (z & -> & Hon).
  { unfold placed_on.
    destruct (find_first _ (Team.placements team)) as [cp|] eqn:Hcp; [|by exists 0].
    rewrite Forall_forall in Hints.
    destruct (Hints cp (find_first_elem_of _ _ _ Hcp)) as [z Hz].
    exists z. by rewrite Hz. }
  cbn [to_num]. rewrite num_sub_int. rewrite Hr, num_gt_int, is_negative_int.
  destruct (r <? amount - z); [done|].
  destruct (Z.ltb_spec amount 0) as [Hneg|Hneg]; [done|].
  rewrite num_sub_int, is_zero_int, is_positive_int.
  assert (NoDup (Placement.cell_id <$> Team.placements team)) as Hnd.
  { rewrite Forall_forall in Hcells. by eapply Hcells, find_first_elem_of. }
  pose proof (find_first_Some _ _ _ Hteam) as [_ Hid].
  apply bool_decide_eq_true in Hid.
  assert (forall ps,
    (forall c, placed_on c (Team.with_placements ps team)
               = if decide (c = cell_id) then amount else placed_on c team) ->
    GameService._sync_placements_to_board
       (Room.with_teams
          (update_first (GameService.is_team team_id)
             (fun _ => Team.with_placements ps
                         (Team.with_resources (PInt (r - (amount - z))) team))
             (Room.teams room)) room) = (room', Ok tt) ->
    exists (i : nat) (team0 team' : Team.t),
      Room.teams room !! i = Some team0
      /\ Team.id team0 = team_id
      /\ Room.teams room' = <[i := team']> (Room.teams room)
      /\ (forall c, placed_on c team'
                    = if decide (c = cell_id) then amount else placed_on c team0)
      /\ (exists r0, Team.resources team0 = PInt r0
                     /\ Team.resources team'
                        = PInt (r0 - (amount - placed_on cell_id team0)))
      /\ team' = Team.with_placements (Team.placements team')
                   (Team.with_resources (Team.resources team') team0)
      /\ Room.with_game_state (Some gs) (Room.with_teams (Room.teams room) room')
         = room
      /\ exists gs0 gs',
           Some gs = Some gs0 /\ Room.game_state room' = Some gs'
           /\ GameState.with_project_status (GameState.project_status gs0)
                (GameState.with_board (GameState.board gs0) gs') = gs0) as Hfinish.
  { intros ps Hps Hsync.
    assert (room' = fst (GameService._sync_placements_to_board
       (Room.with_teams
          (update_first (GameService.is_team team_id)
             (fun _ => Team.with_placements ps
                         (Team.with_resources (PInt (r - (amount - z))) team))
             (Room.teams room)) room))) as -> by (by rewrite Hsync).
    clear Hsync.
    destruct (update_first_insert (GameService.is_team team_id)
                (fun _ => Team.with_placements ps
                            (Team.with_resources (PInt (r - (amount - z))) team))
                (Room.teams room) team Hteam) as (j & Hj & _ & Hupd).
    exists j, team, (Team.with_placements ps
                 (Team.with_resources (PInt (r - (amount - z))) team)).
    split; [done|]. split; [done|]. rewrite teams_sync. cbn [Room.teams Room.with_teams].
    split; [done|]. split; [exact Hps|].
    split; [exists r; split; [done|]; by rewrite Hon|]. split; [done|].
    unfold GameService._sync_placements_to_board.
    cbn [Room.game_state Room.with_teams]. rewrite Hgs.
    destruct (GameService.sync_teams _ _) as [st res]. cbn [fst].
    split; [destruct room; cbn in *; by subst|].
    eexists gs, _. split; [done|]. split; [reflexivity|]. by destruct gs. }
  cbn [Team.placements Team.with_resources].
  destruct (find_first (GameService.on_cell (JStr cell_id)) (Team.placements team))
    as [cp|] eqn:Hcp.
  - destruct (Z.eqb_spec amount 0) as [->|Hnz].
    + destruct (placed_on_list_remove cell_id cell_id _ _ team Hcp Hnd) as (l' & Hrm & _).
      rewrite Hrm. apply Hfinish. intros c.
      destruct (placed_on_list_remove c cell_id _ _ team Hcp Hnd) as (l'' & Hrm' & Hc).
      rewrite Hrm in Hrm'. injection Hrm' as <-. rewrite Hc.
      destruct (decide (c = cell_id)); [done|]. by destruct team.
    + apply Hfinish. intros c.
      rewrite (placed_on_update_first c cell_id amount _ cp team Hcp).
      destruct (decide (c = cell_id)); [done|]. by destruct team.
  - destruct (Z.ltb_spec 0 amount) as [Hpos|Hzero].
    + cbn [Placement.new validate_str validate_int rbind].
      apply Hfinish. intros c. rewrite (placed_on_app c cell_id amount _ team Hcp).
      destruct (decide (c = cell_id)); [done|]. by destruct team.
    + apply Hfinish. intros c.
      destruct (decide (c = cell_id)) as [->|Hc]; [|by destruct team].
      rewrite placed_on_with_placements, Hcp. lia.
Qed.

Lemma place_resource_sets_the_amount_on_the_cell_witness :
  exists room' team',
    GameService.place_resource action_room "team-0" (JStr "cell-0-0") (JInt 10)
    = (room', Ok tt)
    /\ Room.teams room' !! 0%nat = Some team'
    /\ placed_on "cell-0-0" team' = 10
    /\ Team.resources team' = PInt 4.
Proof.
  destruct (GameService.place_resource action_room "team-0" (JStr "cell-0-0") (JInt 10))
    as [room' r] eqn:Hplace.
  assert (r = Ok tt) as -> by (by vm_compute in Hplace; injection Hplace as _ <-).
  destruct (place_resource_sets_the_amount_on_the_cell action_room room'
              "team-0" "cell-0-0" 10 (action_room_reachable _) Hplace)
    as (i & team & team' & Hi & Hid & Hteams & Hon & (r & Hr & Hres) & _).
  assert (i = 0%nat) as ->.
  { destruct i as [|[|[|[|[|i]]]]]; [done| | | | |]; vm_compute in Hi;
      try done; injection Hi as <-; vm_compute in Hid; done. }
  vm_compute in Hi. injection Hi as <-.
  exists room', team'. split; [done|]. split.
  - rewrite Hteams. reflexivity.
  - split; [by rewrite Hon, decide_True|]. rewrite Hres.
    vm_compute in Hr. injection Hr as <-. reflexivity.
Defined.

(** ** Pausing and resuming *)

(** X7. Before a game has started, pausing and resuming change nothing.  Once
    it has, pausing and then resuming leaves the turn, the phase, its time
    limit, the indices, the board and the teams as they were, and sets the
    status to PLAYING -- whatever it was before the pause -- clears the pause
    flag and moves the start of the phase to the instant of the resumption:
    the time the phase had run before the pause is not kept. *)
Theorem resume_after_pause_restarts_the_phase (now : datetime) (room : Room.t) :
  (Room.game_state room = None ->
   GameService.pause_game room = room /\ GameService.resume_game now room = room)
  /\ (forall gs,
        Room.game_state room = Some gs ->
        Room.status (GameService.pause_game room) = PAUSED
        /\ GameService.resume_game now (GameService.pause_game room)
           = Room.with_status PLAYING
               (Room.with_game_state
                  (Some (GameState.with_phase_start_time (Some now)
                           (GameState.with_is_paused false gs)))
                  room)
        /\ GameState.paused_time_remaining
             <$> Room.game_state (GameService.resume_game now (GameService.pause_game room))
           = Some (GameState.paused_time_remaining gs)).
Proof.
  unfold GameService.pause_game, GameService.resume_game. split.
  - intros ->. done.
  - intros gs ->. cbn. done.
Qed.

Lemma resume_after_pause_restarts_the_phase_witness :
  exists gs,
    Room.game_state action_room = Some gs
    /\ Room.status (GameService.resume_game "2026-01-01T09:30:00"
                      (GameService.pause_game action_room)) = PLAYING.
Proof.
  destruct (Room.game_state action_room) as [gs|] eqn:Hgs; [|by vm_compute in Hgs].
  exists gs. split; [done|].
  destruct (resume_after_pause_restarts_the_phase "2026-01-01T09:30:00" action_room)
    as [_ Hresume].
  destruct (Hresume gs Hgs) as (_ & -> & _). reflexivity.
Defined.

(** ** The result of a turn *)

Lemma score_teams_entries (gs : GameState.t) (tts : dict.t num) (project_success : bool)
    (teams : list Team.t) (l : list TeamScore.t) :
  snd (GameService.score_teams gs tts project_success teams) = Ok l ->
  length l = length teams
  /\ forall (i : nat) t,
       teams !! i = Some t ->
       exists ts,
         l !! i = Some ts
         /\ TeamScore.team_id ts = Team.id t
         /\ GameService.turn_score_of gs tts project_success t = Ok (TeamScore.turn_score ts)
         /\ TeamScore.total_score ts = Team.score t + TeamScore.turn_score ts
         /\ fst (GameService.score_teams gs tts project_success teams) !! i
            = Some (Team.with_score (Team.score t + TeamScore.turn_score ts) t).
Proof.
  revert l. induction teams as [|t teams IH]; intros l; cbn [GameService.score_teams].
  - intros [= <-]. split; [done|]. intros i t. by rewrite lookup_nil.
  - destruct (GameService.turn_score_of gs tts project_success t) as [turn_score|e] eqn:Hts;
      [|done]. cbn [fst snd].
    destruct (snd (GameService.score_teams gs tts project_success teams)) as [l'|e] eqn:Hl';
      [|done]. cbn [rbind]. intros [= <-].
    destruct (IH l' eq_refl) as [Hlen Hentries]. split; [simpl; by rewrite Hlen|].
    intros [|i] t'; simpl.
    + intros [= <-]. eexists. split; [reflexivity|]. done.
    + intros Ht'. by apply Hentries.
Qed.

(** X8. When [advance_phase] returns a turn result, the room was in the
    ACTION phase and is now in RESOLUTION; the result carries the turn's
    number and the indices as the room now has them; and it has one entry per
    team, in the room's order, that reports the team's id, the score of the
    turn and the new total truthfully: the team's score has gone up by
    exactly the turn's score, the team is marked as submitted, and nothing
    else of it has changed. *)
Theorem turn_result_reports_each_teams_score (now : datetime) (room room' : Room.t)
    (phase : GamePhase) (result : TurnResult.t) :
  GameService.advance_phase now room = (room', Ok (phase, Some result)) ->
  exists gs gs',
    Room.game_state room = Some gs
    /\ GameState.current_phase gs = ACTION
    /\ Room.game_state room' = Some gs'
    /\ GameState.current_phase gs' = RESOLUTION
    /\ phase = RESOLUTION
    /\ TurnResult.turn result = GameState.current_turn gs
    /\ GameState.current_turn gs' = GameState.current_turn gs
    /\ TurnResult.new_indices result = GameState.national_indices gs'
    /\ length (TurnResult.team_scores result) = length (Room.teams room)
    /\ forall (i : nat) t,
         Room.teams room !! i = Some t ->
         exists ts,
           TurnResult.team_scores result !! i = Some ts
           /\ TeamScore.team_id ts = Team.id t
           /\ TeamScore.total_score ts = Team.score t + TeamScore.turn_score ts
           /\ Room.teams room' !! i
              = Some (Team.with_score (Team.score t + TeamScore.turn_score ts)
                        (Team.with_has_submitted true t)).
Proof.
  unfold GameService.advance_phase.
  destruct (Room.game_state room) as [gs|] eqn:Hgs; [|done].
  destruct (GameState.current_phase gs) eqn:Hphase; try done.
  - match goal with |- context [GameService._process_turn ?r] => set (room1 := r) end.
    pose proof (process_turn_same_clock room1 _ eq_refl) as Hclock.
    unfold GameService._process_turn in *. subst room1.
    cbn [Room.game_state Room.with_teams Room.with_game_state Room.teams] in *.
    destruct (GameService.score_cells _ _) as [[cell_results tts1]|e]; [|done].
    destruct (GameService.process_project _ tts1) as [gs1 [po|e]]; [|done].
    destruct (snd (GameService.score_teams gs1 (GameService.po_team_turn_scores po)
                     (GameService.po_project_success po)
                     (map (Team.with_has_submitted true) (Room.teams room))))
      as [team_scores|e] eqn:Hscores; [|done].
    cbn [fst Room.game_state Room.with_game_state default] in *.
    intros [= <- <- <-].
    destruct Hclock as (gs' & [= <-] & Hturn & Hph & _).
    cbn in Hturn, Hph.
    exists gs. eexists. split; [done|]. split; [done|].
    cbn [Room.game_state Room.with_game_state Room.teams Room.with_teams].
    split; [reflexivity|].
    cbn [GameService.stamp GameState.current_phase GameState.with_is_paused
         GameState.with_phase_start_time GameState.current_turn
         GameState.national_indices TurnResult.turn TurnResult.new_indices
         TurnResult.team_scores].
    split; [done|]. split; [done|]. split; [done|]. split; [done|]. split; [done|].
    destruct (score_teams_entries _ _ _ _ _ Hscores) as [Hlen Hentries].
    split; [by rewrite Hlen, length_map|].
    intros i t Hi.
    destruct (Hentries i (Team.with_has_submitted true t)) as (ts & Hts & Hid & _ & Htot & Hnew).
    { change (map ?f ?l) with (f <$> l). by rewrite list_lookup_fmap, Hi. }
    exists ts. split; [done|]. split; [done|]. split; [done|]. exact Hnew.
  - repeat case_match; done.
Qed.

Lemma turn_result_reports_each_teams_score_witness :
  exists room' result,
    GameService.advance_phase "2026-01-01T09:02:15" action_room
    = (room', Ok (RESOLUTION, Some result))
    /\ length (TurnResult.team_scores result) = 5%nat.
Proof.
  destruct (GameService.advance_phase "2026-01-01T09:02:15" action_room)
    as [room' [[phase [result|]]|e]] eqn:Hadv;
    try (by vm_compute in Hadv).
  destruct (turn_result_reports_each_teams_score _ _ _ _ _ Hadv)
    as (gs & gs' & _ & _ & _ & _ & -> & _ & _ & _ & Hlen & _).
  exists room', result. split; [done|]. rewrite Hlen. reflexivity.
Defined.


(** ** The board mirrors the teams' placements *)

Lemma update_first_is_cell (k : string) (f : BoardCell.t -> BoardCell.t)
    (board : list BoardCell.t) :
  NoDup (BoardCell.id <$> board) ->
  update_first (GameService.is_cell k) f board
  = map (fun c => if decide (BoardCell.id c = k) then f c else c) board.
Proof.
  induction board as [|c board IH]; [done|].
  rewrite fmap_cons. intros Hnd. apply NoDup_cons in Hnd as [Hnotin Hnd].
  cbn [update_first map]. unfold GameService.is_cell at 1.
  destruct (decide (BoardCell.id c = k)) as [Hk|Hk].
  - rewrite (bool_decide_true _ Hk). f_equal.
    rewrite <- (map_id board) at 1. apply map_ext_in. intros c' Hc'.
    destruct (decide (BoardCell.id c' = k)) as [Hk'|]; [|done].
    destruct Hnotin. rewrite Hk, <- Hk'. apply list_elem_of_fmap_2.
    by apply list_elem_of_In.
  - rewrite (bool_decide_false _ Hk). f_equal. by apply IH.
Qed.

Lemma board_with_placements_twice (l l' : list CellPlacement.t) (c : BoardCell.t) :
  BoardCell.with_placements l (BoardCell.with_placements l' c)
  = BoardCell.with_placements l c.
Proof. by destruct c. Qed.

(** What the rounds of the loop put on a cell and on the project. *)
Lemma placements_on_rounds (cell_id : string) (teams : list Team.t) :
  placements_on cell_id teams
  = (fun r => CellPlacement.mk (fst r) (units (Placement.amount (snd r))))
      <$> filter (fun r => Placement.cell_id (snd r) = cell_id) (sync_rounds teams).
Proof.
  unfold placements_on. induction teams as [|t teams IH]; [done|].
  rewrite bind_cons, sync_rounds_cons, filter_app, fmap_app, IH. f_equal.
  unfold team_placements_on. generalize (Team.placements t) as l.
  induction l as [|p l IHl]; [done|]. rewrite fmap_cons.
  destruct (decide (Placement.cell_id p = cell_id)) as [Hp|Hp].
  - rewrite (filter_cons_True _ p l Hp), filter_cons_True by done.
    rewrite !fmap_cons, IHl. done.
  - rewrite (filter_cons_False _ p l Hp), filter_cons_False by done. done.
Qed.

Lemma contributions_of_rounds (teams : list Team.t) :
  contributions_of teams
  = (fun r => Contribution.mk (fst r) (Placement.amount (snd r)))
      <$> filter (fun r => Placement.cell_id (snd r) = board_config.PROJECT_CELL_ID)
            (sync_rounds teams).
Proof.
  unfold contributions_of. induction teams as [|t teams IH]; [done|].
  rewrite bind_cons, sync_rounds_cons, filter_app, fmap_app, IH. f_equal.
  unfold team_contributions. generalize (Team.placements t) as l.
  induction l as [|p l IHl]; [done|]. rewrite fmap_cons.
  destruct (decide (Placement.cell_id p = board_config.PROJECT_CELL_ID)) as [Hp|Hp].
  - rewrite (filter_cons_True _ p l Hp), filter_cons_True by done.
    rewrite !fmap_cons, IHl. done.
  - rewrite (filter_cons_False _ p l Hp), filter_cons_False by done. done.
Qed.

Lemma update_first_not_found {A} (p : A -> bool) (f : A -> A) (l : list A) :
  find_first p l = None -> update_first p f l = l.
Proof.
  induction l as [|x l IH]; [done|]. cbn [find_first update_first].
  destruct (p x); [done|]. intros H. by rewrite IH.
Qed.

(** One round of the loop for an amount that is an [int]. *)
Lemma sync_placement_int (team_id : string)
    (st : list BoardCell.t * option ProjectStatus.t) (p : Placement.t) (a : Z) :
  Placement.amount p = NInt a ->
  (forall ps, snd st = Some ps -> exists z, ProjectStatus.total_contributed ps = PInt z) ->
  GameService.sync_placement team_id st p
  = Ok (if decide (Placement.cell_id p = board_config.PROJECT_CELL_ID)
        then (fst st,
              (fun ps => ProjectStatus.with_contributions
                           (PInt (int_of_total ps + a))
                           (ProjectStatus.contributing_teams ps
                            ++ [Contribution.mk team_id (NInt a)])
                           ps)
                <$> snd st)
        else (update_first (GameService.is_cell (Placement.cell_id p))
                (fun c => BoardCell.with_placements
                            (BoardCell.placements c ++ [CellPlacement.mk team_id a]) c)
                (fst st),
              snd st)).
Proof.
  intros Ha Htotal. unfold GameService.sync_placement. rewrite Ha.
  destruct (decide (Placement.cell_id p = board_config.PROJECT_CELL_ID)) as [Hp|Hp].
  - destruct st as [board [ps|]]; [|done]. cbn [fst snd] in *.
    destruct (Htotal ps eq_refl) as [z Hz]. cbn [fmap option_fmap option_map].
    unfold int_of_total. rewrite Hz. done.
  - destruct (find_first _ (fst st)) eqn:Hfind; [done|].
    rewrite update_first_not_found by done. by destruct st.
Qed.

(** The double loop of [_sync_placements_to_board] over amounts that are
    [int]s: it returns, every cell has received the placements on it, the
    project the contributions and their sum. *)
Lemma sync_rounds_spec (l : list (string * Placement.t)) (board : list BoardCell.t)
    (ps0 : option ProjectStatus.t) :
  NoDup (BoardCell.id <$> board) ->
  Forall (fun c => BoardCell.id c <> board_config.PROJECT_CELL_ID) board ->
  Forall (fun r => is_int (Placement.amount (snd r))) l ->
  (forall ps, ps0 = Some ps -> exists z, ProjectStatus.total_contributed ps = PInt z) ->
  GameService.sfold (fun st r => GameService.sync_placement (fst r) st (snd r))
    (board, ps0) l
  = ((map (fun c =>
             BoardCell.with_placements
               (BoardCell.placements c
                ++ ((fun r => CellPlacement.mk (fst r) (units (Placement.amount (snd r))))
                      <$> filter (fun r => Placement.cell_id (snd r) = BoardCell.id c) l))
               c)
          board,
      (fun ps =>
         ProjectStatus.with_contributions
           (PInt (int_of_total ps
                  + sum_int ((fun r => units (Placement.amount (snd r)))
                               <$> filter (fun r => Placement.cell_id (snd r)
                                                    = board_config.PROJECT_CELL_ID) l)))
           (ProjectStatus.contributing_teams ps
            ++ ((fun r => Contribution.mk (fst r) (Placement.amount (snd r)))
                  <$> filter (fun r => Placement.cell_id (snd r)
                                       = board_config.PROJECT_CELL_ID) l))
           ps)
        <$> ps0),
     Ok tt).
Proof.
  revert board ps0.
  induction l as [|[tid p] l IH]; intros board ps0 Hnd Hne Hints Htotal.
  - cbn [GameService.sfold]. f_equal. f_equal.
    + rewrite <- (map_id board) at 1. apply map_ext. intros c.
      rewrite filter_nil. cbn. rewrite app_nil_r. by destruct c.
    + destruct ps0 as [ps|]; [|done]. destruct (Htotal ps eq_refl) as [z Hz].
      rewrite filter_nil. cbn. rewrite app_nil_r. unfold int_of_total. rewrite Hz.
      unfold sum_int. cbn. rewrite Z.add_0_r, <- Hz. by destruct ps.
  - apply Forall_cons in Hints as [[a Ha] Hints]. cbn [fst snd] in Ha.
    cbn [GameService.sfold fst snd].
    rewrite (sync_placement_int tid (board, ps0) p a Ha Htotal). cbn [fst snd].
    destruct (decide (Placement.cell_id p = board_config.PROJECT_CELL_ID)) as [Hp|Hp].
    + rewrite (IH board _ Hnd Hne Hints).
      2:{ intros ps'. destruct ps0; [|done]. intros [= <-]. by eexists. }
      f_equal. f_equal.
      * apply map_ext_in. intros c Hc.
        rewrite filter_cons_False; [done|]. cbn [snd].
        rewrite Forall_forall in Hne. intros Heq.
        apply (Hne c); [by apply list_elem_of_In | congruence].
      * rewrite filter_cons_True by done. rewrite !fmap_cons, sum_int_cons.
        cbn [fst snd]. rewrite Ha. cbn [units].
        destruct ps0 as [ps|]; [|done]. cbn [fmap option_fmap option_map].
        destruct ps as [total cs min_total min_teams status].
        unfold ProjectStatus.with_contributions, int_of_total.
        cbn [ProjectStatus.total_contributed ProjectStatus.contributing_teams
             ProjectStatus.min_total ProjectStatus.min_teams ProjectStatus.status].
        rewrite <- app_assoc. cbn [app]. do 3 f_equal. lia.
    + rewrite (update_first_is_cell _ _ _ Hnd). rewrite IH; try done.
      * f_equal. f_equal.
        -- rewrite map_map. apply map_ext. intros c.
           destruct (decide (BoardCell.id c = Placement.cell_id p)) as [Hc|Hc].
           ++ rewrite board_with_placements_twice.
              cbn [BoardCell.id BoardCell.with_placements BoardCell.placements].
              rewrite filter_cons_True by done.
              rewrite fmap_cons, <- app_assoc. cbn [fst snd]. by rewrite Ha.
           ++ rewrite filter_cons_False by (cbn [snd]; congruence). done.
        -- by rewrite filter_cons_False by done.
      * rewrite <- list_fmap_compose.
        erewrite list_fmap_ext; [exact Hnd|]. intros i c _. cbn.
        by destruct (decide _).
      * apply Forall_map. eapply Forall_impl; [exact Hne|]. intros c Hc. cbn.
        by destruct (decide _).
Qed.

Lemma initial_board_ids :
  NoDup (BoardCell.id <$> initial_board)
  /\ Forall (fun c => BoardCell.id c <> board_config.PROJECT_CELL_ID) initial_board.
Proof.
  split.
  - apply (bool_decide_unpack _). vm_compute. reflexivity.
  - vm_compute. repeat constructor; done.
Qed.

Lemma board_layout_ids (board : list BoardCell.t) :
  BoardCell.with_placements [] <$> board = initial_board ->
  NoDup (BoardCell.id <$> board)
  /\ Forall (fun c => BoardCell.id c <> board_config.PROJECT_CELL_ID) board.
Proof.
  intros Hlayout. destruct initial_board_ids as [Hnd Hne].
  rewrite <- Hlayout in Hnd, Hne. split.
  - rewrite <- list_fmap_compose in Hnd.
    erewrite list_fmap_ext; [exact Hnd|]. done.
  - rewrite Forall_forall in Hne |- *. intros c Hc.
    apply (Hne (BoardCell.with_placements [] c)). by apply list_elem_of_fmap_2.
Qed.

Lemma board_layout_map (f : BoardCell.t -> list CellPlacement.t) (board : list BoardCell.t) :
  BoardCell.with_placements []
    <$> map (fun c => BoardCell.with_placements (f c) c) board
  = BoardCell.with_placements [] <$> board.
Proof.
  change (map ?g ?l) with (g <$> l). rewrite <- list_fmap_compose.
  apply list_fmap_ext. intros i c _. cbn. apply board_with_placements_twice.
Qed.

(** [_sync_placements_to_board] on a board with the initial layout, for
    teams whose amounts are [int]s. *)
Lemma sync_placements_to_board_spec (room : Room.t) (gs : GameState.t) :
  Room.game_state room = Some gs ->
  BoardCell.with_placements [] <$> GameState.board gs = initial_board ->
  Forall int_amounts (Room.teams room) ->
  GameService._sync_placements_to_board room
  = (Room.with_game_state
       (Some (GameState.with_project_status
                ((fun ps => ProjectStatus.with_contributions
                              (PInt (sum_int ((fun c => units (Contribution.amount c))
                                                <$> contributions_of (Room.teams room))))
                              (contributions_of (Room.teams room)) ps)
                   <$> GameState.project_status gs)
                (GameState.with_board
                   (map (fun c => BoardCell.with_placements
                                    (placements_on (BoardCell.id c) (Room.teams room)) c)
                        (GameState.board gs))
                   gs)))
       room,
     Ok tt).
Proof.
  intros Hgs Hlayout Hints. unfold GameService._sync_placements_to_board. rewrite Hgs.
  destruct (board_layout_ids _ Hlayout) as [Hnd Hne].
  unfold GameService.sync_teams. fold (sync_rounds (Room.teams room)).
  rewrite sync_rounds_spec.
  - cbn [fst snd]. do 4 f_equal.
    + destruct (GameState.project_status gs) as [ps|]; [|done].
      cbn [fmap option_fmap option_map]. f_equal.
      rewrite contributions_of_rounds, <- list_fmap_compose. by destruct ps.
    + f_equal. rewrite map_map. apply map_ext. intros c.
      rewrite board_with_placements_twice. cbn [BoardCell.placements BoardCell.id
        BoardCell.with_placements app]. by rewrite placements_on_rounds.
  - change (map ?g ?l) with (g <$> l). rewrite <- list_fmap_compose.
    erewrite list_fmap_ext; [exact Hnd|]. done.
  - apply Forall_map. eapply Forall_impl; [exact Hne|]. done.
  - unfold sync_rounds. apply Forall_bind. eapply Forall_impl; [exact Hints|].
    intros t Ht. apply Forall_fmap. eapply Forall_impl; [exact Ht|]. done.
  - intros ps. destruct (GameState.project_status gs); [|done].
    intros [= <-]. by eexists.
Qed.

Lemma placements_on_ext (cell_id : string) (teams teams' : list Team.t) :
  Team.id <$> teams' = Team.id <$> teams ->
  Team.placements <$> teams' = Team.placements <$> teams ->
  placements_on cell_id teams' = placements_on cell_id teams
  /\ contributions_of teams' = contributions_of teams.
Proof.
  unfold placements_on, contributions_of. revert teams'.
  induction teams as [|t teams IH]; intros [|t' teams']; try done.
  rewrite !fmap_cons. intros [= Hid Hids] [= Hpl Hpls].
  destruct (IH teams' Hids Hpls) as [IH1 IH2].
  rewrite !bind_cons, IH1, IH2.
  unfold team_placements_on, team_contributions. by rewrite Hid, Hpl.
Qed.

Lemma placements_on_nothing (cell_id : string) (teams : list Team.t) :
  Forall (fun t => Team.placements t = []) teams ->
  placements_on cell_id teams = [] /\ contributions_of teams = [].
Proof.
  unfold placements_on, contributions_of.
  induction 1 as [|t teams Ht _ [IH1 IH2]]; [done|].
  rewrite !bind_cons, IH1, IH2. unfold team_placements_on, team_contributions.
  by rewrite Ht.
Qed.

(** What [_process_turn] does to the game state: the status of the project
    and the indices change, nothing else does. *)
Lemma process_turn_game_state (room : Room.t) (gs : GameState.t) :
  Room.game_state room = Some gs ->
  exists gs',
    Room.game_state (fst (GameService._process_turn room)) = Some gs'
    /\ GameState.with_national_indices (GameState.national_indices gs)
         (GameState.with_project_status (GameState.project_status gs) gs') = gs
    /\ match GameState.project_status gs, GameState.project_status gs' with
       | Some ps, Some ps' => ProjectStatus.with_status (ProjectStatus.status ps) ps' = ps
       | None, None => True
       | _, _ => False
       end.
Proof.
  intros Hgs. unfold GameService._process_turn. rewrite Hgs.
  assert (GameState.with_national_indices (GameState.national_indices gs)
            (GameState.with_project_status (GameState.project_status gs) gs) = gs
          /\ match GameState.project_status gs, GameState.project_status gs with
             | Some ps, Some ps' => ProjectStatus.with_status (ProjectStatus.status ps) ps' = ps
             | None, None => True
             | _, _ => False
             end) as Hsame.
  { split; [by destruct gs|]. destruct (GameState.project_status gs) as [[]|]; done. }
  destruct (GameService.score_cells _ _) as [[cell_results tts1]|e];
    [|exists gs; cbn [fst]; split; [done|exact Hsame]].
  assert (GameState.with_national_indices (GameState.national_indices gs)
            (GameState.with_project_status (GameState.project_status gs)
               (fst (GameService.process_project gs tts1))) = gs
          /\ match GameState.project_status gs,
                   GameState.project_status (fst (GameService.process_project gs tts1)) with
             | Some ps, Some ps' => ProjectStatus.with_status (ProjectStatus.status ps) ps' = ps
             | None, None => True
             | _, _ => False
             end) as Hproject.
  { unfold GameService.process_project.
    destruct (GameState.project_status gs) as [ps|] eqn:Hps;
      [|cbn [fst]; rewrite Hps; split; [by destruct gs; cbn in *; subst|done]].
    destruct (GameState.current_event gs);
      [|cbn [fst]; rewrite Hps; split; [by destruct gs; cbn in *; subst|by destruct ps]].
    destruct (ScoringService.calculate_project_result _ _ _);
      [|cbn [fst]; rewrite Hps; split; [by destruct gs; cbn in *; subst|by destruct ps]].
    destruct (GameService.add_scores _ _); cbn;
      (split; [by destruct gs; cbn in *; subst|by destruct ps]). }
  destruct (GameService.process_project gs tts1) as [gs1 [po|e]]; cbn [fst] in *.
  - exists gs1. destruct (snd (GameService.score_teams _ _ _ _)); cbn; done.
  - exists gs1. done.
Qed.

(** *** The invariants *)

(** An operation that keeps the ids and the placements of the teams, does not
    set the status back to WAITING, and keeps of the game state the turn, the
    event, the board and the project but for its status, with a time limit
    that fits the phase, keeps the state consistent and the board in sync. *)
Lemma invariants_frame (room room' : Room.t) :
  Team.id <$> Room.teams room' = Team.id <$> Room.teams room ->
  Team.placements <$> Room.teams room' = Team.placements <$> Room.teams room ->
  (Room.status room' = WAITING -> Room.status room = WAITING) ->
  match Room.game_state room, Room.game_state room' with
  | None, None => True
  | Some gs, Some gs' =>
      GameState.current_turn gs' = GameState.current_turn gs
      /\ GameState.current_event gs' = GameState.current_event gs
      /\ GameState.paused_time_remaining gs' = GameState.paused_time_remaining gs
      /\ GameState.board gs' = GameState.board gs
      /\ GameState.phase_time_limit gs' = phase_duration (GameState.current_phase gs')
      /\ match GameState.project_status gs, GameState.project_status gs' with
         | Some ps, Some ps' => ProjectStatus.with_status (ProjectStatus.status ps) ps' = ps
         | None, None => True
         | _, _ => False
         end
  | _, _ => False
  end ->
  game_state_consistent room /\ board_in_sync room ->
  game_state_consistent room' /\ board_in_sync room'.
Proof.
  intros Hids Hpl Hstatus Hstate [[Hwaiting Hok] Hsync].
  destruct (Room.game_state room) as [gs|] eqn:Hgs,
           (Room.game_state room') as [gs'|] eqn:Hgs'; try done.
  - destruct Hstate as (Hturn & Hev & Hptr & Hboard & Hlimit & Hps).
    destruct (Hok gs eq_refl) as (Ht & He & (ev & ps & Hev' & Hps' & Hmt & Hmn) & _ & Hp & Hl).
    split; [split|].
    + intros Hw. specialize (Hwaiting (Hstatus Hw)). done.
    + intros g. rewrite Hgs'. intros [= <-]. unfold game_state_ok.
      rewrite Hturn, Hev, Hptr, Hboard. split; [done|]. split; [done|].
      split; [|done]. rewrite Hps' in Hps.
      destruct (GameState.project_status gs') as [ps1|]; [|done].
      exists ev, ps1. split; [done|]. split; [done|].
      rewrite <- Hps in Hmt, Hmn. by destruct ps1.
    + intros g. rewrite Hgs'. intros [= <-].
      destruct (Hsync gs Hgs) as [Hcells Hproject]. rewrite Hboard. split.
      * eapply Forall_impl; [exact Hcells|]. intros c ->.
        symmetry. by apply placements_on_ext.
      * intros ps1 Hps1. rewrite Hps1 in Hps.
        destruct (GameState.project_status gs) as [ps0|]; [|done].
        destruct (Hproject ps0 eq_refl) as [Hcs Htotal].
        rewrite <- Hps in Hcs, Htotal. destruct ps1 as [total cs mt mn st].
        cbn in Hcs, Htotal |- *. subst total cs.
        split; [|done]. symmetry. by apply placements_on_ext.
  - split; [split|].
    + intros _. done.
    + intros g. by rewrite Hgs'.
    + intros g. by rewrite Hgs'.
Qed.

Lemma get_event_by_turn_Some (turn : Z) :
  1 <= turn <= game_config.MAX_TURNS ->
  exists ev, events_config.get_event_by_turn turn = Some ev /\ TurnEvent.turn ev = turn.
Proof.
  unfold game_config.MAX_TURNS. intros Hturn.
  assert (turn = 1 \/ turn = 2 \/ turn = 3 \/ turn = 4 \/ turn = 5 \/ turn = 6
          \/ turn = 7 \/ turn = 8) as Hcases by lia.
  destruct Hcases as [->|[->|[->|[->|[->|[->|[->| ->]]]]]]]; eexists; split; reflexivity.
Qed.

(** A fresh turn: the event of the turn, its project pending, the board and
    the teams' placements cleared. *)
Lemma invariants_fresh_turn (room' : Room.t) (gs' : GameState.t) :
  Room.status room' <> WAITING ->
  Room.game_state room' = Some gs' ->
  1 <= GameState.current_turn gs' <= game_config.MAX_TURNS ->
  GameState.current_event gs'
  = events_config.get_event_by_turn (GameState.current_turn gs') ->
  GameState.project_status gs'
  = GameService.new_project_status (GameState.current_event gs') ->
  GameState.phase_time_limit gs' = phase_duration (GameState.current_phase gs') ->
  GameState.paused_time_remaining gs' = None ->
  BoardCell.with_placements [] <$> GameState.board gs' = initial_board ->
  Forall (fun c => BoardCell.placements c = []) (GameState.board gs') ->
  Forall (fun t => Team.placements t = []) (Room.teams room') ->
  game_state_consistent room' /\ board_in_sync room'.
Proof.
  intros Hstatus Hgs Hturn Hev Hps Hlimit Hptr Hlayout Hboard Hteams.
  destruct (get_event_by_turn_Some _ Hturn) as (ev & Hget & _).
  destruct (placements_on_nothing "" _ Hteams) as [_ Hcs].
  split; [split|].
  - done.
  - intros g. rewrite Hgs. intros [= <-]. split; [done|]. split; [done|].
    split; [|done]. rewrite Hps, Hev, Hget. eexists ev, _.
    split; [done|]. split; [reflexivity|]. done.
  - intros g. rewrite Hgs. intros [= <-]. split.
    + eapply Forall_impl; [exact Hboard|]. intros c ->.
      symmetry. by apply placements_on_nothing.
    + intros ps. rewrite Hps, Hev, Hget. intros [= <-]. cbn. by rewrite Hcs.
Qed.

Lemma start_game_invariants (now : datetime) (room : Room.t) :
  game_state_consistent room /\ board_in_sync room ->
  game_state_consistent (fst (GameService.start_game now room))
  /\ board_in_sync (fst (GameService.start_game now room)).
Proof.
  intros Hinv. unfold GameService.start_game.
  destruct (_ <? 3); [done|]. destruct (negb _); [done|]. cbn [fst].
  eapply invariants_fresh_turn.
  - done.
  - reflexivity.
  - done.
  - reflexivity.
  - reflexivity.
  - reflexivity.
  - reflexivity.
  - cbn [GameState.board]. unfold initial_board, get_regular_cells.
    change (map ?g ?l) with (g <$> l). rewrite <- list_fmap_compose.
    apply list_fmap_ext. done.
  - cbn [GameState.board]. apply Forall_forall. intros c Hc.
    apply list_elem_of_In, in_map_iff in Hc as (kv & <- & _). done.
  - cbn [Room.teams Room.with_teams]. apply Forall_forall. intros t Ht.
    apply list_elem_of_In, in_map_iff in Ht as (t0 & <- & _). done.
Qed.

Lemma place_resource_invariants (room : Room.t) (team_id cell_id : string) (amount : Z) :
  Forall typed_team (Room.teams room) ->
  game_state_consistent room /\ board_in_sync room ->
  game_state_consistent
    (fst (GameService.place_resource room team_id (JStr cell_id) (JInt amount)))
  /\ board_in_sync
       (fst (GameService.place_resource room team_id (JStr cell_id) (JInt amount))).
Proof.
  intros Htyped [[Hwaiting Hok] Hsync].
  destruct (place_resource_cases room team_id cell_id amount Htyped)
    as [[_ (msg & ->)]|[Hnot (team & ps & _ & _ & _ & Hints & _ & _ & _ & ->)]];
    [done|]. cbn [fst].
  destruct (Room.game_state room) as [gs|] eqn:Hgs; [|destruct Hnot; by left].
  destruct (Hok gs eq_refl) as (Ht & He & (ev & ps0 & Hev & Hps & Hmt & Hmn) & Hlim & Hp & Hl).
  match goal with |- context [GameService._sync_placements_to_board ?r] => set (room1 := r) end.
  rewrite (sync_placements_to_board_spec room1 gs Hgs Hl).
  2:{ subst room1. cbn [Room.teams Room.with_teams]. apply Forall_update_first.
      - eapply Forall_impl; [exact Htyped|]. by intros t [_ Ht'].
      - intros _ _ _. exact Hints. }
  cbn [fst]. split; [split|].
  - cbn. intros Hw. by specialize (Hwaiting Hw).
  - intros g. cbn [Room.game_state Room.with_game_state]. intros [= <-].
    unfold game_state_ok.
    cbn [GameState.current_turn GameState.current_event GameState.project_status
         GameState.phase_time_limit GameState.current_phase GameState.paused_time_remaining
         GameState.board GameState.with_project_status GameState.with_board].
    split; [done|]. split; [done|]. split; [|split; [done|split; [done|]]].
    + rewrite Hps. eexists ev, _. split; [done|]. split; [reflexivity|]. done.
    + by rewrite board_layout_map.
  - intros g. cbn [Room.game_state Room.with_game_state Room.teams]. intros [= <-].
    cbn [GameState.project_status GameState.board GameState.with_project_status
         GameState.with_board]. split.
    + apply Forall_map, Forall_forall. done.
    + intros ps1. rewrite Hps. by intros [= <-].
Qed.

Lemma process_turn_fields (room : Room.t) (gs : GameState.t) :
  Room.game_state room = Some gs ->
  exists gs',
    Room.game_state (fst (GameService._process_turn room)) = Some gs'
    /\ GameState.current_turn gs' = GameState.current_turn gs
    /\ GameState.current_phase gs' = GameState.current_phase gs
    /\ GameState.phase_time_limit gs' = GameState.phase_time_limit gs
    /\ GameState.paused_time_remaining gs' = GameState.paused_time_remaining gs
    /\ GameState.current_event gs' = GameState.current_event gs
    /\ GameState.board gs' = GameState.board gs
    /\ match GameState.project_status gs, GameState.project_status gs' with
       | Some ps, Some ps' => ProjectStatus.with_status (ProjectStatus.status ps) ps' = ps
       | None, None => True
       | _, _ => False
       end.
Proof.
  intros Hgs. destruct (process_turn_game_state room gs Hgs) as (gs' & Hgs' & Hsame & Hps).
  exists gs'. split; [done|].
  split; [by apply (f_equal GameState.current_turn) in Hsame|].
  split; [by apply (f_equal GameState.current_phase) in Hsame|].
  split; [by apply (f_equal GameState.phase_time_limit) in Hsame|].
  split; [by apply (f_equal GameState.paused_time_remaining) in Hsame|].
  split; [by apply (f_equal GameState.current_event) in Hsame|].
  split; [by apply (f_equal GameState.board) in Hsame|].
  done.
Qed.

Lemma process_turn_status (room : Room.t) :
  Room.status (fst (GameService._process_turn room)) = Room.status room.
Proof.
  unfold GameService._process_turn. repeat case_match; done.
Qed.

Lemma advance_phase_invariants (now : datetime) (room : Room.t) :
  game_state_consistent room /\ board_in_sync room ->
  game_state_consistent (fst (GameService.advance_phase now room))
  /\ board_in_sync (fst (GameService.advance_phase now room)).
Proof.
  intros Hinv. pose proof Hinv as [[Hwaiting Hok] Hsync].
  unfold GameService.advance_phase.
  destruct (Room.game_state room) as [gs|] eqn:Hgs; [|done].
  assert (Room.status room <> WAITING) as Hstatus
    by (intros Hw; by specialize (Hwaiting Hw)).
  destruct (Hok gs eq_refl) as (Ht & He & (ev & ps0 & Hev & Hps & Hmt & Hmn) & Hlim & Hp & Hl).
  destruct (GameState.current_phase gs) eqn:Hphase; cbn [fst].
  - apply (invariants_frame room); try done.
    rewrite Hgs. cbn. rewrite Hps. repeat split; try done. by destruct ps0.
  - match goal with |- context [GameService._process_turn ?r] => set (room1 := r) end.
    destruct (process_turn_frame room1 _ eq_refl) as (gs2 & Hgs2 & _ & _ & Hids & Hpl).
    destruct (process_turn_fields room1 _ eq_refl)
      as (gs2' & Hgs2' & Hturn2 & Hphase2 & Hlim2 & Hptr2 & Hev2 & Hboard2 & Hps2).
    rewrite Hgs2 in Hgs2'. injection Hgs2' as <-.
    pose proof (process_turn_status room1) as Hst2.
    assert (game_state_consistent (fst (GameService._process_turn room1))
            /\ board_in_sync (fst (GameService._process_turn room1))) as Hinv2.
    { apply (invariants_frame room); try done.
      - rewrite Hids. subst room1. cbn. by rewrite <- list_fmap_compose.
      - rewrite Hpl. subst room1. cbn. by rewrite <- list_fmap_compose.
      - rewrite Hst2. done.
      - rewrite Hgs, Hgs2. cbn in Hturn2, Hphase2, Hlim2, Hptr2, Hev2, Hboard2, Hps2.
        rewrite Hphase2, Hlim2. done. }
    destruct (GameService._process_turn room1) as [room2 [result|e]]; [|done].
    cbn [fst] in *. apply (invariants_frame room2); try done.
    rewrite Hgs2. cbn. rewrite Hphase2, Hlim2. cbn.
    repeat split; try done.
    destruct (GameState.project_status gs2) as [[]|]; done.
  - apply (invariants_frame room); try done.
    rewrite Hgs. cbn. rewrite Hps. repeat split; try done. by destruct ps0.
  - destruct (NationalIndices.is_any_zero _);
      [|destruct (Z.leb_spec game_config.MAX_TURNS
                    (GameState.current_turn
                       (GameState.with_national_indices
                          (GameService.apply_maintenance (GameState.national_indices gs)) gs)))];
      cbn [fst].
    + apply (invariants_frame room); try done.
      rewrite Hgs. cbn. rewrite Hps, Hlim, Hphase. repeat split; try done. by destruct ps0.
    + apply (invariants_frame room); try done.
      rewrite Hgs. cbn. rewrite Hps, Hlim, Hphase. repeat split; try done. by destruct ps0.
    + cbn [GameState.current_turn GameState.with_national_indices] in H.
      eapply invariants_fresh_turn.
      * exact Hstatus.
      * reflexivity.
      * cbn [GameService.stamp GameState.current_turn GameState.with_is_paused
             GameState.with_phase_start_time GameState.with_board
             GameState.with_project_status GameState.with_current_event
             GameState.with_phase_time_limit GameState.with_current_phase
             GameState.with_current_turn GameState.with_national_indices]. lia.
      * reflexivity.
      * reflexivity.
      * reflexivity.
      * exact Hp.
      * etrans; [apply (board_layout_map (fun _ => []))|exact Hl].
      * apply Forall_forall. intros c Hc.
        apply list_elem_of_In, in_map_iff in Hc as (c0 & <- & _). done.
      * apply Forall_forall. intros t Hin.
        apply list_elem_of_In, in_map_iff in Hin as (t0 & <- & _). done.
Qed.

Lemma invariants_same_state (room room' : Room.t) :
  Team.id <$> Room.teams room' = Team.id <$> Room.teams room ->
  Team.placements <$> Room.teams room' = Team.placements <$> Room.teams room ->
  (Room.status room' = WAITING -> Room.status room = WAITING) ->
  Room.game_state room' = Room.game_state room ->
  game_state_consistent room /\ board_in_sync room ->
  game_state_consistent room' /\ board_in_sync room'.
Proof.
  intros Hids Hpl Hstatus Hgs Hinv. pose proof Hinv as [[_ Hok] _].
  apply (invariants_frame room); try done. rewrite Hgs.
  destruct (Room.game_state room) as [gs|]; [|done].
  destruct (Hok gs eq_refl) as (_ & _ & (ev & ps & _ & -> & _) & Hlim & _).
  repeat split; try done. by destruct ps.
Qed.

Lemma step_invariants (room room' : Room.t) :
  typed_step room room' ->
  Forall typed_team (Room.teams room) ->
  game_state_consistent room /\ board_in_sync room ->
  game_state_consistent room' /\ board_in_sync room'.
Proof.
  intros Hstep Htyped Hinv. pose proof Hinv as [[Hwaiting Hok] _].
  destruct Hstep as
    [now room room' r H|room team_id cell_id amount room' r [[c ->] [z ->]] H
    |room team_id room' r H|now room room' r H|room|now room|room team_id b|room].
  - pose proof (start_game_invariants now room Hinv) as Hp. by rewrite H in Hp.
  - pose proof (place_resource_invariants room team_id c z Htyped Hinv) as Hp.
    by rewrite H in Hp.
  - unfold GameService.submit_turn in H. repeat case_match; simplify_eq; try done.
    apply (invariants_same_state room); cbn; try done; by apply fmap_update_first.
  - pose proof (advance_phase_invariants now room Hinv) as Hp. by rewrite H in Hp.
  - unfold GameService.pause_game.
    destruct (Room.game_state room) as [gs|] eqn:Hgs; [|done].
    destruct (Hok gs eq_refl) as (_ & _ & (ev & ps & _ & Hps & _) & Hlim & _).
    apply (invariants_frame room); cbn; try done.
    rewrite Hgs, Hps. repeat split; try done. by destruct ps.
  - unfold GameService.resume_game.
    destruct (Room.game_state room) as [gs|] eqn:Hgs; [|done].
    destruct (Hok gs eq_refl) as (_ & _ & (ev & ps & _ & Hps & _) & Hlim & _).
    apply (invariants_frame room); cbn; try done.
    rewrite Hgs, Hps. repeat split; try done. by destruct ps.
  - apply (invariants_same_state room); cbn; try done; by apply fmap_update_first.
  - apply (invariants_same_state room); cbn; try done.
Qed.

Lemma typed_reachable_invariants (room : Room.t) :
  typed_reachable room -> game_state_consistent room /\ board_in_sync room.
Proof.
  induction 1 as [room (_ & Hgs & _)|room room' Hreach IH Hstep].
  - split; [split|]; [done| |]; intros gs; by rewrite Hgs.
  - apply (step_invariants room); [done | | done].
    by apply within_budget_typed, typed_reachable_within_budget.
Qed.

(** X9. In every room the backend reaches with requests of the annotated
    types, a game in play is at one of the game's turns (1 to MAX_TURNS --
    the turn counter never passes the last turn), its current event is the
    event of that turn, its project is there with the event's two
    thresholds, the time limit is the one configured for the current phase,
    no remaining time is ever recorded for a pause, and the board is the
    twelve-cell board of the start but for the placements; and a room that is
    still waiting has no game state. *)
Theorem game_in_play_keeps_turn_event_and_board (room : Room.t) :
  typed_reachable room ->
  (Room.status room = WAITING -> Room.game_state room = None)
  /\ forall gs,
       Room.game_state room = Some gs ->
       1 <= GameState.current_turn gs <= game_config.MAX_TURNS
       /\ GameState.current_event gs
          = events_config.get_event_by_turn (GameState.current_turn gs)
       /\ (exists ev ps,
             GameState.current_event gs = Some ev
             /\ GameState.project_status gs = Some ps
             /\ ProjectStatus.min_total ps = TurnEvent.min_total ev
             /\ ProjectStatus.min_teams ps = TurnEvent.min_teams ev)
       /\ GameState.phase_time_limit gs = phase_duration (GameState.current_phase gs)
       /\ GameState.paused_time_remaining gs = None
       /\ BoardCell.with_placements [] <$> GameState.board gs = initial_board.
Proof.
  intros Hreach. destruct (typed_reachable_invariants room Hreach) as [[Hwaiting Hok] _].
  split; [exact Hwaiting|exact Hok].
Qed.

Lemma game_in_play_keeps_turn_event_and_board_witness :
  exists gs,
    Room.game_state paused_result_room = Some gs
    /\ GameState.current_turn gs = 3
    /\ GameState.phase_time_limit gs = game_config.PHASE_RESULT_DURATION.
Proof.
  assert (typed_reachable paused_result_room) as Hreach.
  { unfold paused_result_room.
    eapply reachable_step; [|apply step_pause_game].
    apply advance_at_reachable, started_room_reachable. }
  destruct (Room.game_state paused_result_room) as [gs|] eqn:Hgs;
    [|by vm_compute in Hgs].
  destruct (game_in_play_keeps_turn_event_and_board paused_result_room Hreach) as [_ Hok].
  destruct (Hok gs Hgs) as (_ & _ & _ & Hlim & _).
  exists gs. split; [done|].
  assert (GameState.current_turn gs = 3 /\ GameState.current_phase gs = RESULT) as [Hturn Hphase].
  { vm_compute in Hgs. injection Hgs as <-. done. }
  split; [done|]. by rewrite Hlim, Hphase.
Defined.

(** X10. In every room the backend reaches with requests of the annotated
    types, the board and the project show what the teams have placed, no
    more and no less: the placements of a board cell are, team by team in the
    room's order, the amounts the teams hold on that cell; the project's
    contributions are the amounts the teams hold on the project cell, and its
    total is their sum. *)
Theorem board_shows_what_the_teams_placed (room : Room.t) (gs : GameState.t) :
  typed_reachable room ->
  Room.game_state room = Some gs ->
  Forall (fun c => BoardCell.placements c
                   = placements_on (BoardCell.id c) (Room.teams room))
         (GameState.board gs)
  /\ forall ps,
       GameState.project_status gs = Some ps ->
       ProjectStatus.contributing_teams ps = contributions_of (Room.teams room)
       /\ ProjectStatus.total_contributed ps
          = PInt (sum_int ((fun c => units (Contribution.amount c))
                             <$> contributions_of (Room.teams room))).
Proof.
  intros Hreach Hgs. destruct (typed_reachable_invariants room Hreach) as [_ Hsync].
  destruct (Hsync gs Hgs) as [Hboard Hproject]. split; [done|].
  intros ps Hps. destruct (Hproject ps Hps) as [Hcs Htotal].
  split; [done|]. by rewrite <- Hcs.
Qed.

Lemma board_shows_what_the_teams_placed_witness :
  exists gs c,
    Room.game_state
      (fst (GameService.place_resource action_room "team-0" (JStr "cell-0-0") (JInt 10)))
    = Some gs
    /\ GameState.board gs !! 0%nat = Some c
    /\ BoardCell.placements c = [CellPlacement.mk "team-0" 10].
Proof.
  set (room' := fst (GameService.place_resource action_room "team-0" (JStr "cell-0-0")
                       (JInt 10))).
  assert (typed_reachable room') as Hreach.
  { eapply reachable_step; [exact (action_room_reachable _)|].
    eapply step_place_resource; [|apply surjective_pairing]. split; by eexists. }
  destruct (Room.game_state room') as [gs|] eqn:Hgs; [|by vm_compute in Hgs].
  destruct (GameState.board gs !! 0%nat) as [c|] eqn:Hc;
    [|vm_compute in Hgs; injection Hgs as <-; by vm_compute in Hc].
  destruct (board_shows_what_the_teams_placed room' gs Hreach Hgs) as [Hboard _].
  exists gs, c. split; [done|]. split; [done|].
  rewrite Forall_lookup in Hboard. rewrite (Hboard 0%nat c Hc).
  vm_compute in Hgs. injection Hgs as <-. vm_compute in Hc. injection Hc as <-.
  vm_compute. reflexivity.
Defined.


(** ** The scoring rules of the cells *)

Lemma sf_eqb_eq (x y : spec_float) : sf_eqb x y = true -> x = y.
Proof.
  destruct x, y; simpl; try done.
  - intros ->%Bool.eqb_prop. done.
  - intros ->%Bool.eqb_prop. done.
  - rewrite !andb_true_iff. intros [[->%Bool.eqb_prop ->%Pos.eqb_eq] ->%Z.eqb_eq]. done.
Qed.

Lemma float_same_eq (x y : float) : float_same x y = true -> x = y.
Proof. intros H. by apply Prim2SF_inj, sf_eqb_eq. Qed.

Lemma elem_of_pairs_upto (n a b : Z) :
  1 <= a <= b -> b <= n -> (a, b) ∈ pairs_upto n.
Proof.
  intros Ha Hb. unfold pairs_upto. apply list_elem_of_bind. exists b. split.
  - apply list_elem_of_fmap. exists a. split; [done|]. apply elem_of_seqZ. lia.
  - apply elem_of_seqZ. lia.
Qed.

(** Small integers divide as their floats do: for [1 <= a <= b <= 70] the
    quotient [a / b] is the float quotient of [float(a)] by [float(b)]. *)
Lemma int_truediv_small (a b : Z) :
  1 <= a <= b -> b <= 70 ->
  int_truediv a b = Ok (PrimFloat.div (round_int a) (round_int b)).
Proof.
  intros Ha Hb.
  assert (forallb (fun ab => match int_truediv (fst ab) (snd ab) with
                             | Ok r => float_same r (PrimFloat.div (round_int (fst ab))
                                                       (round_int (snd ab)))
                             | Raise _ => false
                             end) (pairs_upto 70) = true) as Hall
    by (vm_compute; reflexivity).
  rewrite forallb_forall in Hall.
  specialize (Hall (a, b)). cbn [fst snd] in Hall.
  destruct (int_truediv a b) as [r|e].
  - f_equal. apply float_same_eq, Hall, list_elem_of_In, elem_of_pairs_upto; lia.
  - discriminate Hall. apply list_elem_of_In, elem_of_pairs_upto; lia.
Qed.

(** A scoring loop over placements that name each team once: every team gets
    the value of its placement, and no other key is written. *)
Lemma score_each_NoDup (value : CellPlacement.t -> result num)
    (g : CellPlacement.t -> num) (placements : list CellPlacement.t) :
  NoDup (CellPlacement.team_id <$> placements) ->
  (forall p, p ∈ placements -> value p = Ok (g p)) ->
  exists scores,
    ScoringService.score_each value placements = Ok scores
    /\ (forall p, p ∈ placements ->
                  dict.get (CellPlacement.team_id p) scores = Some (g p))
    /\ (forall k, (forall p, p ∈ placements -> CellPlacement.team_id p <> k) ->
                  dict.get k scores = None).
Proof.
  intros Hnd Hvalue. unfold ScoringService.score_each.
  destruct (fill_scores_get CellPlacement.team_id value g placements Hvalue)
    as (scores & Hscores & Hget).
  exists scores. split; [done|]. split.
  - intros p Hp. by rewrite Hget, find_first_NoDup.
  - intros k Hk. rewrite Hget.
    destruct (find_first _ _) as [p|] eqn:Hfind; [|done].
    apply find_first_Some in Hfind as [Hin Hkey].
    apply bool_decide_eq_true in Hkey.
    apply list_elem_of_In, in_rev, list_elem_of_In in Hin.
    by destruct (Hk p Hin).
Qed.

Lemma positive_placements_NoDup (placements : list CellPlacement.t) :
  NoDup (CellPlacement.team_id <$> placements) ->
  NoDup (CellPlacement.team_id
           <$> filter (fun p => 0 < CellPlacement.amount p) placements).
Proof.
  intros Hnd. eapply sublist_NoDup; [exact Hnd|]. apply fmap_sublist, sublist_filter.
Qed.



Lemma amount_le_sum (placements : list CellPlacement.t) (p : CellPlacement.t) :
  Forall (fun q => 0 < CellPlacement.amount q) placements ->
  p ∈ placements ->
  CellPlacement.amount p <= sum_int (CellPlacement.amount <$> placements).
Proof.
  induction 1 as [|q l Hq Hl IH]; [by intros ?%elem_of_nil|].
  rewrite fmap_cons, sum_int_cons. intros [->|Hin]%elem_of_cons; [|specialize (IH Hin)].
  - assert (0 <= sum_int (CellPlacement.amount <$> l)); [|lia].
    clear -Hl. induction Hl as [|r l Hr Hl IH]; [done|].
    rewrite fmap_cons, sum_int_cons. lia.
  - lia.
Qed.

(** A team alone on a shared cell: its share is the whole pool. *)
Lemma whole_share_small (a : Z) :
  1 <= a <= 70 ->
  PrimFloat.mul (PrimFloat.div (round_int a) (round_int a))
    (PrimFloat.mul (round_int a) 1.5%float)
  = PrimFloat.mul (round_int a) 1.5%float.
Proof.
  intros Ha.
  assert (forallb (fun a => float_same
                              (PrimFloat.mul (PrimFloat.div (round_int a) (round_int a))
                                 (PrimFloat.mul (round_int a) 1.5%float))
                              (PrimFloat.mul (round_int a) 1.5%float))
            (seqZ 1 70) = true) as Hall by (vm_compute; reflexivity).
  rewrite forallb_forall in Hall.
  apply float_same_eq, Hall, list_elem_of_In, elem_of_seqZ. lia.
Qed.

(** X12. On a shared cell whose placements name each team once and whose
    positive amounts add up to at most what five teams can place in a turn,
    the scores are produced; the pool is the total of the positive amounts
    times 1.5, and a team with a positive placement receives the share
    [amount / total] of it (the branch that scores 0 for a total of zero is
    never taken); a team without a positive placement has no score; and a
    team alone on the cell receives the whole pool, its amount times 1.5. *)
Theorem shared_cell_splits_the_pool_by_amount (cell : BoardCell.t) :
  let positive := filter (fun p => 0 < CellPlacement.amount p) (BoardCell.placements cell) in
  let total := sum_int (CellPlacement.amount <$> positive) in
  BoardCell.type cell = SHARED ->
  NoDup (CellPlacement.team_id <$> BoardCell.placements cell) ->
  total <= game_config.NUM_TEAMS * game_config.RESOURCES_PER_TURN ->
  exists scores,
    ScoringService.calculate_cell_scores cell = Ok scores
    /\ (forall p,
          p ∈ BoardCell.placements cell -> 0 < CellPlacement.amount p ->
          dict.get (CellPlacement.team_id p) scores
          = Some (PFloat (PrimFloat.mul
                            (PrimFloat.div (round_int (CellPlacement.amount p))
                               (round_int total))
                            (PrimFloat.mul (round_int total) 1.5%float))))
    /\ (forall k,
          (forall p, p ∈ BoardCell.placements cell -> 0 < CellPlacement.amount p ->
                     CellPlacement.team_id p <> k) ->
          dict.get k scores = None)
    /\ (forall p,
          positive = [p] ->
          dict.get (CellPlacement.team_id p) scores
          = Some (PFloat (PrimFloat.mul (round_int (CellPlacement.amount p)) 1.5%float))).
Proof.
  intros positive total Hty Hnd Htotal.
  pose proof (positive_placements_NoDup _ Hnd) as Hnd'.
  unfold ScoringService.calculate_cell_scores, ScoringService._score_shared.
  change (map CellPlacement.amount ?l) with (CellPlacement.amount <$> l).
  assert (positive
          = filter (fun p => 0 < CellPlacement.amount p) (BoardCell.placements cell))
    as Hpositive_eq by reflexivity.
  assert (total = sum_int (CellPlacement.amount <$> positive)) as Htotal_eq by reflexivity.
  clearbody total. clearbody positive.
  rewrite <- Hpositive_eq in *. rewrite <- Htotal_eq. rewrite Hty.
  assert (Forall (fun q => 0 < CellPlacement.amount q) positive) as Hpositive.
  { apply Forall_forall. intros q Hq. rewrite Hpositive_eq in Hq.
    by apply list_elem_of_filter in Hq as [Hq _]. }
  assert (forall p, p ∈ BoardCell.placements cell -> 0 < CellPlacement.amount p ->
                    p ∈ positive) as Hin_positive.
  { intros p Hin Hp. rewrite Hpositive_eq. by apply list_elem_of_filter. }
  assert (forall p, p ∈ positive -> 1 <= CellPlacement.amount p <= total) as Hamount.
  { intros p Hp. pose proof (amount_le_sum positive p Hpositive Hp) as Hle.
    rewrite Forall_forall in Hpositive. specialize (Hpositive p Hp). lia. }
  destruct positive as [|p0 ps0] eqn:Hpos.
  { exists dict.empty. split; [done|]. split; [|split; [done|done]].
    intros p Hin Hp. by apply Hin_positive, elem_of_nil in Hin. }
  rewrite <- Hpos in *.
  assert (0 < total) as Hnonzero.
  { assert (p0 ∈ positive) as Hp0 by (rewrite Hpos; left).
    specialize (Hamount p0 Hp0). lia. }
  clear Hpos p0 ps0.
  assert (total <= 70) as Htotal' by (revert Htotal; by vm_compute).
  rewrite int_mul_float_bounded
    by (assert (70 < float_max_int) by (by vm_compute); lia).
  cbn [rbind]. destruct (Z.ltb_spec 0 total); [|lia].
  destruct (score_each_NoDup
              (fun p => do share <~ int_truediv (CellPlacement.amount p) total ;
                        Ok (PFloat (PrimFloat.mul share
                                      (PrimFloat.mul (round_int total)
                                         (scoring_config.get_multiplier SHARED 1)))))
              (fun p => PFloat (PrimFloat.mul
                                  (PrimFloat.div (round_int (CellPlacement.amount p))
                                     (round_int total))
                                  (PrimFloat.mul (round_int total) 1.5%float)))
              positive Hnd')
    as (scores & Hscores & Heach & Hnone).
  { intros p Hp. rewrite int_truediv_small; [done| |done]. by apply Hamount. }
  exists scores. split; [done|]. split; [|split].
  - intros p Hin Hp. apply Heach. by apply Hin_positive.
  - intros k Hk. apply Hnone. intros p Hp. rewrite Hpositive_eq in Hp.
    apply list_elem_of_filter in Hp as [Hp Hin]. by apply Hk.
  - intros p Hone. rewrite Heach by (rewrite Hone; left).
    assert (total = CellPlacement.amount p) as Heq.
    { rewrite Htotal_eq, Hone. unfold sum_int. simpl. lia. }
    rewrite Heq. rewrite whole_share_small; [done|]. lia.
Qed.

Lemma shared_cell_splits_the_pool_by_amount_witness :
  exists scores,
    ScoringService.calculate_cell_scores
      (BoardCell.mk "cell-1-0" (1, 0) SHARED "Dong bang" ["society"; "environment"]
         [CellPlacement.mk "t1" 5; CellPlacement.mk "t2" 5; CellPlacement.mk "t3" 3])
    = Ok scores
    /\ dict.get "t3" scores = Some (PFloat 4.5%float).
Proof.
  destruct (shared_cell_splits_the_pool_by_amount
              (BoardCell.mk "cell-1-0" (1, 0) SHARED "Dong bang" ["society"; "environment"]
                 [CellPlacement.mk "t1" 5; CellPlacement.mk "t2" 5; CellPlacement.mk "t3" 3]))
    as (scores & Hscores & Heach & _).
  - reflexivity.
  - apply (bool_decide_unpack _). vm_compute. reflexivity.
  - by vm_compute.
  - exists scores. split; [done|].
    pose proof (Heach (CellPlacement.mk "t3" 3)) as H3.
    cbn [CellPlacement.team_id] in H3. rewrite H3; [|do 2 right; left|done].
    vm_compute. reflexivity.
Defined.


(** ** The configuration tables *)

(** X13. [get_region_by_index] gives a region exactly for the indices 0 to
    NUM_TEAMS - 1 -- there is one region per team -- and looking the id of
    that region up with [get_region_by_id] gives the same region back; a
    region found by id has that id, and is the region of one of the
    indices. *)
Theorem regions_by_index_and_by_id_agree (index : Z) (region_id : string) :
  (is_Some (regions_config.get_region_by_index index)
   <-> 0 <= index < game_config.NUM_TEAMS)
  /\ (forall r,
        regions_config.get_region_by_index index = Some r ->
        regions_config.get_region_by_id (Region.id r) = Some r)
  /\ (forall r,
        regions_config.get_region_by_id region_id = Some r ->
        Region.id r = region_id
        /\ exists i, 0 <= i < game_config.NUM_TEAMS
                     /\ regions_config.get_region_by_index i = Some r).
Proof.
  split; [|split].
  - unfold regions_config.get_region_by_index, game_config.NUM_TEAMS.
    change (Z.of_nat (length regions_config.REGIONS)) with 5.
    destruct (Z.leb_spec 0 index), (Z.ltb_spec index 5); cbn [andb];
      try (split; [by intros [? ?]|lia]).
    split; [lia|]. intros _.
    assert (index = 0 \/ index = 1 \/ index = 2 \/ index = 3 \/ index = 4) as Hi by lia.
    destruct Hi as [->|[->|[->|[->| ->]]]]; by eexists.
  - unfold regions_config.get_region_by_index.
    change (Z.of_nat (length regions_config.REGIONS)) with 5.
    destruct (Z.leb_spec 0 index), (Z.ltb_spec index 5); cbn [andb]; try done.
    assert (index = 0 \/ index = 1 \/ index = 2 \/ index = 3 \/ index = 4) as Hi by lia.
    intros r. destruct Hi as [->|[->|[->|[->| ->]]]]; intros [= <-]; vm_compute; reflexivity.
  - intros r Hr. unfold regions_config.get_region_by_id in Hr.
    pose proof (find_first_Some _ _ _ Hr) as [Hin Hid].
    apply bool_decide_eq_true in Hid. split; [done|].
    unfold regions_config.REGIONS in Hin.
    repeat (apply elem_of_cons in Hin as [->|Hin]);
      [exists 0|exists 1|exists 2|exists 3|exists 4|by apply elem_of_nil in Hin];
      (split; [by vm_compute|reflexivity]).
Qed.

Lemma turn_cases (turn : Z) :
  1 <= turn <= game_config.MAX_TURNS ->
  turn = 1 \/ turn = 2 \/ turn = 3 \/ turn = 4 \/ turn = 5 \/ turn = 6 \/ turn = 7
  \/ turn = 8.
Proof. unfold game_config.MAX_TURNS. lia. Qed.

(** X14. There is an event for each of the game's turns, 1 to MAX_TURNS, and
    for no other; the event of a turn carries that turn's number; its project
    can be met -- it asks for at most NUM_TEAMS teams and at most what they
    can place together in a turn; its reward names the points of the bonus
    and, like its penalty, national indices only, so no entry is skipped
    when the changes are applied; rewards are positive and penalties
    negative. *)
Theorem every_turn_has_an_event_that_can_be_met (turn : Z) :
  (is_Some (events_config.get_event_by_turn turn) <-> 1 <= turn <= game_config.MAX_TURNS)
  /\ forall ev,
       events_config.get_event_by_turn turn = Some ev ->
       TurnEvent.turn ev = turn
       /\ 0 < TurnEvent.min_teams ev <= game_config.NUM_TEAMS
       /\ 0 < TurnEvent.min_total ev
          <= game_config.NUM_TEAMS * game_config.RESOURCES_PER_TURN
       /\ (exists points, dict.get "points" (TurnEvent.success_reward ev) = Some points
                          /\ 0 < points)
       /\ Forall (fun kv => is_Some (NationalIndices.field_of (fst kv)) /\ 0 < snd kv)
                 (dict.pop "points" (TurnEvent.success_reward ev))
       /\ Forall (fun kv => is_Some (NationalIndices.field_of (fst kv)) /\ snd kv < 0)
                 (TurnEvent.failure_penalty ev).
Proof.
  assert (is_Some (events_config.get_event_by_turn turn)
          -> 1 <= turn <= game_config.MAX_TURNS) as Hrange.
  { unfold events_config.get_event_by_turn, events_config.TURN_EVENTS, game_config.MAX_TURNS.
    cbn [find_first fst].
    repeat (match goal with
            | |- context [?k =? turn] => destruct (Z.eqb_spec k turn); [lia|]
            end).
    by intros [? ?]. }
  split.
  - split; [exact Hrange|].
    intros Hturn. destruct (get_event_by_turn_Some turn Hturn) as (ev & -> & _). by eexists.
  - intros ev Hev.
    assert (1 <= turn <= game_config.MAX_TURNS) as Hturn by (apply Hrange; by eexists).
    destruct (turn_cases turn Hturn) as [->|[->|[->|[->|[->|[->|[->| ->]]]]]]];
      vm_compute in Hev; injection Hev as <-;
      (split; [reflexivity|]); (split; [by vm_compute|]); (split; [by vm_compute|]);
      (split; [eexists; split; [reflexivity|done]|]);
      split; vm_compute; repeat constructor; by eexists.
Qed.

(** *** Cell ids *)

Section CellIds.

Import pretty Stdlib.Strings.Ascii.

Lemma digit_not_dash (d : N) : pretty_N_char d <> "-"%char.
Proof. unfold pretty_N_char. by repeat case_match. Qed.

Lemma pretty_N_go_digits (x : N) (s : string) :
  all_digits s -> all_digits (pretty_N_go x s).
Proof.
  revert s. induction (N.lt_wf_0 x) as [x _ IH]. intros s Hs.
  destruct (decide (0 < x)%N) as [Hx|Hx].
  - rewrite pretty_N_go_step by done. apply IH.
    + by apply N.div_lt.
    + split; [by eexists|done].
  - assert (x = 0%N) as -> by lia. by rewrite pretty_N_go_0.
Qed.

Lemma pretty_N_go_nonempty (x : N) (s : string) :
  s <> "" -> pretty_N_go x s <> "".
Proof.
  revert s. induction (N.lt_wf_0 x) as [x _ IH]. intros s Hs.
  destruct (decide (0 < x)%N) as [Hx|Hx].
  - rewrite pretty_N_go_step by done. apply IH; [by apply N.div_lt|done].
  - assert (x = 0%N) as -> by lia. by rewrite pretty_N_go_0.
Qed.

Lemma pretty_pos_digits (p : positive) :
  all_digits (pretty p) /\ pretty p <> "".
Proof.
  unfold pretty, pretty_positive, pretty, pretty_N.
  rewrite decide_False by done. split.
  - by apply pretty_N_go_digits.
  - rewrite pretty_N_go_step by lia. by apply pretty_N_go_nonempty.
Qed.

(** A numeral followed by a dash determines where the dash is. *)
Lemma digits_dash_split (d1 d2 r1 r2 : string) :
  all_digits d1 -> all_digits d2 ->
  d1 +:+ String "-" r1 = d2 +:+ String "-" r2 -> d1 = d2 /\ r1 = r2.
Proof.
  revert d2. induction d1 as [|c d1 IH]; intros [|c' d2]; simpl.
  - intros _ _ [= ->]. done.
  - intros _ [[d ->] _] [= Hc _]. by destruct (digit_not_dash d).
  - intros [[d ->] _] _ [= Hc _]. by destruct (digit_not_dash d).
  - intros [_ H1] [_ H2] [= -> Heq]. destruct (IH d2 H1 H2 Heq) as [-> ->]. done.
Qed.

Lemma str_of_int_dash_split (a a' : Z) (r r' : string) :
  board_config.str_of_int a +:+ String "-" r
  = board_config.str_of_int a' +:+ String "-" r' ->
  a = a' /\ r = r'.
Proof.
  unfold board_config.str_of_int, pretty, pretty_Z.
  assert (all_digits "0") as H0 by (split; [by exists 0%N|done]).
  destruct a as [|p|p], a' as [|p'|p'];
    try pose proof (pretty_pos_digits p) as [Hp Hpn];
    try pose proof (pretty_pos_digits p') as [Hp' Hpn'].
  - intros [= ->]. done.
  - intros Heq. destruct (digits_dash_split _ _ _ _ H0 Hp' Heq) as [Heq' ->].
    unfold pretty, pretty_positive in Heq'.
    by destruct (pretty_N_go_ne_0 (N.pos p') "").
  - simpl. intros [= _].
  - intros Heq. destruct (digits_dash_split _ _ _ _ Hp H0 Heq) as [Heq' ->].
    unfold pretty, pretty_positive in Heq'.
    by destruct (pretty_N_go_ne_0 (N.pos p) "").
  - intros Heq. destruct (digits_dash_split _ _ _ _ Hp Hp' Heq) as [Heq' ->].
    apply (inj pretty) in Heq' as ->. done.
  - simpl. destruct (pretty p) as [|c s] eqn:Hc; [done|].
    destruct Hp as [[d ->] _]. simpl. intros [= Hd _]. by destruct (digit_not_dash d).
  - simpl. intros [= _].
  - simpl. destruct (pretty p') as [|c s] eqn:Hc; [done|].
    destruct Hp' as [[d ->] _]. simpl. intros [= Hd _]. by destruct (digit_not_dash d).
  - simpl. intros [= Heq]. destruct (digits_dash_split _ _ _ _ Hp Hp' Heq) as [Heq' ->].
    apply (inj pretty) in Heq' as ->. done.
Qed.

(** X15. [create_cell_id] gives different positions different ids, whatever
    the two coordinates are, and never the id of the project cell: a
    placement on [project-center] is never taken for a placement on a board
    cell, nor the other way round. *)
Theorem cell_ids_identify_positions (pos pos' : Z * Z) :
  (board_config.create_cell_id pos = board_config.create_cell_id pos' -> pos = pos')
  /\ board_config.create_cell_id pos <> board_config.PROJECT_CELL_ID.
Proof.
  unfold board_config.create_cell_id. split.
  - destruct pos as [r c], pos' as [r' c']. cbn [fst snd].
    cbn [String.append]. intros [= Heq].
    destruct (str_of_int_dash_split _ _ _ _ Heq) as [-> Heq'].
    apply (inj pretty) in Heq' as ->. done.
  - cbn [String.append]. unfold board_config.PROJECT_CELL_ID. intros [= ].
Qed.

End CellIds.


(** ** Rooms: creation, lookup, tokens *)

Lemma charset_digit (k : nat) :
  (k < 10)%nat ->
  exists d : N,
    nth k (String.list_ascii_of_string room_code.ROOM_CODE_CHARSET) Ascii.zero
    = pretty.pretty_N_char d.
Proof.
  intros Hk. exists (N.of_nat k).
  do 10 (destruct k as [|k]; [reflexivity|]). lia.
Qed.

(** What [create_room] puts into the store, whatever was there before. *)
Lemma create_room_stores (room_store : RoomStore.t) (host_name : string) (e : Entropy.t) :
  RoomService.create_room room_store host_name e
  = (RoomStore.mk
       (Some (Room.mk (room_code.generate_room_code (Entropy.draw e)) host_name
                (Entropy.uuid4 e 0) WAITING
                (imap (fun i region =>
                         Team.mk (Entropy.uuid4 e (2 * i + 1)) (Z.of_nat i)
                           ("Đội " +:+ board_config.str_of_int (Z.of_nat i + 1)) region
                           (Entropy.uuid4 e (2 * i + 2)) 0 (PInt game_config.RESOURCES_PER_TURN) []
                           false false)
                      regions_config.REGIONS)
                None (Entropy.now e))),
     CreateRoomResponse.mk (room_code.generate_room_code (Entropy.draw e))
       (Entropy.uuid4 e 0)).
Proof. reflexivity. Qed.

(** X16. [create_room] replaces whatever room the store held by a new one,
    and answers with the code and the host token of that room.  The room is
    waiting, has no game state, and its code is a string of
    ROOM_CODE_LENGTH decimal digits; it has NUM_TEAMS teams, the team at
    position [i] with index [i], the region of that index, a score of 0, the
    turn's grant, nothing placed, nothing submitted, not connected, and the
    UUIDs drawn for it as id and session token.  When the UUIDs drawn for
    the team ids differ from each other, the room is one from which the
    engine's invariants hold ([created], hence [reachable]). *)
Theorem create_room_opens_a_waiting_room (room_store : RoomStore.t) (host_name : string)
    (e : Entropy.t) :
  exists room,
    RoomStore.get (fst (RoomService.create_room room_store host_name e)) = Some room
    /\ snd (RoomService.create_room room_store host_name e)
       = CreateRoomResponse.mk (Room.code room) (Room.host_token room)
    /\ Room.host_name room = host_name
    /\ Room.status room = WAITING
    /\ Room.game_state room = None
    /\ Room.created_at room = Entropy.now e
    /\ String.length (Room.code room) = room_code.ROOM_CODE_LENGTH
    /\ all_digits (Room.code room)
    /\ Z.of_nat (length (Room.teams room)) = game_config.NUM_TEAMS
    /\ (forall (i : nat) t,
          Room.teams room !! i = Some t ->
          Team.index t = Z.of_nat i
          /\ regions_config.get_region_by_index (Z.of_nat i) = Some (Team.region t)
          /\ Team.id t = Entropy.uuid4 e (2 * i + 1)
          /\ Team.session_token t = Entropy.uuid4 e (2 * i + 2)
          /\ Team.score t = 0
          /\ Team.resources t = PInt game_config.RESOURCES_PER_TURN
          /\ Team.placements t = []
          /\ Team.has_submitted t = false
          /\ Team.is_connected t = false)
    /\ (NoDup ((fun i => Entropy.uuid4 e (2 * i + 1)) <$> seq 0 5) ->
        created room /\ reachable room).
Proof.
  rewrite create_room_stores. cbn [fst snd RoomStore.get RoomStore._room].
  eexists. split; [reflexivity|].
  cbn [Room.code Room.host_token Room.host_name Room.status Room.game_state
       Room.created_at Room.teams].
  do 5 (split; [reflexivity|]).
  split; [reflexivity|]. split.
  { unfold room_code.generate_room_code. cbn [seq fmap list_fmap room_code.ROOM_CODE_LENGTH
      String.string_of_list_ascii all_digits].
    change (length (String.list_ascii_of_string room_code.ROOM_CODE_CHARSET)) with 10%nat.
    repeat split;
      apply charset_digit, Nat.mod_upper_bound; lia. }
  split; [reflexivity|]. split.
  { intros i t. unfold regions_config.REGIONS. cbn [imap].
    do 5 (destruct i as [|i]; [intros [= <-]; repeat split; reflexivity|]).
    done. }
  intros Hnd.
  assert (created
            (Room.mk (room_code.generate_room_code (Entropy.draw e)) host_name
               (Entropy.uuid4 e 0) WAITING
               (imap (fun i region =>
                        Team.mk (Entropy.uuid4 e (2 * i + 1)) (Z.of_nat i)
                          ("Đội " +:+ board_config.str_of_int (Z.of_nat i + 1)) region
                          (Entropy.uuid4 e (2 * i + 2)) 0 (PInt game_config.RESOURCES_PER_TURN) []
                          false false)
                     regions_config.REGIONS)
               None (Entropy.now e))) as Hcreated.
  { split; [reflexivity|]. split; [reflexivity|]. split.
    - unfold regions_config.REGIONS. cbn [imap Room.teams]. repeat constructor.
    - exact Hnd. }
  split; [exact Hcreated|]. by apply reachable_created.
Qed.

Lemma create_room_opens_a_waiting_room_witness :
  exists room,
    RoomStore.get sample_store = Some room
    /\ Room.code room = "307418"
    /\ reachable room.
Proof.
  destruct (create_room_opens_a_waiting_room RoomStore.init "Host" sample_entropy)
    as (room & Hroom & _ & _ & _ & _ & _ & _ & _ & _ & _ & Hcreated).
  exists room. split; [exact Hroom|]. split.
  - vm_compute in Hroom. injection Hroom as <-. reflexivity.
  - apply Hcreated. apply (bool_decide_unpack _). vm_compute. reflexivity.
Defined.

(** The ids of the teams never change, whatever the clients send. *)
Lemma update_first_team_ids (team_id : string) (t : Team.t) (teams : list Team.t) :
  Team.id t = team_id ->
  Team.id <$> update_first (GameService.is_team team_id) (fun _ => t) teams
  = Team.id <$> teams.
Proof.
  intros Hid. induction teams as [|x teams IH]; [done|]. cbn [update_first].
  unfold GameService.is_team at 1. case_bool_decide.
  - rewrite !fmap_cons. congruence.
  - by rewrite !fmap_cons, IH.
Qed.

Lemma place_resource_team_ids (room : Room.t) (team_id : string) (cell_id amount : json) :
  Team.id <$> Room.teams (fst (GameService.place_resource room team_id cell_id amount))
  = Team.id <$> Room.teams room.
Proof.
  unfold GameService.place_resource.
  destruct (Room.game_state room); [|done]. destruct (negb _); [done|].
  destruct (find_first (GameService.is_team team_id) (Room.teams room)) as [team|] eqn:Hteam;
    [|done].
  apply find_first_Some in Hteam as [_ Hid]. apply bool_decide_eq_true in Hid.
  repeat case_match; cbn [fst]; try done; rewrite ?teams_sync;
    cbn [Room.teams Room.with_teams]; by apply update_first_team_ids.
Qed.

Lemma advance_phase_team_ids (now : datetime) (room : Room.t) :
  Team.id <$> Room.teams (fst (GameService.advance_phase now room))
  = Team.id <$> Room.teams room.
Proof.
  unfold GameService.advance_phase.
  destruct (Room.game_state room) as [gs|]; [|done].
  destruct (GameState.current_phase gs); cbn [fst]; try done.
  - match goal with |- context [GameService._process_turn ?r] => set (room1 := r) end.
    destruct (process_turn_frame room1 _ eq_refl) as (gs2 & _ & _ & _ & Hids & _).
    assert (Team.id <$> Room.teams room1 = Team.id <$> Room.teams room) as Hids1
      by (subst room1; cbn; by rewrite <- list_fmap_compose).
    destruct (GameService._process_turn room1) as [room2 [result|e]]; cbn [fst] in *;
      by rewrite <- Hids1.
  - repeat case_match; cbn [fst Room.teams Room.with_teams Room.with_status
      Room.with_game_state]; try done.
    by rewrite <- list_fmap_compose.
Qed.

Lemma step_team_ids (admits : json -> json -> Prop) (room room' : Room.t) :
  step_on admits room room' ->
  Team.id <$> Room.teams room' = Team.id <$> Room.teams room.
Proof.
  intros Hstep. destruct Hstep as
    [now room room' r H|room team_id cell_id amount room' r _ H|room team_id room' r H
    |now room room' r H|room|now room|room team_id b|room].
  - unfold GameService.start_game in H. repeat case_match; simplify_eq; try done.
    cbn [Room.teams Room.with_teams]. by rewrite <- list_fmap_compose.
  - pose proof (place_resource_team_ids room team_id cell_id amount) as Hp.
    by rewrite H in Hp.
  - unfold GameService.submit_turn in H. repeat case_match; simplify_eq; try done.
    cbn [Room.teams Room.with_teams]. by apply fmap_update_first.
  - pose proof (advance_phase_team_ids now room) as Hp. by rewrite H in Hp.
  - unfold GameService.pause_game. by destruct (Room.game_state room).
  - unfold GameService.resume_game. by destruct (Room.game_state room).
  - cbn [set_connected Room.teams Room.with_teams]. by apply fmap_update_first.
  - done.
Qed.

Lemma reachable_team_ids (admits : json -> json -> Prop) (room : Room.t) :
  reachable_on admits room -> NoDup (Team.id <$> Room.teams room).
Proof.
  induction 1 as [room (_ & _ & _ & Hnd)|room room' _ IH Hstep]; [done|].
  by rewrite (step_team_ids admits room room' Hstep).
Qed.

(** X17. For a stored room the backend can reach, whatever the clients have
    sent, a session token is valid for a team id exactly when the code names
    the stored room -- letter case aside, as [upper] has it -- and the room
    has a team with that id and that token; [get_team] then gives that team.
    The host token is valid exactly when the code names the room and the
    token is the room's. *)
Theorem tokens_are_checked_against_the_stored_room (upper : string -> string)
    (room_store : RoomStore.t) (room : Room.t) (room_code team_id token : string) :
  RoomStore.get room_store = Some room ->
  reachable room ->
  (RoomService.validate_session_token upper room_store room_code team_id token = true
   <-> upper (Room.code room) = upper room_code
       /\ exists t, t ∈ Room.teams room /\ Team.id t = team_id
                    /\ Team.session_token t = token)
  /\ (forall t, t ∈ Room.teams room -> Team.id t = team_id ->
                upper (Room.code room) = upper room_code ->
                RoomService.get_team upper room_store room_code team_id = Some t)
  /\ (RoomService.validate_host_token upper room_store room_code token = true
      <-> upper (Room.code room) = upper room_code /\ Room.host_token room = token).
Proof.
  intros Hroom Hreach. pose proof (reachable_team_ids _ room Hreach) as Hnd.
  unfold RoomService.validate_session_token, RoomService.get_team,
    RoomService.validate_host_token, RoomStore.get_by_code.
  unfold RoomStore.get in Hroom. rewrite Hroom.
  assert (forall t, t ∈ Room.teams room -> Team.id t = team_id ->
            find_first (GameService.is_team team_id) (Room.teams room) = Some t) as Hfind.
  { intros t Hin <-. apply list_elem_of_lookup in Hin as [i Hi].
    destruct (find_first (GameService.is_team (Team.id t)) (Room.teams room)) as [t'|] eqn:Hf.
    - destruct (update_first_insert _ (fun x => x) _ _ Hf) as (j & Hj & _ & _).
      apply find_first_Some in Hf as [_ Hid]. apply bool_decide_eq_true in Hid.
      assert (i = j) as ->; [|congruence].
      eapply NoDup_lookup; [exact Hnd| |]; rewrite list_lookup_fmap.
      + by rewrite Hi.
      + rewrite Hj. simpl. by rewrite Hid.
    - apply find_first_None in Hf. rewrite Forall_forall in Hf.
      specialize (Hf t (list_elem_of_lookup_2 _ _ _ Hi)).
      unfold GameService.is_team in Hf. by rewrite bool_decide_true in Hf. }
  destruct (decide (upper (Room.code room) = upper room_code)) as [Hcode|Hcode].
  - split; [|split].
    + split.
      * destruct (find_first _ _) as [t|] eqn:Hf; [|done].
        intros Htok%bool_decide_eq_true. split; [done|].
        apply find_first_Some in Hf as [Hin Hid]. apply bool_decide_eq_true in Hid.
        by exists t.
      * intros [_ (t & Hin & Hid & Htok)]. rewrite (Hfind t Hin Hid).
        by apply bool_decide_eq_true.
    + intros t Hin Hid _. by apply Hfind.
    + rewrite bool_decide_eq_true. split; [done|by intros [_ ?]].
  - split; [|split].
    + split; [done|by intros [? _]].
    + done.
    + split; [done|by intros [? _]].
Qed.

Lemma sample_store_room :
  exists room, RoomStore.get sample_store = Some room /\ reachable room.
Proof.
  eexists. split; [reflexivity|]. apply reachable_created.
  split; [reflexivity|]. split; [reflexivity|]. split.
  - repeat constructor.
  - apply (bool_decide_unpack _). vm_compute. reflexivity.
Qed.

Lemma tokens_are_checked_against_the_stored_room_witness :
  RoomService.validate_session_token ascii_upper sample_store "307418" "uuid-3" "uuid-4"
  = true
  /\ RoomService.validate_session_token ascii_upper sample_store "307418" "uuid-3" "uuid-2"
     = false.
Proof.
  destruct sample_store_room as (room & Hroom & Hreach).
  destruct (tokens_are_checked_against_the_stored_room ascii_upper sample_store room
              "307418" "uuid-3" "uuid-4" Hroom Hreach) as [Hvalid _].
  split.
  - apply Hvalid. vm_compute in Hroom. injection Hroom as <-. split; [reflexivity|].
    eexists. split; [right; left|]. done.
  - vm_compute. reflexivity.
Defined.

(** X18. [delete_room] fails with 404 when the code does not name the stored
    room (or none is stored), with 401 when it does and the token is not the
    host's, and leaves the store as it was in both cases; with the room's
    code and the host's token it empties the store and returns [True]. *)
Theorem delete_room_needs_the_code_and_the_host_token (upper : string -> string)
    (room_store : RoomStore.t) (room_code host_token : string) :
  (RoomStore.get_by_code upper room_store room_code = None ->
   RoomService.delete_room upper room_store room_code host_token
   = (room_store, Failed exceptions.RoomNotFound))
  /\ (forall room,
        RoomStore.get_by_code upper room_store room_code = Some room ->
        Room.host_token room <> host_token ->
        RoomService.delete_room upper room_store room_code host_token
        = (room_store, Failed exceptions.Unauthorized))
  /\ (forall room,
        RoomStore.get_by_code upper room_store room_code = Some room ->
        Room.host_token room = host_token ->
        RoomService.delete_room upper room_store room_code host_token
        = (RoomStore.init, Returned true)
        /\ forall code, RoomStore.get_by_code upper RoomStore.init code = None)
  /\ (RoomStore.get_by_code upper room_store room_code = None
      <-> forall room, RoomStore.get room_store = Some room ->
                       upper (Room.code room) <> upper room_code).
Proof.
  unfold RoomService.delete_room. split; [|split; [|split]].
  - intros ->. done.
  - intros room -> Htok. by rewrite decide_False.
  - intros room Hroom Htok. rewrite Hroom, decide_True by done.
    unfold RoomStore.get_by_code in Hroom. unfold RoomStore.delete.
    destruct (RoomStore._room room_store); done.
  - unfold RoomStore.get_by_code, RoomStore.get.
    destruct (RoomStore._room room_store) as [room|]; [|done].
    destruct (decide _) as [Heq|Hne].
    + split; [done|]. intros Hall. by destruct (Hall room eq_refl).
    + split; [|done]. intros _ r [= <-]. done.
Qed.

(** X19. The store holds one room at most: [set] replaces whatever was there,
    and the room it stored is then found by [get] and, by [get_by_code], under
    every code that [upper] maps to what it maps the room's code to, and under
    no other; [delete] reports whether there was a room, and after it nothing
    is found and a second [delete] reports [False]. *)
Theorem store_holds_the_last_room_set (upper : string -> string)
    (room_store : RoomStore.t) (room : Room.t) (code : string) :
  RoomStore.get (RoomStore.set room_store room) = Some room
  /\ RoomStore.exists_ (RoomStore.set room_store room) = true
  /\ (RoomStore.get_by_code upper (RoomStore.set room_store room) code = Some room
      <-> upper code = upper (Room.code room))
  /\ (upper code <> upper (Room.code room) ->
      RoomStore.get_by_code upper (RoomStore.set room_store room) code = None)
  /\ snd (RoomStore.delete room_store) = RoomStore.exists_ room_store
  /\ RoomStore.get (fst (RoomStore.delete room_store)) = None
  /\ RoomStore.exists_ (fst (RoomStore.delete room_store)) = false
  /\ RoomStore.get_by_code upper (fst (RoomStore.delete room_store)) code = None
  /\ RoomStore.delete (fst (RoomStore.delete room_store))
     = (fst (RoomStore.delete room_store), false).
Proof.
  unfold RoomStore.get_by_code, RoomStore.set, RoomStore.get, RoomStore.exists_,
    RoomStore.delete.
  cbn [RoomStore._room]. split; [done|]. split; [done|]. split; [|split].
  - destruct (decide _); split; try done; congruence.
  - intros Hne. by rewrite decide_False.
  - destruct room_store as [[r|]]; done.
Qed.

(** ** What the REST endpoint shows of a room *)

Lemma to_public_with_session_tokens (tokens : list string) (teams : list Team.t) :
  to_public <$> with_session_tokens tokens teams = to_public <$> teams.
Proof.
  revert tokens. induction teams as [|t teams IH]; intros [|tok tokens]; try done.
  cbn [with_session_tokens]. rewrite !fmap_cons, IH. done.
Qed.

(** X20. The room information the REST endpoint returns is the same whatever
    the host token and the teams' session tokens are: it shows the code, the
    status, the host's name, the creation time and, of each team in the
    room's order, the public data only.  The endpoint answers 404 exactly
    when the store has no room or the code, put to upper case by the endpoint
    and again by the store, does not name it. *)
Theorem room_info_shows_no_credential (upper : string -> string)
    (room_store : RoomStore.t) (room : Room.t) (room_code host_token : string)
    (tokens : list string) :
  room_router.get_room upper
    (RoomStore.set room_store (with_credentials host_token tokens room)) room_code
  = room_router.get_room upper (RoomStore.set room_store room) room_code
  /\ (upper (Room.code room) = upper (upper room_code) ->
      room_router.get_room upper (RoomStore.set room_store room) room_code
      = Returned (RoomInfoResponse.mk (Room.code room) (Room.status room)
                    (Room.host_name room) (to_public <$> Room.teams room)
                    (Room.created_at room)))
  /\ (upper (Room.code room) <> upper (upper room_code) ->
      room_router.get_room upper (RoomStore.set room_store room) room_code
      = Failed exceptions.RoomNotFound)
  /\ room_router.get_room upper RoomStore.init room_code = Failed exceptions.RoomNotFound.
Proof.
  unfold room_router.get_room, RoomService.get_room, RoomStore.get_by_code,
    RoomStore.set, with_credentials.
  cbn [RoomStore._room Room.code Room.with_teams Room.with_host_token Room.status
       Room.host_name Room.created_at Room.teams RoomStore.init].
  split; [|split; [|split]].
  - destruct (decide _); [|done].
    cbn [Room.code Room.with_teams Room.with_host_token Room.status
         Room.host_name Room.created_at Room.teams].
    by rewrite to_public_with_session_tokens.
  - intros Hcode. by rewrite decide_True.
  - intros Hcode. by rewrite decide_False.
  - done.
Qed.


(** ** The connection registry *)

(** X21. Opening a connection and closing it again leaves the registry as it
    was: for a websocket the session does not hold yet, in a registry that
    keeps no empty session -- as every registry does that grew from the
    empty one -- [disconnect] after [connect] returns the fresh,
    unauthenticated info and the registry of before. *)
Theorem disconnect_undoes_connect (m : ConnectionManager.t)
    (websocket : ConnectionManager.WebSocket) (room_code : string) :
  ConnectionManager.get_connection_info m websocket room_code = None ->
  ConnectionManager._connections m !! room_code <> Some ∅ ->
  ConnectionManager.get_connection_info
    (ConnectionManager.connect m websocket room_code) websocket room_code
  = Some ConnectionInfo.new
  /\ get_room_connection_count (ConnectionManager.connect m websocket room_code) room_code
     = get_room_connection_count m room_code + 1
  /\ ConnectionManager.disconnect
       (ConnectionManager.connect m websocket room_code) websocket room_code
     = (m, Some ConnectionInfo.new).
Proof.
  unfold ConnectionManager.get_connection_info, ConnectionManager.connect,
    ConnectionManager.disconnect, get_room_connection_count.
  cbn [ConnectionManager._connections ConnectionManager._team_connections
       ConnectionManager._host_connection].
  intros Hfresh Hnonempty. rewrite !lookup_insert_eq.
  cbn [ConnectionInfo.new ConnectionInfo.team_id ConnectionInfo.role truthy].
  rewrite (decide_False (P := None = Some HOST)) by done.
  destruct (ConnectionManager._connections m !! room_code) as [room|] eqn:Hroom;
    cbn [default from_option]; unfold id.
  - split; [done|]. split; [rewrite map_size_insert_None by done; lia|].
    rewrite delete_insert_id by done.
    rewrite decide_False by congruence.
    rewrite insert_insert_eq, insert_id by done. by destruct m.
  - split; [done|]. split; [by rewrite map_size_insert_None, map_size_empty|].
    rewrite delete_insert_id by done.
    rewrite decide_True by done. rewrite delete_insert_id by done. by destruct m.
Qed.

Lemma disconnect_undoes_connect_witness :
  ConnectionManager.disconnect
    (ConnectionManager.connect two_sessions 3%positive "AAAAAA") 3%positive "AAAAAA"
  = (two_sessions, Some ConnectionInfo.new).
Proof.
  destruct (disconnect_undoes_connect two_sessions 3%positive "AAAAAA")
    as (_ & _ & Hundo).
  - reflexivity.
  - vm_compute. discriminate.
  - exact Hundo.
Defined.





(** ** What the projection shows *)

Lemma filter_team_team_view (ser : Serializer.t) (conn_info : ConnectionInfo.t)
    (t : Team.t) :
  filter_team conn_info (team_view ser conn_info t) = Ok (team_view ser conn_info t).
Proof.
  unfold filter_team, team_view.
  destruct conn_info as [a [[| |]|] tid]; cbn [ConnectionInfo.role ConnectionInfo.team_id];
    try reflexivity.
  change (dict.get "id" _) with (Some (JStr (Team.id t))).
  by destruct (differs _ _).
Qed.

Lemma filter_game_state_Ok (ser : Serializer.t) (room : Room.t)
    (conn_info : ConnectionInfo.t) :
  exists m, filter_game_state (state_msg ser room) conn_info = Ok m.
Proof.
  destruct (decide (ConnectionInfo.role conn_info = Some HOST)) as [Hhost|Hhost].
  - exists (state_msg ser room). unfold filter_game_state, state_msg.
    change (dict.get "type" _) with (Some (JStr "GAME_STATE")).
    by rewrite decide_True.
  - eexists. by apply filter_game_state_view.
Qed.

(** X24. What a player or a spectator is sent of the state of a room the
    backend reaches with requests of the annotated types.  In the list of
    teams a team comes without its credential, and with its resources and
    placements blanked unless the recipient is the player of that very team.
    The state of the game goes out as the host gets it: its board lists, cell
    by cell, the amount of every team, the blanked ones included. *)
Theorem projection_blanks_other_teams_in_the_team_list_only (ser : Serializer.t)
    (room : Room.t) (gs : GameState.t) (conn_info : ConnectionInfo.t) :
  typed_reachable room ->
  Room.game_state room = Some gs ->
  ConnectionInfo.role conn_info = Some PLAYER
  \/ ConnectionInfo.role conn_info = Some SPECTATOR ->
  exists data views,
    filter_game_state (state_msg ser room) conn_info
    = Ok [("type", JStr "GAME_STATE"); ("data", JDict data)]
    /\ dict.get "teams" data = Some (JList views)
    /\ length views = length (Room.teams room)
    /\ (forall i t,
          Room.teams room !! i = Some t ->
          exists d,
            views !! i = Some (JDict d)
            /\ dict.get "id" d = Some (JStr (Team.id t))
            /\ dict.get "session_token" d = None
            /\ if bool_decide (ConnectionInfo.role conn_info = Some PLAYER
                               /\ ConnectionInfo.team_id conn_info = Some (Team.id t))
               then dict.get "resources" d = Some (JInt (resources_left t))
                    /\ Team.resources t = PInt (resources_left t)
                    /\ dict.get "placements" d
                       = Some (JList (model_dump.placement ser <$> Team.placements t))
               else dict.get "resources" d = Some JNull
                    /\ dict.get "placements" d = Some (JList []))
    /\ dict.get "game_state" data = dict.get "game_state" (model_dump.room ser room)
    /\ dict.get "game_state" data = Some (model_dump.game_state ser gs)
    /\ Forall (fun c => BoardCell.placements c
                        = placements_on (BoardCell.id c) (Room.teams room))
              (GameState.board gs).
Proof.
  intros Hreach Hgs Hrole.
  assert (ConnectionInfo.role conn_info <> Some HOST) as Hhost
    by (destruct Hrole as [-> | ->]; done).
  pose proof (within_budget_typed _ (typed_reachable_within_budget room Hreach)) as Htyped.
  eexists _, (team_view ser conn_info <$> Room.teams room).
  split; [by apply filter_game_state_view|].
  split; [reflexivity|].
  split; [by rewrite length_fmap|].
  split.
  { intros i t Hi. eexists. split.
    { rewrite list_lookup_fmap, Hi. reflexivity. }
    split; [reflexivity|]. split; [reflexivity|].
    assert (typed_team t) as [[r Hr] _].
    { rewrite Forall_forall in Htyped. by eapply Htyped, list_elem_of_lookup_2. }
    assert (resources_left t = r) as Hleft by (unfold resources_left; by rewrite Hr).
    destruct conn_info as [a role tid]. cbn [ConnectionInfo.role ConnectionInfo.team_id] in *.
    destruct Hrole as [-> | ->].
    - cbn [dict.get]. repeat (rewrite decide_False by done). rewrite !decide_True by done.
      case_bool_decide as Hown.
      + destruct Hown as [_ ->]. unfold differs. rewrite bool_decide_true by done.
        cbn [negb]. rewrite Hr, Hleft. done.
      + assert (differs (Some (JStr (Team.id t))) tid = true) as ->; [|done].
        unfold differs. destruct tid as [s|]; [|done].
        rewrite bool_decide_false; [done|]. intros Heq. apply Hown. by rewrite Heq.
    - rewrite bool_decide_false by (intros [? _]; done). done. }
  split; [reflexivity|].
  split; [rewrite Hgs; reflexivity|].
  destruct (typed_reachable_invariants room Hreach) as [_ Hsync].
  by destruct (Hsync gs Hgs) as [Hboard _].
Qed.

Lemma projection_blanks_other_teams_in_the_team_list_only_witness :
  let room := fst (GameService.place_resource action_room "team-0" (JStr "cell-0-0")
                     (JInt 3)) in
  exists gs data views,
    Room.game_state room = Some gs
    /\ filter_game_state (state_msg sample_serializer room)
         (ConnectionInfo.mk true (Some PLAYER) (Some "team-1"))
       = Ok [("type", JStr "GAME_STATE"); ("data", JDict data)]
    /\ dict.get "teams" data = Some (JList views)
    /\ Forall (fun c => BoardCell.placements c
                        = placements_on (BoardCell.id c) (Room.teams room))
              (GameState.board gs).
Proof.
  intros room.
  assert (typed_reachable room) as Hreach.
  { eapply reachable_step; [apply action_room_reachable|].
    eapply step_place_resource; [|apply surjective_pairing]. split; by eexists. }
  destruct (Room.game_state room) as [gs|] eqn:Hgs; [|by vm_compute in Hgs].
  destruct (projection_blanks_other_teams_in_the_team_list_only sample_serializer room gs
              (ConnectionInfo.mk true (Some PLAYER) (Some "team-1")) Hreach Hgs
              (or_introl eq_refl))
    as (data & views & Hmsg & Hteams & _ & _ & _ & _ & Hboard).
  exists gs, data, views. done.
Defined.

(** X25. The projection is idempotent on a room's state: projecting for a
    recipient what was projected for that recipient changes nothing. *)
Theorem projecting_twice_is_projecting_once (ser : Serializer.t) (room : Room.t)
    (conn_info : ConnectionInfo.t) :
  exists m,
    filter_game_state (state_msg ser room) conn_info = Ok m
    /\ filter_game_state m conn_info = Ok m.
Proof.
  destruct (decide (ConnectionInfo.role conn_info = Some HOST)) as [Hhost|Hhost].
  - exists (state_msg ser room).
    assert (filter_game_state (state_msg ser room) conn_info = Ok (state_msg ser room)) as H.
    { unfold filter_game_state, state_msg.
      change (dict.get "type" _) with (Some (JStr "GAME_STATE")).
      by rewrite decide_True. }
    done.
  - eexists. split; [by apply filter_game_state_view|].
    unfold filter_game_state.
    change (dict.get "type" _) with (Some (JStr "GAME_STATE")).
    rewrite decide_False by done.
    cbn [dict.get]. rewrite decide_False by done. rewrite decide_True by done.
    cbn [default from_option id].
    change (dict.get "teams" _)
      with (Some (JList (team_view ser conn_info <$> Room.teams room))).
    cbn [iterate rbind].
    rewrite (rmap_fmap _ _ (team_view ser conn_info)) by apply filter_team_team_view.
    cbn [rbind]. vm_compute dict.pop. vm_compute dict.set. done.
Qed.
